(** * nxt-standalone: backend resource-state tracking, state elision and
      command execution

    Shallow embedding of
    - [src/backend/d3d12/BufferD3D12.cpp] and
      [src/backend/d3d12/BlendStateD3D12.cpp] (module [d3d12]),
    - [src/backend/vulkan/VulkanInfo.cpp]   (module [vulkan]),
    - [src/backend/opengl/CommandBufferGL.cpp] (module [opengl]),
    followed by the properties proved about them.

    Conventions.  C++ unsigned integers and bit masks are [Z]; the bit
    operators are [Z.land], [Z.lor], [Z.shiftl].  A C++ [enum] whose values
    are only compared is an inductive type; an [enum] used as a mask is [Z].
    A method that writes through an out-pointer and returns [bool] returns an
    [option].  Calls into the native API are recorded in a list, in the order
    in which they are issued. *)

From Stdlib Require Import ZArith List Bool Lia String Sorted FinFun.
Import ListNotations.

Local Open Scope Z_scope.

(** ** Bit-mask helpers shared by the three backends *)

(** [mask & flag] used as a condition: true when the intersection is
    non-zero. *)
Definition has (mask flag : Z) : bool := negb (Z.land mask flag =? 0).

(** [state |= flag] executed under a condition. *)
Definition or_when (c : bool) (state flag : Z) : Z :=
  if c then Z.lor state flag else state.

(** ** The [nxt] front-end enumerations used by the backends *)

Module nxt.

(** [nxt::BufferUsageBit] is a bit-mask enumeration declared in the generated
    API header, which is not part of the sources at hand.  Its enumerators
    are therefore parameters: eight masks, known only to be distinct single
    bits of a 32-bit word. *)
Module BufferUsageBit.
Class values : Type := {
  MapRead : Z;
  MapWrite : Z;
  TransferSrc : Z;
  TransferDst : Z;
  Index : Z;
  Vertex : Z;
  Uniform : Z;
  Storage : Z;
  single_bits :
    exists positions : list Z,
      [MapRead; MapWrite; TransferSrc; TransferDst;
       Index; Vertex; Uniform; Storage] = map (Z.pow 2) positions
      /\ Forall (fun k => 0 <= k < 32) positions
      /\ NoDup positions
}.

(** The assignment made by the generated header. *)
Program Definition header : values := {|
  MapRead := 1; MapWrite := 2; TransferSrc := 4; TransferDst := 8;
  Index := 16; Vertex := 32; Uniform := 64; Storage := 128 |}.
Next Obligation.
  exists [0; 1; 2; 3; 4; 5; 6; 7]. split; [reflexivity | split].
  - repeat constructor; lia.
  - repeat constructor; cbn; intuition lia.
Qed.
End BufferUsageBit.

(** [nxt::BlendFactor] and [nxt::BlendOperation], with the enumerators the
    D3D12 backend names; any other value of the underlying integer is kept
    as [other]. *)
Module BlendFactor.
Inductive t : Type :=
| Zero
| One
| SrcColor
| OneMinusSrcColor
| SrcAlpha
| OneMinusSrcAlpha
| DstColor
| OneMinusDstColor
| DstAlpha
| OneMinusDstAlpha
| SrcAlphaSaturated
| BlendColor
| OneMinusBlendColor
| other (value : Z).
End BlendFactor.

Module BlendOperation.
Inductive t : Type :=
| Add
| Subtract
| ReverseSubtract
| Min
| Max
| other (value : Z).
End BlendOperation.

(** [nxt::ColorWriteMask], a bit-mask enumeration of the generated header:
    its enumerators are parameters. *)
Module ColorWriteMask.
Class values : Type := {
  Red : Z;
  Green : Z;
  Blue : Z;
  Alpha : Z
}.
End ColorWriteMask.

End nxt.

(** ** [common/SerialQueue.h] and [common/Assert.h] *)

(** [ASSERT(condition)] in a debug build: [Some tt] when the condition holds
    and execution goes on, [None] when the assertion fires. *)
Definition ASSERT (condition : bool) : option unit :=
  if condition then Some tt else None.

Definition Serial : Type := Z.

Module SerialQueue.
Section Queue.
Variable T : Type.

(** Modelled from the spec: the class template [SerialQueue<T>] of
    [common/SerialQueue.h] is not part of the sources at hand.  Section 3
    describes it as an "ordered collection of (item, serial) pairs, serials
    non-decreasing at insertion"; section 4.1 gives its operations: "Enqueue
    (item, serial) requires serial >= every previously enqueued serial",
    "IterateUpTo(serial) yields, in enqueue order, all items whose serial <=
    given value; ClearUpTo(serial) removes that prefix", and a non-monotonic
    serial is a programming-invariant violation (section 7). *)
Definition t : Type := list (Serial * T).

Definition empty : t := [].

Definition Empty (q : t) : bool :=
  match q with [] => true | _ :: _ => false end.

Definition LastSerial (q : t) : option Serial :=
  match rev q with [] => None | (serial, _) :: _ => Some serial end.

Definition Enqueue (q : t) (value : T) (serial : Serial) : option t :=
  match ASSERT (match LastSerial q with
                | None => true
                | Some last => last <=? serial
                end) with
  | Some _ => Some (q ++ [(serial, value)])
  | None => None
  end.

Fixpoint IterateUpTo (q : t) (serial : Serial) : list T :=
  match q with
  | [] => []
  | (s, value) :: rest =>
      if s <=? serial then value :: IterateUpTo rest serial else []
  end.

Fixpoint ClearUpTo (q : t) (serial : Serial) : t :=
  match q with
  | [] => []
  | (s, value) :: rest =>
      if s <=? serial then ClearUpTo rest serial else q
  end.

End Queue.
Arguments empty {T}.
Arguments Empty {T} q.
Arguments LastSerial {T} q.
Arguments Enqueue {T} q value serial.
Arguments IterateUpTo {T} q serial.
Arguments ClearUpTo {T} q serial.
End SerialQueue.

(** ** Direct3D 12 backend: [BufferD3D12.cpp] *)

Module d3d12.

(** Values of [d3d12.h] (Windows SDK). *)
Definition D3D12_RESOURCE_FLAG_NONE : Z := 0.
Definition D3D12_RESOURCE_FLAG_ALLOW_UNORDERED_ACCESS : Z := 0x4.

Definition D3D12_RESOURCE_STATE_COMMON : Z := 0.
Definition D3D12_RESOURCE_STATE_VERTEX_AND_CONSTANT_BUFFER : Z := 0x1.
Definition D3D12_RESOURCE_STATE_INDEX_BUFFER : Z := 0x2.
Definition D3D12_RESOURCE_STATE_UNORDERED_ACCESS : Z := 0x8.
Definition D3D12_RESOURCE_STATE_NON_PIXEL_SHADER_RESOURCE : Z := 0x40.
Definition D3D12_RESOURCE_STATE_PIXEL_SHADER_RESOURCE : Z := 0x80.
Definition D3D12_RESOURCE_STATE_INDIRECT_ARGUMENT : Z := 0x200.
Definition D3D12_RESOURCE_STATE_COPY_DEST : Z := 0x400.
Definition D3D12_RESOURCE_STATE_COPY_SOURCE : Z := 0x800.
Definition D3D12_RESOURCE_STATE_GENERIC_READ : Z :=
  Z.lor (Z.lor (Z.lor (Z.lor (Z.lor
    D3D12_RESOURCE_STATE_VERTEX_AND_CONSTANT_BUFFER
    D3D12_RESOURCE_STATE_INDEX_BUFFER)
    D3D12_RESOURCE_STATE_NON_PIXEL_SHADER_RESOURCE)
    D3D12_RESOURCE_STATE_PIXEL_SHADER_RESOURCE)
    D3D12_RESOURCE_STATE_INDIRECT_ARGUMENT)
    D3D12_RESOURCE_STATE_COPY_SOURCE.

Inductive D3D12_HEAP_TYPE : Type :=
| D3D12_HEAP_TYPE_DEFAULT
| D3D12_HEAP_TYPE_UPLOAD
| D3D12_HEAP_TYPE_READBACK
| D3D12_HEAP_TYPE_CUSTOM.

Definition D3D12_HEAP_TYPE_eqb (x y : D3D12_HEAP_TYPE) : bool :=
  match x, y with
  | D3D12_HEAP_TYPE_DEFAULT, D3D12_HEAP_TYPE_DEFAULT
  | D3D12_HEAP_TYPE_UPLOAD, D3D12_HEAP_TYPE_UPLOAD
  | D3D12_HEAP_TYPE_READBACK, D3D12_HEAP_TYPE_READBACK
  | D3D12_HEAP_TYPE_CUSTOM, D3D12_HEAP_TYPE_CUSTOM => true
  | _, _ => false
  end.

Inductive D3D12_RESOURCE_DIMENSION : Type := D3D12_RESOURCE_DIMENSION_BUFFER.
Inductive DXGI_FORMAT : Type := DXGI_FORMAT_UNKNOWN.
Inductive D3D12_TEXTURE_LAYOUT : Type := D3D12_TEXTURE_LAYOUT_ROW_MAJOR.
Inductive D3D12_RESOURCE_BARRIER_TYPE : Type := D3D12_RESOURCE_BARRIER_TYPE_TRANSITION.
Inductive D3D12_RESOURCE_BARRIER_FLAGS : Type := D3D12_RESOURCE_BARRIER_FLAG_NONE.

Record D3D12_RESOURCE_DESC : Type := {
  Dimension : D3D12_RESOURCE_DIMENSION;
  Alignment : Z;
  Width : Z;
  Height : Z;
  DepthOrArraySize : Z;
  MipLevels : Z;
  Format : DXGI_FORMAT;
  SampleDesc_Count : Z;
  SampleDesc_Quality : Z;
  Layout : D3D12_TEXTURE_LAYOUT;
  Flags : Z
}.

(** [ID3D12Resource*]: the address of the native resource. *)
Definition ID3D12Resource : Type := Z.

Record D3D12_RESOURCE_BARRIER : Type := {
  Type_ : D3D12_RESOURCE_BARRIER_TYPE;
  Flags_ : D3D12_RESOURCE_BARRIER_FLAGS;
  Transition_pResource : ID3D12Resource;
  Transition_StateBefore : Z;
  Transition_StateAfter : Z;
  Transition_Subresource : Z
}.

(** What the buffer asks of its collaborators, in call order:
    [ResourceAllocator::Allocate] and
    [ID3D12GraphicsCommandList::ResourceBarrier]. *)
Inductive Call : Type :=
| Allocate (heapType : D3D12_HEAP_TYPE) (resourceDescriptor : D3D12_RESOURCE_DESC)
    (initialUsage : Z)
| ResourceBarrier (numBarriers : Z) (barriers : list D3D12_RESOURCE_BARRIER).

Section Buffer.
Context {usageBit : nxt.BufferUsageBit.values}.
Import nxt.BufferUsageBit.

(** [Align] of [common/Math.h], not part of the sources at hand. *)
Variable Align : Z -> Z -> Z.

Definition D3D12ResourceFlags (usage : Z) : Z :=
  let flags := D3D12_RESOURCE_FLAG_NONE in
  let flags :=
    or_when (has usage Storage) flags D3D12_RESOURCE_FLAG_ALLOW_UNORDERED_ACCESS in
  flags.

Definition D3D12BufferUsage (usage : Z) : Z :=
  let resourceState := D3D12_RESOURCE_STATE_COMMON in
  let resourceState :=
    or_when (has usage TransferSrc) resourceState D3D12_RESOURCE_STATE_COPY_SOURCE in
  let resourceState :=
    or_when (has usage TransferDst) resourceState D3D12_RESOURCE_STATE_COPY_DEST in
  let resourceState :=
    or_when (has usage (Z.lor Vertex Uniform)) resourceState
      D3D12_RESOURCE_STATE_VERTEX_AND_CONSTANT_BUFFER in
  let resourceState :=
    or_when (has usage Index) resourceState D3D12_RESOURCE_STATE_INDEX_BUFFER in
  let resourceState :=
    or_when (has usage Storage) resourceState D3D12_RESOURCE_STATE_UNORDERED_ACCESS in
  resourceState.

Definition D3D12HeapType (allowedUsage : Z) : D3D12_HEAP_TYPE :=
  if has allowedUsage MapRead then D3D12_HEAP_TYPE_READBACK
  else if has allowedUsage MapWrite then D3D12_HEAP_TYPE_UPLOAD
  else D3D12_HEAP_TYPE_DEFAULT.

(** The fields of [BufferBase] the backend reads ([GetAllowedUsage],
    [GetUsage], [GetSize]) and the resource handed back by the
    allocator. *)
Record Buffer : Type := {
  GetAllowedUsage : Z;
  GetUsage : Z;
  GetSize : Z;
  mResource : ID3D12Resource
}.

Definition GetD3D12Size (size : Z) : Z := Align size 256.

(** [Buffer::Buffer]: the single call it makes, to the allocator. *)
Definition Buffer_constructor (allowedUsage usage size : Z) : Call :=
  let resourceDescriptor := {|
    Dimension := D3D12_RESOURCE_DIMENSION_BUFFER;
    Alignment := 0;
    Width := GetD3D12Size size;
    Height := 1;
    DepthOrArraySize := 1;
    MipLevels := 1;
    Format := DXGI_FORMAT_UNKNOWN;
    SampleDesc_Count := 1;
    SampleDesc_Quality := 0;
    Layout := D3D12_TEXTURE_LAYOUT_ROW_MAJOR;
    Flags := D3D12ResourceFlags allowedUsage |} in
  let heapType := D3D12HeapType allowedUsage in
  let bufferUsage := D3D12BufferUsage usage in
  let bufferUsage :=
    or_when (D3D12_HEAP_TYPE_eqb heapType D3D12_HEAP_TYPE_READBACK)
      bufferUsage D3D12_RESOURCE_STATE_COPY_DEST in
  let bufferUsage :=
    or_when (D3D12_HEAP_TYPE_eqb heapType D3D12_HEAP_TYPE_UPLOAD)
      bufferUsage D3D12_RESOURCE_STATE_GENERIC_READ in
  Allocate heapType resourceDescriptor bufferUsage.

(** [Buffer::GetResourceTransitionBarrier]: [Some b] stands for "returns
    [true] after filling [*barrier] with [b]", [None] for "returns
    [false], [*barrier] untouched". *)
Definition GetResourceTransitionBarrier
    (this : Buffer) (currentUsage targetUsage : Z)
  : option D3D12_RESOURCE_BARRIER :=
  if has (GetAllowedUsage this) (Z.lor MapRead MapWrite) then None
  else
    let stateBefore := D3D12BufferUsage currentUsage in
    let stateAfter := D3D12BufferUsage targetUsage in
    if stateBefore =? stateAfter then None
    else Some {|
      Type_ := D3D12_RESOURCE_BARRIER_TYPE_TRANSITION;
      Flags_ := D3D12_RESOURCE_BARRIER_FLAG_NONE;
      Transition_pResource := mResource this;
      Transition_StateBefore := stateBefore;
      Transition_StateAfter := stateAfter;
      Transition_Subresource := 0 |}.

(** [Buffer::TransitionUsageImpl]: the calls recorded on the pending
    command list. *)
Definition TransitionUsageImpl
    (this : Buffer) (currentUsage targetUsage : Z) : list Call :=
  match GetResourceTransitionBarrier this currentUsage targetUsage with
  | Some barrier => [ResourceBarrier 1 [barrier]]
  | None => []
  end.

(** Modelled from the spec: [BufferBase::UpdateUsageInternal], the
    front-end caller of [TransitionUsageImpl], is not part of the sources
    at hand.  Section 3 gives a buffer "a mutable current usage bitset that
    changes as the stream progresses", section 4.3 tracks usage "as one
    bitset at a time", and section 4.5 has a usage-transition record
    "invoke 4.3 and, if required, emit the transition immediately": the
    request is passed to the backend with the current usage, which then
    becomes the requested one. *)
Definition UpdateUsageInternal (this : Buffer) (usage : Z) : Buffer * list Call :=
  let calls := TransitionUsageImpl this (GetUsage this) usage in
  ({| GetAllowedUsage := GetAllowedUsage this;
      GetUsage := usage;
      GetSize := GetSize this;
      mResource := mResource this |}, calls).

(** A sequence of usage-transition requests against one buffer. *)
Fixpoint TransitionRequests (this : Buffer) (requests : list Z)
  : Buffer * list Call :=
  match requests with
  | [] => (this, [])
  | usage :: rest =>
      let (this', calls) := UpdateUsageInternal this usage in
      let (this'', calls') := TransitionRequests this' rest in
      (this'', calls ++ calls')
  end.

End Buffer.

(** *** [MapReadRequestTracker] *)

Inductive NXTBufferMapReadStatus : Type :=
| NXT_BUFFER_MAP_READ_STATUS_SUCCESS
| NXT_BUFFER_MAP_READ_STATUS_ERROR.

(** [MapReadRequestTracker::Request]; [buffer] is the buffer's address and
    [data] the mapped host pointer. *)
Record Request : Type := {
  buffer : Z;
  mapSerial : Z;
  data : Z
}.

(** [Buffer::OnMapReadCommandSerialFinished] forwards to
    [BufferBase::CallMapReadCallback], recorded as it is called. *)
Inductive Callback : Type :=
| CallMapReadCallback (buffer : Z) (mapSerial : Z)
    (status : NXTBufferMapReadStatus) (data : Z).

Definition OnMapReadCommandSerialFinished (this : Z) (mapSerial data : Z) : Callback :=
  CallMapReadCallback this mapSerial NXT_BUFFER_MAP_READ_STATUS_SUCCESS data.

Record MapReadRequestTracker : Type := {
  mInflightRequests : SerialQueue.t Request
}.

(** [MapReadRequestTracker::MapReadRequestTracker] *)
Definition MapReadRequestTracker_constructor : MapReadRequestTracker :=
  {| mInflightRequests := SerialQueue.empty |}.

(** [MapReadRequestTracker::~MapReadRequestTracker]: [None] when the debug
    assertion fires. *)
Definition MapReadRequestTracker_destructor (this : MapReadRequestTracker)
  : option unit :=
  ASSERT (SerialQueue.Empty (mInflightRequests this)).

(** [MapReadRequestTracker::Track]; [deviceSerial] is what
    [mDevice->GetSerial()] returns at the time of the call.  [None] when the
    queue refuses the serial. *)
Definition Track (this : MapReadRequestTracker) (buffer mapSerial data : Z)
    (deviceSerial : Serial) : option MapReadRequestTracker :=
  let request := {| buffer := buffer; mapSerial := mapSerial; data := data |} in
  match SerialQueue.Enqueue (mInflightRequests this) request deviceSerial with
  | Some q => Some {| mInflightRequests := q |}
  | None => None
  end.

(** [MapReadRequestTracker::Tick] *)
Definition Tick (this : MapReadRequestTracker) (finishedSerial : Serial)
  : MapReadRequestTracker * list Callback :=
  let callbacks :=
    map (fun request =>
           OnMapReadCommandSerialFinished (buffer request) (mapSerial request)
             (data request))
        (SerialQueue.IterateUpTo (mInflightRequests this) finishedSerial) in
  ({| mInflightRequests :=
        SerialQueue.ClearUpTo (mInflightRequests this) finishedSerial |},
   callbacks).

(** The life of a tracker between construction and destruction: a sequence
    of [Track] and [Tick] calls. *)
Inductive TrackerCall : Type :=
| CallTrack (buffer mapSerial data : Z) (deviceSerial : Serial)
| CallTick (finishedSerial : Serial).

Fixpoint RunTracker (this : MapReadRequestTracker) (calls : list TrackerCall)
  : option (MapReadRequestTracker * list Callback) :=
  match calls with
  | [] => Some (this, [])
  | CallTrack buffer mapSerial data deviceSerial :: rest =>
      match Track this buffer mapSerial data deviceSerial with
      | Some this' => RunTracker this' rest
      | None => None
      end
  | CallTick finishedSerial :: rest =>
      let (this', callbacks) := Tick this finishedSerial in
      match RunTracker this' rest with
      | Some (this'', callbacks') => Some (this'', callbacks ++ callbacks')
      | None => None
      end
  end.

(** *** [Buffer::MapReadAsyncImpl] *)

Definition HRESULT : Type := Z.

(** The call made on the native resource: [ID3D12Resource::Map] with the
    sub-resource and the two ends of the read range. *)
Inductive ResourceCall : Type :=
| Map (resource : ID3D12Resource) (subresource : Z) (readBegin readEnd : Z).

Section MapRead.
(** [ASSERT_SUCCESS] of [D3D12Backend.h], which is not part of the sources
    at hand: [Some tt] when execution goes on after it. *)
Variable ASSERT_SUCCESS : HRESULT -> option unit.

(** [Buffer::MapReadAsyncImpl] for the buffer at address [this] that owns
    [resource].  [hr] is what [Map] returns and [data] the pointer it stores;
    [tracker] is the device's tracker and [deviceSerial] the device's serial
    at the time of the call.  The sum [start + count] is computed on
    [uint32_t]. *)
Definition MapReadAsyncImpl (tracker : MapReadRequestTracker) (this : Z)
    (resource : ID3D12Resource) (serial start count : Z)
    (hr : HRESULT) (data : Z) (deviceSerial : Serial)
  : list ResourceCall * option MapReadRequestTracker :=
  let readBegin := start in
  let readEnd := (start + count) mod 2 ^ 32 in
  let call := Map resource 0 readBegin readEnd in
  match ASSERT_SUCCESS hr with
  | None => ([call], None)
  | Some _ => ([call], Track tracker this serial (data + start) deviceSerial)
  end.

End MapRead.

(** *** [BlendStateD3D12.cpp] *)

(** Values of [D3D12_BLEND], [D3D12_BLEND_OP], [D3D12_LOGIC_OP] and
    [D3D12_COLOR_WRITE_ENABLE] in [d3d12.h]. *)
Definition D3D12_BLEND : Type := Z.
Definition D3D12_BLEND_ZERO : D3D12_BLEND := 1.
Definition D3D12_BLEND_ONE : D3D12_BLEND := 2.
Definition D3D12_BLEND_SRC_COLOR : D3D12_BLEND := 3.
Definition D3D12_BLEND_INV_SRC_COLOR : D3D12_BLEND := 4.
Definition D3D12_BLEND_SRC_ALPHA : D3D12_BLEND := 5.
Definition D3D12_BLEND_INV_SRC_ALPHA : D3D12_BLEND := 6.
Definition D3D12_BLEND_DEST_ALPHA : D3D12_BLEND := 7.
Definition D3D12_BLEND_INV_DEST_ALPHA : D3D12_BLEND := 8.
Definition D3D12_BLEND_DEST_COLOR : D3D12_BLEND := 9.
Definition D3D12_BLEND_INV_DEST_COLOR : D3D12_BLEND := 10.
Definition D3D12_BLEND_SRC_ALPHA_SAT : D3D12_BLEND := 11.
Definition D3D12_BLEND_BLEND_FACTOR : D3D12_BLEND := 14.
Definition D3D12_BLEND_INV_BLEND_FACTOR : D3D12_BLEND := 15.

Definition D3D12_BLEND_OP : Type := Z.
Definition D3D12_BLEND_OP_ADD : D3D12_BLEND_OP := 1.
Definition D3D12_BLEND_OP_SUBTRACT : D3D12_BLEND_OP := 2.
Definition D3D12_BLEND_OP_REV_SUBTRACT : D3D12_BLEND_OP := 3.
Definition D3D12_BLEND_OP_MIN : D3D12_BLEND_OP := 4.
Definition D3D12_BLEND_OP_MAX : D3D12_BLEND_OP := 5.

Definition D3D12_LOGIC_OP : Type := Z.
Definition D3D12_LOGIC_OP_NOOP : D3D12_LOGIC_OP := 4.

Definition D3D12_COLOR_WRITE_ENABLE_RED : Z := 1.
Definition D3D12_COLOR_WRITE_ENABLE_GREEN : Z := 2.
Definition D3D12_COLOR_WRITE_ENABLE_BLUE : Z := 4.
Definition D3D12_COLOR_WRITE_ENABLE_ALPHA : Z := 8.

(** [D3D12Blend]; [None] stands for [UNREACHABLE()]. *)
Definition D3D12Blend (factor : nxt.BlendFactor.t) : option D3D12_BLEND :=
  match factor with
  | nxt.BlendFactor.Zero => Some D3D12_BLEND_ZERO
  | nxt.BlendFactor.One => Some D3D12_BLEND_ONE
  | nxt.BlendFactor.SrcColor => Some D3D12_BLEND_SRC_COLOR
  | nxt.BlendFactor.OneMinusSrcColor => Some D3D12_BLEND_INV_SRC_COLOR
  | nxt.BlendFactor.SrcAlpha => Some D3D12_BLEND_SRC_ALPHA
  | nxt.BlendFactor.OneMinusSrcAlpha => Some D3D12_BLEND_INV_SRC_ALPHA
  | nxt.BlendFactor.DstColor => Some D3D12_BLEND_DEST_COLOR
  | nxt.BlendFactor.OneMinusDstColor => Some D3D12_BLEND_INV_DEST_COLOR
  | nxt.BlendFactor.DstAlpha => Some D3D12_BLEND_DEST_ALPHA
  | nxt.BlendFactor.OneMinusDstAlpha => Some D3D12_BLEND_INV_DEST_ALPHA
  | nxt.BlendFactor.SrcAlphaSaturated => Some D3D12_BLEND_SRC_ALPHA_SAT
  | nxt.BlendFactor.BlendColor => Some D3D12_BLEND_BLEND_FACTOR
  | nxt.BlendFactor.OneMinusBlendColor => Some D3D12_BLEND_INV_BLEND_FACTOR
  | nxt.BlendFactor.other _ => None
  end.

(** [D3D12BlendOperation] *)
Definition D3D12BlendOperation (operation : nxt.BlendOperation.t)
  : option D3D12_BLEND_OP :=
  match operation with
  | nxt.BlendOperation.Add => Some D3D12_BLEND_OP_ADD
  | nxt.BlendOperation.Subtract => Some D3D12_BLEND_OP_SUBTRACT
  | nxt.BlendOperation.ReverseSubtract => Some D3D12_BLEND_OP_REV_SUBTRACT
  | nxt.BlendOperation.Min => Some D3D12_BLEND_OP_MIN
  | nxt.BlendOperation.Max => Some D3D12_BLEND_OP_MAX
  | nxt.BlendOperation.other _ => None
  end.

(** [D3D12RenderTargetWriteMask]: [static_cast<uint8_t>] of the 32-bit
    mask. *)
Definition D3D12RenderTargetWriteMask (colorWriteMask : Z) : Z :=
  colorWriteMask mod 2 ^ 8.

(** [BlendStateBase::BlendInfo], read through [GetBlendInfo]. *)
Record BlendOpFactor : Type := {
  operation : nxt.BlendOperation.t;
  srcFactor : nxt.BlendFactor.t;
  dstFactor : nxt.BlendFactor.t
}.

Record BlendInfo : Type := {
  blendEnabled : bool;
  alphaBlend : BlendOpFactor;
  colorBlend : BlendOpFactor;
  colorWriteMask : Z
}.

Record D3D12_RENDER_TARGET_BLEND_DESC : Type := {
  BlendEnable : bool;
  LogicOpEnable : bool;
  SrcBlend : D3D12_BLEND;
  DestBlend : D3D12_BLEND;
  BlendOp : D3D12_BLEND_OP;
  SrcBlendAlpha : D3D12_BLEND;
  DestBlendAlpha : D3D12_BLEND;
  BlendOpAlpha : D3D12_BLEND_OP;
  LogicOp : D3D12_LOGIC_OP;
  RenderTargetWriteMask : Z
}.

(** [BlendState::BlendState]: the descriptor it leaves in [mBlendDesc], or
    [None] when one of the translations reaches [UNREACHABLE()]. *)
Definition BlendState_constructor (info : BlendInfo)
  : option D3D12_RENDER_TARGET_BLEND_DESC :=
  match D3D12Blend (srcFactor (colorBlend info)) with
  | None => None
  | Some srcBlend =>
  match D3D12Blend (dstFactor (colorBlend info)) with
  | None => None
  | Some destBlend =>
  match D3D12BlendOperation (operation (colorBlend info)) with
  | None => None
  | Some blendOp =>
  match D3D12Blend (srcFactor (alphaBlend info)) with
  | None => None
  | Some srcBlendAlpha =>
  match D3D12Blend (dstFactor (alphaBlend info)) with
  | None => None
  | Some destBlendAlpha =>
  match D3D12BlendOperation (operation (alphaBlend info)) with
  | None => None
  | Some blendOpAlpha =>
      Some {| BlendEnable := blendEnabled info;
              LogicOpEnable := false;
              SrcBlend := srcBlend;
              DestBlend := destBlend;
              BlendOp := blendOp;
              SrcBlendAlpha := srcBlendAlpha;
              DestBlendAlpha := destBlendAlpha;
              BlendOpAlpha := blendOpAlpha;
              LogicOp := D3D12_LOGIC_OP_NOOP;
              RenderTargetWriteMask :=
                D3D12RenderTargetWriteMask (colorWriteMask info) |}
  end end end end end end.

End d3d12.

(** ** Vulkan backend: [VulkanInfo.cpp] *)


Module vulkan.

(** Values of [vulkan.h]. *)
Definition VkResult : Type := Z.
Definition VK_SUCCESS : VkResult := 0.
Definition VK_INCOMPLETE : VkResult := 5.
Definition VK_MAX_EXTENSION_NAME_SIZE : nat := 256.

Definition VkResult_neqb (x y : VkResult) : bool := negb (x =? y).

(** [strncmp(a, b, n) == 0] on NUL-terminated names: the first [n]
    characters agree. *)
Definition strncmp_eq0 (a b : string) (n : nat) : bool :=
  String.eqb (substring 0 n a) (substring 0 n b).

Record VkLayerProperties : Type := { layerName : string }.
Record VkExtensionProperties : Type := { extensionName : string }.

Definition IsLayerName (layer : VkLayerProperties) (name : string) : bool :=
  strncmp_eq0 (layerName layer) name VK_MAX_EXTENSION_NAME_SIZE.

Definition IsExtensionName (extension : VkExtensionProperties) (name : string) : bool :=
  strncmp_eq0 (extensionName extension) name VK_MAX_EXTENSION_NAME_SIZE.

Definition kLayerNameLunargStandardValidation : string :=
  "VK_LAYER_LUNARG_standard_validation"%string.
Definition kExtensionNameExtDebugReport : string := "VK_EXT_debug_report"%string.
Definition kExtensionNameKhrSurface : string := "VK_KHR_surface"%string.
Definition kExtensionNameKhrSwapchain : string := "VK_KHR_swapchain"%string.

(** The entry points of [device.fn] that the two functions call.  In the
    enumeration calls [count] is the value of [*pCount] on entry and
    [withData] tells whether the array pointer is non-null. *)
Inductive VkCall : Type :=
| EnumerateInstanceLayerProperties (count : Z) (withData : bool)
| EnumerateInstanceExtensionProperties (count : Z) (withData : bool)
| GetPhysicalDeviceProperties (physicalDevice : Z)
| GetPhysicalDeviceFeatures (physicalDevice : Z)
| GetPhysicalDeviceMemoryProperties (physicalDevice : Z)
| GetPhysicalDeviceQueueFamilyProperties (physicalDevice : Z) (count : Z) (withData : bool)
| EnumerateDeviceLayerProperties (physicalDevice : Z) (count : Z) (withData : bool)
| EnumerateDeviceExtensionProperties (physicalDevice : Z) (count : Z) (withData : bool).

Definition IsEnumeration (call : VkCall) : bool :=
  match call with
  | EnumerateInstanceLayerProperties _ _
  | EnumerateInstanceExtensionProperties _ _
  | EnumerateDeviceLayerProperties _ _ _
  | EnumerateDeviceExtensionProperties _ _ _ => true
  | _ => false
  end.

Section Info.
(** Structures of [vulkan.h] that are only stored. *)
Variables VkPhysicalDeviceProperties VkPhysicalDeviceFeatures
  VkMemoryType VkMemoryHeap VkQueueFamilyProperties : Type.
Variable defaultQueueFamily : VkQueueFamilyProperties.

(** What a driver call leaves behind: its [VkResult] (unused by the [void]
    entry points), the value of [*pCount] on return, and the elements it
    wrote to the array it was given. *)
Record Outcome (A : Type) : Type := {
  result : VkResult;
  countOut : Z;
  written : list A
}.
Arguments result {A}.
Arguments countOut {A}.
Arguments written {A}.

(** The driver.  It is outside the program: each entry point is an arbitrary
    function of the calls made so far (oldest first) and of the arguments of
    the present call. *)
Record VulkanFunctions : Type := {
  fnEnumerateInstanceLayerProperties :
    list VkCall -> Z -> bool -> Outcome VkLayerProperties;
  fnEnumerateInstanceExtensionProperties :
    list VkCall -> Z -> bool -> Outcome VkExtensionProperties;
  fnGetPhysicalDeviceProperties : list VkCall -> Z -> VkPhysicalDeviceProperties;
  fnGetPhysicalDeviceFeatures : list VkCall -> Z -> VkPhysicalDeviceFeatures;
  fnGetPhysicalDeviceMemoryProperties :
    list VkCall -> Z -> list VkMemoryType * list VkMemoryHeap;
  fnGetPhysicalDeviceQueueFamilyProperties :
    list VkCall -> Z -> Z -> bool -> Outcome VkQueueFamilyProperties;
  fnEnumerateDeviceLayerProperties :
    list VkCall -> Z -> Z -> bool -> Outcome VkLayerProperties;
  fnEnumerateDeviceExtensionProperties :
    list VkCall -> Z -> Z -> bool -> Outcome VkExtensionProperties
}.

Record VulkanGlobalInfo : Type := {
  g_layers : list VkLayerProperties;
  g_extensions : list VkExtensionProperties;
  standardValidation : bool;
  debugReport : bool;
  surface : bool
}.

Record VulkanDeviceInfo : Type := {
  properties : VkPhysicalDeviceProperties;
  features : VkPhysicalDeviceFeatures;
  memoryTypes : list VkMemoryType;
  memoryHeaps : list VkMemoryHeap;
  queueFamilies : list VkQueueFamilyProperties;
  d_layers : list VkLayerProperties;
  d_extensions : list VkExtensionProperties;
  swapchain : bool
}.

(** [v.resize(count)]: the old elements that fit are kept, new ones are
    value-initialised. *)
Definition vector_resize {A : Type} (default : A) (v : list A) (count : Z) : list A :=
  firstn (Z.to_nat count) (v ++ repeat default (Z.to_nat count)).

(** The driver writing [written] through [v.data()], from the first
    element on.  A driver that honours [*pCount] writes no more than the
    vector holds. *)
Definition write_through_data {A : Type} (v : list A) (written : list A) : list A :=
  firstn (List.length v) (written ++ skipn (List.length written) v).

Definition emptyLayer : VkLayerProperties := {| layerName := EmptyString |}.
Definition emptyExtension : VkExtensionProperties := {| extensionName := EmptyString |}.

Variable fn : VulkanFunctions.

(** [GatherGlobalInfo]: the returned [bool], the contents of [*info] on
    return, and the driver calls made, oldest first.  [history] holds the
    calls made before entry. *)
Definition GatherGlobalInfo (history : list VkCall) (info : VulkanGlobalInfo)
  : bool * VulkanGlobalInfo * list VkCall :=
  (* Gather the info about the instance layers *)
  let count := 0 in
  let call1 := EnumerateInstanceLayerProperties count false in
  let out1 := fnEnumerateInstanceLayerProperties fn history count false in
  if VkResult_neqb (result out1) VK_SUCCESS && VkResult_neqb (result out1) VK_INCOMPLETE
  then (false, info, [call1])
  else
    let count := countOut out1 in
    let call2 := EnumerateInstanceLayerProperties count true in
    let out2 :=
      fnEnumerateInstanceLayerProperties fn (history ++ [call1]) count true in
    let layers :=
      write_through_data (vector_resize emptyLayer (g_layers info) count)
        (written out2) in
    let info := {| g_layers := layers; g_extensions := g_extensions info;
                   standardValidation := standardValidation info;
                   debugReport := debugReport info; surface := surface info |} in
    if VkResult_neqb (result out2) VK_SUCCESS
    then (false, info, [call1; call2])
    else
      let info := {| g_layers := g_layers info; g_extensions := g_extensions info;
                     standardValidation :=
                       fold_left
                         (fun found layer =>
                            if IsLayerName layer kLayerNameLunargStandardValidation
                            then true else found)
                         (g_layers info) (standardValidation info);
                     debugReport := debugReport info; surface := surface info |} in
      (* Gather the info about the instance extensions *)
      let count := 0 in
      let call3 := EnumerateInstanceExtensionProperties count false in
      let out3 :=
        fnEnumerateInstanceExtensionProperties fn (history ++ [call1; call2])
          count false in
      if VkResult_neqb (result out3) VK_SUCCESS
         && VkResult_neqb (result out3) VK_INCOMPLETE
      then (false, info, [call1; call2; call3])
      else
        let count := countOut out3 in
        let call4 := EnumerateInstanceExtensionProperties count true in
        let out4 :=
          fnEnumerateInstanceExtensionProperties fn
            (history ++ [call1; call2; call3]) count true in
        let extensions :=
          write_through_data
            (vector_resize emptyExtension (g_extensions info) count)
            (written out4) in
        let info := {| g_layers := g_layers info; g_extensions := extensions;
                       standardValidation := standardValidation info;
                       debugReport := debugReport info; surface := surface info |} in
        if VkResult_neqb (result out4) VK_SUCCESS
        then (false, info, [call1; call2; call3; call4])
        else
          let info := {| g_layers := g_layers info;
                         g_extensions := g_extensions info;
                         standardValidation := standardValidation info;
                         debugReport :=
                           fold_left
                             (fun found extension =>
                                if IsExtensionName extension kExtensionNameExtDebugReport
                                then true else found)
                             (g_extensions info) (debugReport info);
                         surface :=
                           fold_left
                             (fun found extension =>
                                if IsExtensionName extension kExtensionNameKhrSurface
                                then true else found)
                             (g_extensions info) (surface info) |} in
          (true, info, [call1; call2; call3; call4]).

(** [GatherDeviceInfo], with the same conventions. *)
Definition GatherDeviceInfo (history : list VkCall) (physicalDevice : Z)
    (info : VulkanDeviceInfo) : bool * VulkanDeviceInfo * list VkCall :=
  (* Gather general info about the device *)
  let callP := GetPhysicalDeviceProperties physicalDevice in
  let properties' := fnGetPhysicalDeviceProperties fn history physicalDevice in
  let callF := GetPhysicalDeviceFeatures physicalDevice in
  let features' := fnGetPhysicalDeviceFeatures fn (history ++ [callP]) physicalDevice in
  (* Gather info about device memory. *)
  let callM := GetPhysicalDeviceMemoryProperties physicalDevice in
  let memory :=
    fnGetPhysicalDeviceMemoryProperties fn (history ++ [callP; callF])
      physicalDevice in
  (* Gather info about device queue families *)
  let count := 0 in
  let callQ1 := GetPhysicalDeviceQueueFamilyProperties physicalDevice count false in
  let outQ1 :=
    fnGetPhysicalDeviceQueueFamilyProperties fn (history ++ [callP; callF; callM])
      physicalDevice count false in
  let count := countOut outQ1 in
  let callQ2 := GetPhysicalDeviceQueueFamilyProperties physicalDevice count true in
  let outQ2 :=
    fnGetPhysicalDeviceQueueFamilyProperties fn
      (history ++ [callP; callF; callM; callQ1]) physicalDevice count true in
  let general := [callP; callF; callM; callQ1; callQ2] in
  let info := {| properties := properties'; features := features';
                 memoryTypes := fst memory; memoryHeaps := snd memory;
                 queueFamilies :=
                   write_through_data
                     (vector_resize defaultQueueFamily (queueFamilies info) count)
                     (written outQ2);
                 d_layers := d_layers info; d_extensions := d_extensions info;
                 swapchain := swapchain info |} in
  (* Gather the info about the device layers *)
  let count := 0 in
  let call1 := EnumerateDeviceLayerProperties physicalDevice count false in
  let out1 :=
    fnEnumerateDeviceLayerProperties fn (history ++ general) physicalDevice
      count false in
  if VkResult_neqb (result out1) VK_SUCCESS && VkResult_neqb (result out1) VK_INCOMPLETE
  then (false, info, general ++ [call1])
  else
    let count := countOut out1 in
    let call2 := EnumerateDeviceLayerProperties physicalDevice count true in
    let out2 :=
      fnEnumerateDeviceLayerProperties fn (history ++ general ++ [call1])
        physicalDevice count true in
    let info := {| properties := properties info; features := features info;
                   memoryTypes := memoryTypes info; memoryHeaps := memoryHeaps info;
                   queueFamilies := queueFamilies info;
                   d_layers :=
                     write_through_data
                       (vector_resize emptyLayer (d_layers info) count)
                       (written out2);
                   d_extensions := d_extensions info;
                   swapchain := swapchain info |} in
    if VkResult_neqb (result out2) VK_SUCCESS
    then (false, info, general ++ [call1; call2])
    else
      (* Gather the info about the device extensions *)
      let count := 0 in
      let call3 := EnumerateDeviceExtensionProperties physicalDevice count false in
      let out3 :=
        fnEnumerateDeviceExtensionProperties fn
          (history ++ general ++ [call1; call2]) physicalDevice count false in
      if VkResult_neqb (result out3) VK_SUCCESS
         && VkResult_neqb (result out3) VK_INCOMPLETE
      then (false, info, general ++ [call1; call2; call3])
      else
        let count := countOut out3 in
        let call4 := EnumerateDeviceExtensionProperties physicalDevice count true in
        let out4 :=
          fnEnumerateDeviceExtensionProperties fn
            (history ++ general ++ [call1; call2; call3]) physicalDevice
            count true in
        let info := {| properties := properties info; features := features info;
                       memoryTypes := memoryTypes info;
                       memoryHeaps := memoryHeaps info;
                       queueFamilies := queueFamilies info;
                       d_layers := d_layers info;
                       d_extensions :=
                         write_through_data
                           (vector_resize emptyExtension (d_extensions info) count)
                           (written out4);
                       swapchain := swapchain info |} in
        if VkResult_neqb (result out4) VK_SUCCESS
        then (false, info, general ++ [call1; call2; call3; call4])
        else
          let info := {| properties := properties info; features := features info;
                         memoryTypes := memoryTypes info;
                         memoryHeaps := memoryHeaps info;
                         queueFamilies := queueFamilies info;
                         d_layers := d_layers info;
                         d_extensions := d_extensions info;
                         swapchain :=
                           fold_left
                             (fun found extension =>
                                if IsExtensionName extension kExtensionNameKhrSwapchain
                                then true else found)
                             (d_extensions info) (swapchain info) |} in
          (true, info, general ++ [call1; call2; call3; call4]).

(** [GetPhysicalDevices].  [VkPhysicalDevice] and [VkInstance] are handles;
    the call records the value of [*pCount] on entry and whether the array
    pointer is non-null. *)
Inductive InstanceCall : Type :=
| EnumeratePhysicalDevices (instance : Z) (count : Z) (withData : bool).

Definition VK_NULL_HANDLE : Z := 0.

Variable fnEnumeratePhysicalDevices :
  list InstanceCall -> Z -> Z -> bool -> Outcome Z.

(** The returned [bool], the contents of [*physicalDevices] on return and
    the driver calls made; [history] holds the calls made before entry. *)
Definition GetPhysicalDevices (history : list InstanceCall) (instance : Z)
    (physicalDevices : list Z) : bool * list Z * list InstanceCall :=
  let count := 0 in
  let call1 := EnumeratePhysicalDevices instance count false in
  let out1 := fnEnumeratePhysicalDevices history instance count false in
  if VkResult_neqb (result out1) VK_SUCCESS && VkResult_neqb (result out1) VK_INCOMPLETE
  then (false, physicalDevices, [call1])
  else
    let count := countOut out1 in
    let physicalDevices := vector_resize VK_NULL_HANDLE physicalDevices count in
    let call2 := EnumeratePhysicalDevices instance count true in
    let out2 := fnEnumeratePhysicalDevices (history ++ [call1]) instance count true in
    let physicalDevices := write_through_data physicalDevices (written out2) in
    if VkResult_neqb (result out2) VK_SUCCESS
    then (false, physicalDevices, [call1; call2])
    else (true, physicalDevices, [call1; call2]).

End Info.
End vulkan.

(** ** OpenGL backend: [CommandBufferGL.cpp] *)

Module opengl.

(** *** Native calls and the execution monad *)

Definition GLenum : Type := Z.
Definition GLuint : Type := Z.
Definition GLint : Type := Z.
(** A [GLfloat] is carried as its IEEE-754 bit pattern: the executor only
    passes floats along. *)
Definition GLfloat : Type := Z.

(** Values of the OpenGL headers. *)
Definition GL_NONE : GLenum := 0.
Definition GL_FALSE : Z := 0.
Definition GL_UNPACK_ROW_LENGTH : GLenum := 0x0CF2.
Definition GL_PACK_ROW_LENGTH : GLenum := 0x0D02.
Definition GL_TEXTURE_2D : GLenum := 0x0DE1.
Definition GL_UNSIGNED_SHORT : GLenum := 0x1403.
Definition GL_UNSIGNED_INT : GLenum := 0x1405.
Definition GL_FLOAT : GLenum := 0x1406.
Definition GL_COLOR : GLenum := 0x1800.
Definition GL_DEPTH : GLenum := 0x1801.
Definition GL_STENCIL : GLenum := 0x1802.
Definition GL_DEPTH_STENCIL_ATTACHMENT : GLenum := 0x821A.
Definition GL_TEXTURE0 : GLenum := 0x84C0.
Definition GL_DEPTH_STENCIL : GLenum := 0x84F9.
Definition GL_ARRAY_BUFFER : GLenum := 0x8892.
Definition GL_ELEMENT_ARRAY_BUFFER : GLenum := 0x8893.
Definition GL_PIXEL_PACK_BUFFER : GLenum := 0x88EB.
Definition GL_PIXEL_UNPACK_BUFFER : GLenum := 0x88EC.
Definition GL_UNIFORM_BUFFER : GLenum := 0x8A11.
Definition GL_READ_FRAMEBUFFER : GLenum := 0x8CA8.
Definition GL_DRAW_FRAMEBUFFER : GLenum := 0x8CA9.
Definition GL_COLOR_ATTACHMENT0 : GLenum := 0x8CE0.
Definition GL_DEPTH_ATTACHMENT : GLenum := 0x8D00.
Definition GL_STENCIL_ATTACHMENT : GLenum := 0x8D20.
Definition GL_SHADER_STORAGE_BUFFER : GLenum := 0x90D2.
Definition GL_ALL_BARRIER_BITS : Z := 0xFFFFFFFF.

(** The calls [Execute] makes, recorded in the order it makes them: OpenGL
    entry points, then methods of this code base whose bodies live in other
    files and are recorded by name and receiver address only. *)
Inductive Call : Type :=
| glUniform1i (location : GLint) (v0 : Z)
| glUniform1ui (location : GLint) (v0 : Z)
| glUniform1f (location : GLint) (v0 : Z)
| glBindBuffer (target : GLenum) (buffer : GLuint)
| glVertexAttribPointer (index : GLuint) (size : Z) (type : GLenum)
    (normalized : Z) (stride : Z) (pointer : Z)
| glBindFramebuffer (target : GLenum) (framebuffer : GLuint)
| glGenFramebuffers (n : Z) (framebuffers : list GLuint)
| glDeleteFramebuffers (n : Z) (framebuffers : list GLuint)
| glFramebufferTexture2D (target attachment textarget : GLenum)
    (texture : GLuint) (level : Z)
| glDrawBuffers (n : Z) (bufs : list GLenum)
| glClearBufferfv (buffer : GLenum) (drawbuffer : Z) (value : list GLfloat)
| glClearBufferfi (buffer : GLenum) (drawbuffer : Z) (depth : GLfloat) (stencil : Z)
| glClearBufferiv (buffer : GLenum) (drawbuffer : Z) (value : list Z)
| glBlendColor (red green blue alpha : GLfloat)
| glViewport (x y width height : Z)
| glCopyBufferSubData (readTarget writeTarget : GLenum)
    (readOffset writeOffset size : Z)
| glActiveTexture (texture : GLenum)
| glBindTexture (target : GLenum) (texture : GLuint)
| glPixelStorei (pname : GLenum) (param : Z)
| glTexSubImage2D (target : GLenum) (level xoffset yoffset width height : Z)
    (format type : GLenum) (pixels : Z)
| glReadPixels (x y width height : Z) (format type : GLenum) (pixels : Z)
| glDispatchCompute (num_groups_x num_groups_y num_groups_z : Z)
| glMemoryBarrier (barriers : Z)
| glDrawArraysInstancedBaseInstance (mode : GLenum)
    (first count instancecount baseinstance : Z)
| glDrawArraysInstanced (mode : GLenum) (first count instancecount : Z)
| glDrawElementsInstancedBaseInstance (mode : GLenum) (count : Z) (type : GLenum)
    (indices instancecount baseinstance : Z)
| glDrawElementsInstanced (mode : GLenum) (count : Z) (type : GLenum)
    (indices instancecount : Z)
| glBindBufferRange (target : GLenum) (index buffer : GLuint) (offset size : Z)
| glBindSampler (unit_ sampler : GLuint)
| PersistentPipelineState_SetDefaultState
| PersistentPipelineState_SetStencilReference (reference : Z)
| ComputePipeline_ApplyNow (pipeline : Z)
| RenderPipeline_ApplyNow (pipeline : Z)
| Buffer_UpdateUsageInternal (buffer : Z) (usage : Z)
| Texture_UpdateUsageInternal (texture : Z) (usage : Z).

(** A computation records the calls it makes and either yields a value or
    stops in a fault: a null or indeterminate pointer dereferenced, an array
    written out of bounds, [UNREACHABLE()] reached or an [ASSERT] failed.
    The calls made before the fault stay recorded. *)
Definition M (A : Type) : Type := list Call * option A.

Definition ret {A : Type} (a : A) : M A := ([], Some a).
Definition fault {A : Type} : M A := ([], None).
Definition emit (call : Call) : M unit := ([call], Some tt).

Definition bind {A B : Type} (m : M A) (k : A -> M B) : M B :=
  match m with
  | (calls, Some a) => let (calls', r) := k a in (calls ++ calls', r)
  | (calls, None) => (calls, None)
  end.

Notation "x <- m ;; k" := (bind m (fun x => k))
  (at level 61, m at next level, right associativity).
Notation "' pat <- m ;; k" := (bind m (fun pat => k))
  (at level 61, pat pattern, m at next level, right associativity).
Notation "m ;;; k" := (bind m (fun _ => k))
  (at level 61, right associativity).

(** Dereference of a pointer that may be null or never assigned. *)
Definition deref {A : Type} (pointer : option A) : M A :=
  match pointer with Some a => ret a | None => fault end.

(** [ASSERT] of a debug build inside the executor. *)
Definition assert (condition : bool) : M unit :=
  if condition then ret tt else fault.

(** A memory access or an arithmetic operation that is defined only under
    [condition]. *)
Definition defined_when (condition : bool) : M unit :=
  if condition then ret tt else fault.

(** A range-based [for] loop whose body updates the loop-carried state. *)
Fixpoint for_each {A S : Type} (range : list A) (body : A -> S -> M S) (s : S) : M S :=
  match range with
  | [] => ret s
  | x :: rest => s' <- body x s ;; for_each rest body s'
  end.

(** *** Bit sets, stages and constants *)

(** [std::bitset<N>] is the number in [0, 2^N) with the same bits. *)
Definition bitset : Type := Z.

(** Construction of a [std::bitset<N>] from an [unsigned long long]. *)
Definition bitset_of_ull (N : nat) (value : Z) : bitset := value mod 2 ^ Z.of_nat N.

(** [((1ull << count) - 1ull) << offset] in 64-bit unsigned arithmetic. *)
Definition range_mask_ull (count offset : Z) : Z :=
  (Z.shiftl ((Z.shiftl 1 count mod 2 ^ 64 - 1) mod 2 ^ 64) offset) mod 2 ^ 64.

(** Modelled from the spec: [IterateBitSet] of [common/BitSetIterator.h] is
    not part of the sources at hand.  Section 3 describes the masks as
    "per-stage/per-slot boolean masks" and section 4.4 acts on "only slots
    both dirty and consumed": iterating a mask visits the positions of its
    set bits, each once, lowest first. *)
Fixpoint IterateBitSet_from (remaining : nat) (position : Z) (bits : bitset) : list Z :=
  match remaining with
  | O => []
  | S remaining' =>
      if Z.testbit bits position
      then position :: IterateBitSet_from remaining' (position + 1) bits
      else IterateBitSet_from remaining' (position + 1) bits
  end.

Definition IterateBitSet (N : nat) (bits : bitset) : list Z :=
  IterateBitSet_from N 0 bits.

(** [nxt::ShaderStage], the index type of [PerStage<T>]. *)
Inductive ShaderStage : Type := Vertex | Fragment | Compute.

Definition ShaderStage_index (stage : ShaderStage) : Z :=
  match stage with Vertex => 0 | Fragment => 1 | Compute => 2 end.

Definition ShaderStage_eqb (x y : ShaderStage) : bool :=
  ShaderStage_index x =? ShaderStage_index y.

(** [nxt::ShaderStageBit]: stage [s] is the bit [1 << s]. *)
Definition kAllStages : Z := 7.

(** Modelled from the spec: [IterateStages] of [backend/PerStage.h] is not
    part of the sources at hand; section 4.4 keeps "one value array and one
    dirty-bit mask per shader stage".  It visits the stages whose bit is set
    in the mask, in the order of the enumeration. *)
Definition IterateStages (stages : Z) : list ShaderStage :=
  filter (fun stage => Z.testbit stages (ShaderStage_index stage))
    [Vertex; Fragment; Compute].

Definition PerStage (T : Type) : Type := ShaderStage -> T.

Definition PerStage_set {T : Type} (a : PerStage T) (stage : ShaderStage) (v : T)
  : PerStage T :=
  fun s => if ShaderStage_eqb s stage then v else a s.

(** [a[index] = value] on a [std::array]. *)
Definition array_set {T : Type} (a : Z -> T) (index : Z) (v : T) : Z -> T :=
  fun i => if i =? index then v else a i.

(** The limits of [common/Constants.h], which is not part of the sources at
    hand.  The two [static_assert]s of the trackers bound two of them. *)
Class Constants : Type := {
  kMaxPushConstants : nat;
  kMaxVertexInputs : nat;
  kMaxVertexAttributes : nat;
  kMaxColorAttachments : nat;
  kMaxBindingsPerGroup : nat;
  static_assert_push_constants : (kMaxPushConstants <= 8 * 8 - 1)%nat;
  static_assert_vertex_inputs : (kMaxVertexInputs <= 8 * 8 - 1)%nat
}.

(** The values of [common/Constants.h]. *)
Program Definition constants_h : Constants := {|
  kMaxPushConstants := 32;
  kMaxVertexInputs := 16;
  kMaxVertexAttributes := 16;
  kMaxColorAttachments := 4;
  kMaxBindingsPerGroup := 16 |}.
Next Obligation. lia. Qed.
Next Obligation. lia. Qed.

(** *** Front-end objects the executor reads *)

Inductive PushConstantType : Type := Int | UInt | Float.

(** [PipelineBase::PushConstantInfo], the two fields read here. *)
Record PushConstantInfo : Type := {
  mask : bitset;
  types : Z -> PushConstantType
}.

(** An enumerator outside the ones named in the source is kept with its
    numeric value; the [switch] statements send it to [default]. *)
Inductive IndexFormat : Type :=
| Uint16
| Uint32
| IndexFormat_other (value : Z).

Inductive VertexFormat : Type :=
| FloatR32G32B32A32
| FloatR32G32B32
| FloatR32G32
| FloatR32
| VertexFormat_other (value : Z).

Inductive TextureFormat : Type :=
| R8G8B8A8Unorm
| D32FloatS8Uint
| TextureFormat_other (value : Z).

Definition TextureFormat_eqb (x y : TextureFormat) : bool :=
  match x, y with
  | R8G8B8A8Unorm, R8G8B8A8Unorm => true
  | D32FloatS8Uint, D32FloatS8Uint => true
  | TextureFormat_other v, TextureFormat_other w => v =? w
  | _, _ => false
  end.

Inductive TextureDimension : Type :=
| e2D
| TextureDimension_other (value : Z).

Definition TextureDimension_eqb (x y : TextureDimension) : bool :=
  match x, y with
  | e2D, e2D => true
  | TextureDimension_other v, TextureDimension_other w => v =? w
  | _, _ => false
  end.

Inductive LoadOp : Type :=
| Clear
| Load.

Definition LoadOp_eqb (x y : LoadOp) : bool :=
  match x, y with
  | Clear, Clear | Load, Load => true
  | _, _ => false
  end.

Inductive BindingType : Type :=
| UniformBuffer
| Sampler
| SampledTexture
| StorageBuffer.

(** Helper functions of the front end whose bodies are in other files. *)
Class Helpers : Type := {
  VertexFormatNumComponents : VertexFormat -> Z;
  IndexFormatSize : IndexFormat -> Z;
  TextureFormatPixelSize : TextureFormat -> Z;
  TextureFormatHasDepth : TextureFormat -> bool;
  TextureFormatHasStencil : TextureFormat -> bool
}.

(** Objects are records of what their accessors return; [*_address] is the
    address of the object, by which pointers are compared. *)
Record Buffer : Type := {
  Buffer_address : Z;
  Buffer_GetHandle : GLuint
}.

Record Texture : Type := {
  Texture_address : Z;
  Texture_GetHandle : GLuint;
  Texture_GetGLTarget : GLenum;
  Texture_GetGLFormat_format : GLenum;
  Texture_GetGLFormat_type : GLenum;
  Texture_GetFormat : TextureFormat;
  Texture_GetDimension : TextureDimension
}.

Record TextureView : Type := {
  TextureView_GetTexture : Texture
}.

Record BufferView : Type := {
  BufferView_GetBuffer : Buffer;
  BufferView_GetOffset : Z;
  BufferView_GetSize : Z
}.

Record SamplerGL : Type := {
  Sampler_GetHandle : GLuint
}.

Record AttributeInfo : Type := {
  attribute_bindingSlot : Z;
  attribute_format : VertexFormat;
  attribute_offset : Z
}.

Record InputInfo : Type := {
  input_stride : Z
}.

Record InputState : Type := {
  InputState_address : Z;
  GetInputsSetMask : bitset;
  GetAttributesUsingInput : Z -> bitset;
  GetAttribute : Z -> AttributeInfo;
  GetInput : Z -> InputInfo
}.

(** A pipeline seen as [PipelineBase] and as [PipelineGL]. *)
Record Pipeline : Type := {
  Pipeline_address : Z;
  GetPushConstants : ShaderStage -> PushConstantInfo;
  GetLayout_GetBindingIndexInfo : Z -> Z -> GLuint;
  GetGLPushConstants : ShaderStage -> Z -> GLint;
  GetTextureUnitsForSampler : GLuint -> list GLuint;
  GetTextureUnitsForTexture : GLuint -> list GLuint
}.

Record RenderPipeline : Type := {
  RenderPipeline_base : Pipeline;
  GetInputState : InputState;
  GetGLPrimitiveTopology : GLenum;
  GetIndexFormat : IndexFormat
}.

Record ComputePipeline : Type := {
  ComputePipeline_base : Pipeline
}.

Record BindGroup : Type := {
  GetLayout_GetBindingInfo_mask : bitset;
  GetLayout_GetBindingInfo_types : Z -> BindingType;
  GetBindingAsBufferView : Z -> BufferView;
  GetBindingAsSampler : Z -> SamplerGL;
  GetBindingAsTextureView : Z -> TextureView
}.

(** [RenderPassBase::AttachmentInfo] and [RenderPassBase::SubpassInfo]. *)
Record AttachmentInfo : Type := {
  format : TextureFormat;
  colorLoadOp : LoadOp;
  depthLoadOp : LoadOp;
  stencilLoadOp : LoadOp;
  firstSubpass : Z
}.

Record SubpassInfo : Type := {
  colorAttachmentsSet : bitset;
  colorAttachments : Z -> Z;
  depthStencilAttachmentSet : bool;
  depthStencilAttachment : Z
}.

Record RenderPass : Type := {
  GetSubpassInfo : Z -> SubpassInfo;
  GetAttachmentInfo : Z -> AttachmentInfo
}.

Record ClearDepthStencil : Type := {
  clear_depth : GLfloat;
  clear_stencil : Z
}.

Record Framebuffer : Type := {
  GetTextureView : Z -> TextureView;
  GetClearColor : Z -> list GLfloat;
  GetClearDepthStencil : Z -> ClearDepthStencil;
  GetWidth : Z;
  GetHeight : Z
}.

Record BufferCopyLocation : Type := {
  copy_buffer : Buffer;
  copy_buffer_offset : Z
}.

Record TextureCopyLocation : Type := {
  copy_texture : Texture;
  copy_x : Z;
  copy_y : Z;
  copy_z : Z;
  copy_width : Z;
  copy_height : Z;
  copy_depth : Z;
  copy_level : Z
}.

(** The records of the command stream ([backend/Commands.h]), with the
    trailing data of [SetPushConstants] and [SetVertexBuffers] attached. *)
Inductive Command : Type :=
| BeginComputePass
| BeginRenderPass (renderPass : RenderPass) (framebuffer : Framebuffer)
| BeginRenderSubpass
| CopyBufferToBuffer (source destination : BufferCopyLocation) (size : Z)
| CopyBufferToTexture (source : BufferCopyLocation)
    (destination : TextureCopyLocation) (rowPitch : Z)
| CopyTextureToBuffer (source : TextureCopyLocation)
    (destination : BufferCopyLocation) (rowPitch : Z)
| Dispatch (x y z : Z)
| DrawArrays (vertexCount instanceCount firstVertex firstInstance : Z)
| DrawElements (indexCount instanceCount firstIndex firstInstance : Z)
| EndComputePass
| EndRenderPass
| EndRenderSubpass
| SetComputePipeline (pipeline : ComputePipeline)
| SetRenderPipeline (pipeline : RenderPipeline)
| SetPushConstants (stages : Z) (count offset : Z) (data : list Z)
| SetStencilReference (reference : Z)
| SetBlendColor (r g b a : GLfloat)
| SetBindGroup (index : Z) (group : BindGroup)
| SetIndexBuffer (buffer : Buffer) (offset : Z)
| SetVertexBuffers (startSlot count : Z) (buffers : list Buffer) (offsets : list Z)
| TransitionBufferUsage (buffer : Buffer) (usage : Z)
| TransitionTextureUsage (texture : Texture) (usage : Z).

Section Executor.
Context {constants : Constants} {helpers : Helpers}.

(** [IndexFormatType]; [UNREACHABLE()] is a fault. *)
Definition IndexFormatType (format : IndexFormat) : M GLenum :=
  match format with
  | Uint16 => ret GL_UNSIGNED_SHORT
  | Uint32 => ret GL_UNSIGNED_INT
  | IndexFormat_other _ => fault
  end.

(** [VertexFormatType] *)
Definition VertexFormatType (format : VertexFormat) : M GLenum :=
  match format with
  | FloatR32G32B32A32
  | FloatR32G32B32
  | FloatR32G32
  | FloatR32 => ret GL_FLOAT
  | VertexFormat_other _ => fault
  end.

(** *** [PushConstantTracker] *)

Record PushConstantTracker : Type := {
  mValues : PerStage (Z -> Z);
  mDirtyBits : PerStage bitset
}.

(** [PushConstantTracker::OnBeginPass] *)
Definition PushConstantTracker_OnBeginPass (this : PushConstantTracker)
  : PushConstantTracker :=
  fold_left
    (fun this stage =>
       {| mValues := PerStage_set (mValues this) stage (fun _ => 0);
          mDirtyBits := mDirtyBits this |})
    (IterateStages kAllStages) this.

(** [memcpy(&values[offset], data, count * sizeof(uint32_t))] *)
Definition memcpy_words (values : Z -> Z) (offset : Z) (data : list Z) (count : Z)
  : Z -> Z :=
  fun i =>
    if (offset <=? i) && (i <? offset + count)
    then nth (Z.to_nat (i - offset)) data 0
    else values i.

(** [PushConstantTracker::OnSetPushConstants]; a copy that would run past
    the end of the stage's array or of the trailing data is a fault. *)
Definition PushConstantTracker_OnSetPushConstants (this : PushConstantTracker)
    (stages : Z) (count offset : Z) (data : list Z) : M PushConstantTracker :=
  for_each (IterateStages stages)
    (fun stage this =>
       defined_when ((offset + count <=? Z.of_nat kMaxPushConstants)
                     && (count <=? Z.of_nat (List.length data))) ;;;
       ret {| mValues :=
                PerStage_set (mValues this) stage
                  (memcpy_words (mValues this stage) offset data count);
              mDirtyBits :=
                PerStage_set (mDirtyBits this) stage
                  (Z.lor (mDirtyBits this stage)
                     (bitset_of_ull kMaxPushConstants (range_mask_ull count offset)))
           |})
    this.

(** [PushConstantTracker::OnSetPipeline] *)
Definition PushConstantTracker_OnSetPipeline (this : PushConstantTracker)
    (pipeline : option Pipeline) : M PushConstantTracker :=
  for_each (IterateStages kAllStages)
    (fun stage this =>
       pipeline <- deref pipeline ;;
       ret {| mValues := mValues this;
              mDirtyBits :=
                PerStage_set (mDirtyBits this) stage
                  (mask (GetPushConstants pipeline stage)) |})
    this.

(** The body of the outer loop of [PushConstantTracker::Apply]. *)
Definition PushConstantTracker_ApplyStage (this : PushConstantTracker)
    (pipeline glPipeline : option Pipeline) (stage : ShaderStage)
  : M PushConstantTracker :=
  pipeline <- deref pipeline ;;
  glPipeline <- deref glPipeline ;;
  let pushConstants := GetPushConstants pipeline stage in
  let glPushConstants := GetGLPushConstants glPipeline stage in
  for_each
    (IterateBitSet kMaxPushConstants
       (Z.land (mDirtyBits this stage) (mask pushConstants)))
    (fun constant (_ : unit) =>
       let location := glPushConstants constant in
       match types pushConstants constant with
       | Int => emit (glUniform1i location (mValues this stage constant))
       | UInt => emit (glUniform1ui location (mValues this stage constant))
       | Float => emit (glUniform1f location (mValues this stage constant))
       end)
    tt ;;;
  ret {| mValues := mValues this;
         mDirtyBits := PerStage_set (mDirtyBits this) stage 0 |}.

(** [PushConstantTracker::Apply] *)
Definition PushConstantTracker_Apply (this : PushConstantTracker)
    (pipeline glPipeline : option Pipeline) : M PushConstantTracker :=
  for_each (IterateStages kAllStages)
    (fun stage this => PushConstantTracker_ApplyStage this pipeline glPipeline stage)
    this.

(** *** [InputBufferTracker] *)

Record InputBufferTracker : Type := {
  mIndexBufferDirty : bool;
  mIndexBuffer : option Buffer;
  mDirtyVertexBuffers : bitset;
  mVertexBuffers : Z -> option Buffer;
  mVertexBufferOffsets : Z -> Z;
  mLastInputState : option InputState
}.

(** [InputBufferTracker::OnBeginPass] *)
Definition InputBufferTracker_OnBeginPass (this : InputBufferTracker)
  : InputBufferTracker :=
  {| mIndexBufferDirty := mIndexBufferDirty this;
     mIndexBuffer := mIndexBuffer this;
     mDirtyVertexBuffers := mDirtyVertexBuffers this;
     mVertexBuffers := mVertexBuffers this;
     mVertexBufferOffsets := mVertexBufferOffsets this;
     mLastInputState := None |}.

(** [InputBufferTracker::OnSetIndexBuffer] *)
Definition InputBufferTracker_OnSetIndexBuffer (this : InputBufferTracker)
    (buffer : Buffer) : InputBufferTracker :=
  {| mIndexBufferDirty := true;
     mIndexBuffer := Some buffer;
     mDirtyVertexBuffers := mDirtyVertexBuffers this;
     mVertexBuffers := mVertexBuffers this;
     mVertexBufferOffsets := mVertexBufferOffsets this;
     mLastInputState := mLastInputState this |}.

(** [InputBufferTracker::OnSetVertexBuffers]; [i] runs over [0, count), a
    slot past the end of the arrays is a fault and so is reading past the
    trailing data. *)
Definition InputBufferTracker_OnSetVertexBuffers (this : InputBufferTracker)
    (startSlot count : Z) (buffers : list Buffer) (offsets : list Z)
  : M InputBufferTracker :=
  this <-
    for_each (map Z.of_nat (seq 0 (Z.to_nat count)))
      (fun i this =>
         let slot := (startSlot + i) mod 2 ^ 32 in
         defined_when (slot <? Z.of_nat kMaxVertexInputs) ;;;
         buffer <- deref (nth_error buffers (Z.to_nat i)) ;;
         offset <- deref (nth_error offsets (Z.to_nat i)) ;;
         ret {| mIndexBufferDirty := mIndexBufferDirty this;
                mIndexBuffer := mIndexBuffer this;
                mDirtyVertexBuffers := mDirtyVertexBuffers this;
                mVertexBuffers := array_set (mVertexBuffers this) slot (Some buffer);
                mVertexBufferOffsets :=
                  array_set (mVertexBufferOffsets this) slot offset;
                mLastInputState := mLastInputState this |})
      this ;;
  ret {| mIndexBufferDirty := mIndexBufferDirty this;
         mIndexBuffer := mIndexBuffer this;
         mDirtyVertexBuffers :=
           Z.lor (mDirtyVertexBuffers this)
             (bitset_of_ull kMaxVertexInputs (range_mask_ull count startSlot));
         mVertexBuffers := mVertexBuffers this;
         mVertexBufferOffsets := mVertexBufferOffsets this;
         mLastInputState := mLastInputState this |}.

(** [mLastInputState == inputState], a comparison of addresses. *)
Definition same_InputState (last : option InputState) (inputState : InputState) : bool :=
  match last with
  | Some l => InputState_address l =? InputState_address inputState
  | None => false
  end.

(** [InputBufferTracker::OnSetPipeline] *)
Definition InputBufferTracker_OnSetPipeline (this : InputBufferTracker)
    (pipeline : RenderPipeline) : InputBufferTracker :=
  let inputState := GetInputState pipeline in
  if same_InputState (mLastInputState this) inputState then this
  else
    {| mIndexBufferDirty := true;
       mIndexBuffer := mIndexBuffer this;
       mDirtyVertexBuffers :=
         Z.lor (mDirtyVertexBuffers this) (GetInputsSetMask inputState);
       mVertexBuffers := mVertexBuffers this;
       mVertexBufferOffsets := mVertexBufferOffsets this;
       mLastInputState := Some inputState |}.

(** The body of the inner loop of [InputBufferTracker::Apply]. *)
Definition BindAttribute (this : InputBufferTracker) (lastInputState : InputState)
    (slot location : Z) : M unit :=
  let attribute := GetAttribute lastInputState location in
  vertexBuffer <- deref (mVertexBuffers this slot) ;;
  let buffer := Buffer_GetHandle vertexBuffer in
  let offset := mVertexBufferOffsets this slot in
  let input := GetInput lastInputState slot in
  let components := VertexFormatNumComponents (attribute_format attribute) in
  formatType <- VertexFormatType (attribute_format attribute) ;;
  emit (glBindBuffer GL_ARRAY_BUFFER buffer) ;;;
  emit (glVertexAttribPointer location components formatType GL_FALSE
          (input_stride input)
          ((offset + attribute_offset attribute) mod 2 ^ 32)).

(** [InputBufferTracker::Apply] *)
Definition InputBufferTracker_Apply (this : InputBufferTracker) : M InputBufferTracker :=
  this <-
    match mIndexBufferDirty this, mIndexBuffer this with
    | true, Some indexBuffer =>
        emit (glBindBuffer GL_ELEMENT_ARRAY_BUFFER (Buffer_GetHandle indexBuffer)) ;;;
        ret {| mIndexBufferDirty := false;
               mIndexBuffer := mIndexBuffer this;
               mDirtyVertexBuffers := mDirtyVertexBuffers this;
               mVertexBuffers := mVertexBuffers this;
               mVertexBufferOffsets := mVertexBufferOffsets this;
               mLastInputState := mLastInputState this |}
    | _, _ => ret this
    end ;;
  lastInputState <- deref (mLastInputState this) ;;
  for_each
    (IterateBitSet kMaxVertexInputs
       (Z.land (mDirtyVertexBuffers this) (GetInputsSetMask lastInputState)))
    (fun slot (_ : unit) =>
       for_each
         (IterateBitSet kMaxVertexAttributes
            (GetAttributesUsingInput lastInputState slot))
         (fun location (_ : unit) => BindAttribute this lastInputState slot location)
         tt)
    tt ;;;
  ret {| mIndexBufferDirty := mIndexBufferDirty this;
         mIndexBuffer := mIndexBuffer this;
         mDirtyVertexBuffers := 0;
         mVertexBuffers := mVertexBuffers this;
         mVertexBufferOffsets := mVertexBufferOffsets this;
         mLastInputState := mLastInputState this |}.

(** *** [CommandBuffer::Execute] *)

(** What the executor finds and does not control: the names
    [glGenFramebuffers] hands out (the n-th call returns
    [GeneratedFramebuffer n]) and the contents of the tracker arrays that no
    constructor initialises. *)
Class Environment : Type := {
  GeneratedFramebuffer : nat -> GLuint;
  indeterminate_mValues : PerStage (Z -> Z);
  indeterminate_mVertexBufferOffsets : Z -> Z
}.

Context {environment : Environment}.

(** The local variables of [Execute]; [framebuffersGenerated] counts the
    calls to [glGenFramebuffers] made so far. *)
Record ExecuteState : Type := {
  lastPipeline : option Pipeline;
  lastGLPipeline : option Pipeline;
  lastRenderPipeline : option RenderPipeline;
  indexBufferOffset : Z;
  pushConstants : PushConstantTracker;
  inputBuffers : InputBufferTracker;
  currentRenderPass : option RenderPass;
  currentFramebuffer : option Framebuffer;
  currentSubpass : Z;
  currentFBO : GLuint;
  framebuffersGenerated : nat
}.

Definition InitialState : ExecuteState := {|
  lastPipeline := None;
  lastGLPipeline := None;
  lastRenderPipeline := None;
  indexBufferOffset := 0;
  pushConstants := {| mValues := indeterminate_mValues;
                      mDirtyBits := fun _ => 0 |};
  inputBuffers := {| mIndexBufferDirty := false;
                     mIndexBuffer := None;
                     mDirtyVertexBuffers := 0;
                     mVertexBuffers := fun _ => None;
                     mVertexBufferOffsets := indeterminate_mVertexBufferOffsets;
                     mLastInputState := None |};
  currentRenderPass := None;
  currentFramebuffer := None;
  currentSubpass := 0;
  currentFBO := 0;
  framebuffersGenerated := 0
|}.

Definition with_pushConstants (s : ExecuteState) (tracker : PushConstantTracker)
  : ExecuteState :=
  {| lastPipeline := lastPipeline s; lastGLPipeline := lastGLPipeline s;
     lastRenderPipeline := lastRenderPipeline s;
     indexBufferOffset := indexBufferOffset s;
     pushConstants := tracker; inputBuffers := inputBuffers s;
     currentRenderPass := currentRenderPass s;
     currentFramebuffer := currentFramebuffer s;
     currentSubpass := currentSubpass s; currentFBO := currentFBO s;
     framebuffersGenerated := framebuffersGenerated s |}.

Definition with_inputBuffers (s : ExecuteState) (tracker : InputBufferTracker)
  : ExecuteState :=
  {| lastPipeline := lastPipeline s; lastGLPipeline := lastGLPipeline s;
     lastRenderPipeline := lastRenderPipeline s;
     indexBufferOffset := indexBufferOffset s;
     pushConstants := pushConstants s; inputBuffers := tracker;
     currentRenderPass := currentRenderPass s;
     currentFramebuffer := currentFramebuffer s;
     currentSubpass := currentSubpass s; currentFBO := currentFBO s;
     framebuffersGenerated := framebuffersGenerated s |}.

(** [const GLint clearStencil = clear.stencil]: conversion of a [uint32_t]
    to a 32-bit signed integer. *)
Definition to_GLint (value : Z) : GLint :=
  if value mod 2 ^ 32 <? 2 ^ 31 then value mod 2 ^ 32 else value mod 2 ^ 32 - 2 ^ 32.

(** [case Command::BeginRenderSubpass], "Construct GL framebuffer": the
    colour attachments.  The loop carries [drawBuffers] and
    [attachmentCount]. *)
Definition AttachColorBuffers (subpass : SubpassInfo)
    (currentFramebuffer : option Framebuffer) : M ((Z -> GLenum) * Z) :=
  for_each (IterateBitSet kMaxColorAttachments (colorAttachmentsSet subpass))
    (fun location '(drawBuffers, attachmentCount) =>
       let attachment := colorAttachments subpass location in
       framebuffer <- deref currentFramebuffer ;;
       let textureView := GetTextureView framebuffer attachment in
       let texture := Texture_GetHandle (TextureView_GetTexture textureView) in
       emit (glFramebufferTexture2D GL_DRAW_FRAMEBUFFER
               (GL_COLOR_ATTACHMENT0 + location) GL_TEXTURE_2D texture 0) ;;;
       let drawBuffers :=
         array_set drawBuffers location (GL_COLOR_ATTACHMENT0 + location) in
       let attachmentCount := location + 1 in
       assert (TextureFormat_eqb
                 (Texture_GetFormat (TextureView_GetTexture textureView))
                 R8G8B8A8Unorm) ;;;
       ret (drawBuffers, attachmentCount))
    (fun _ => GL_NONE, 0).

(** "Construct GL framebuffer": the depth/stencil attachment. *)
Definition AttachDepthStencilBuffer (subpass : SubpassInfo)
    (currentFramebuffer : option Framebuffer) : M unit :=
  if depthStencilAttachmentSet subpass then
    let attachmentSlot := depthStencilAttachment subpass in
    framebuffer <- deref currentFramebuffer ;;
    let textureView := GetTextureView framebuffer attachmentSlot in
    let texture := Texture_GetHandle (TextureView_GetTexture textureView) in
    let format := Texture_GetFormat (TextureView_GetTexture textureView) in
    let glAttachment :=
      if TextureFormatHasDepth format then
        if TextureFormatHasStencil format then GL_DEPTH_STENCIL_ATTACHMENT
        else GL_DEPTH_ATTACHMENT
      else GL_STENCIL_ATTACHMENT in
    emit (glFramebufferTexture2D GL_DRAW_FRAMEBUFFER glAttachment GL_TEXTURE_2D
            texture 0) ;;;
    assert (TextureFormat_eqb format D32FloatS8Uint)
  else ret tt.

(** "Clear framebuffer attachments as needed": the colour attachments. *)
Definition ClearColorAttachments (subpass : SubpassInfo)
    (currentRenderPass : RenderPass) (currentFramebuffer : option Framebuffer)
    (currentSubpass : Z) : M unit :=
  for_each (IterateBitSet kMaxColorAttachments (colorAttachmentsSet subpass))
    (fun location (_ : unit) =>
       let attachmentSlot := colorAttachments subpass location in
       let attachmentInfo := GetAttachmentInfo currentRenderPass attachmentSlot in
       (* Only perform load op on first use *)
       if firstSubpass attachmentInfo =? currentSubpass then
         (* Load op - color *)
         if LoadOp_eqb (colorLoadOp attachmentInfo) Clear then
           framebuffer <- deref currentFramebuffer ;;
           let clear := GetClearColor framebuffer location in
           emit (glClearBufferfv GL_COLOR location clear)
         else ret tt
       else ret tt)
    tt.

(** "Clear framebuffer attachments as needed": the depth/stencil
    attachment. *)
Definition ClearDepthStencilAttachment (subpass : SubpassInfo)
    (currentRenderPass : RenderPass) (currentFramebuffer : option Framebuffer)
    (currentSubpass : Z) : M unit :=
  if depthStencilAttachmentSet subpass then
    let attachmentSlot := depthStencilAttachment subpass in
    let attachmentInfo := GetAttachmentInfo currentRenderPass attachmentSlot in
    (* Only perform load op on first use *)
    if firstSubpass attachmentInfo =? currentSubpass then
      (* Load op - depth/stencil *)
      framebuffer <- deref currentFramebuffer ;;
      let clear :=
        GetClearDepthStencil framebuffer (depthStencilAttachment subpass) in
      let doDepthClear :=
        TextureFormatHasDepth (format attachmentInfo)
        && LoadOp_eqb (depthLoadOp attachmentInfo) Clear in
      let doStencilClear :=
        TextureFormatHasStencil (format attachmentInfo)
        && LoadOp_eqb (stencilLoadOp attachmentInfo) Clear in
      if doDepthClear && doStencilClear then
        emit (glClearBufferfi GL_DEPTH_STENCIL 0 (clear_depth clear)
                (clear_stencil clear))
      else if doDepthClear then
        emit (glClearBufferfv GL_DEPTH 0 [clear_depth clear])
      else if doStencilClear then
        let clearStencil := to_GLint (clear_stencil clear) in
        emit (glClearBufferiv GL_STENCIL 0 [clearStencil])
      else ret tt
    else ret tt
  else ret tt.

(** [case Command::BeginRenderSubpass] *)
Definition ExecuteBeginRenderSubpass (s : ExecuteState) : M ExecuteState :=
  let s := with_pushConstants s (PushConstantTracker_OnBeginPass (pushConstants s)) in
  let s := with_inputBuffers s (InputBufferTracker_OnBeginPass (inputBuffers s)) in
  emit (glBindFramebuffer GL_READ_FRAMEBUFFER 0) ;;;
  let generated := GeneratedFramebuffer (framebuffersGenerated s) in
  emit (glGenFramebuffers 1 [generated]) ;;;
  let s :=
    {| lastPipeline := lastPipeline s; lastGLPipeline := lastGLPipeline s;
       lastRenderPipeline := lastRenderPipeline s;
       indexBufferOffset := indexBufferOffset s;
       pushConstants := pushConstants s; inputBuffers := inputBuffers s;
       currentRenderPass := currentRenderPass s;
       currentFramebuffer := currentFramebuffer s;
       currentSubpass := currentSubpass s; currentFBO := generated;
       framebuffersGenerated := S (framebuffersGenerated s) |} in
  emit (glBindFramebuffer GL_DRAW_FRAMEBUFFER (currentFBO s)) ;;;
  renderPass <- deref (currentRenderPass s) ;;
  let subpass := GetSubpassInfo renderPass (currentSubpass s) in
  (* Construct GL framebuffer *)
  '(drawBuffers, attachmentCount) <-
    AttachColorBuffers subpass (currentFramebuffer s) ;;
  emit (glDrawBuffers attachmentCount
          (map drawBuffers (map Z.of_nat (seq 0 (Z.to_nat attachmentCount))))) ;;;
  AttachDepthStencilBuffer subpass (currentFramebuffer s) ;;;
  (* Clear framebuffer attachments as needed *)
  ClearColorAttachments subpass renderPass (currentFramebuffer s)
    (currentSubpass s) ;;;
  ClearDepthStencilAttachment subpass renderPass (currentFramebuffer s)
    (currentSubpass s) ;;;
  emit (glBlendColor 0 0 0 0) ;;;
  framebuffer <- deref (currentFramebuffer s) ;;
  emit (glViewport 0 0 (GetWidth framebuffer) (GetHeight framebuffer)) ;;;
  ret s.

(** [case Command::SetBindGroup] *)
Definition ExecuteSetBindGroup (s : ExecuteState) (index : Z) (group : BindGroup)
  : M unit :=
  let groupIndex := index in
  pipeline <- deref (lastPipeline s) ;;
  let indices := GetLayout_GetBindingIndexInfo pipeline groupIndex in
  for_each (IterateBitSet kMaxBindingsPerGroup (GetLayout_GetBindingInfo_mask group))
    (fun binding (_ : unit) =>
       match GetLayout_GetBindingInfo_types group binding with
       | UniformBuffer =>
           let view := GetBindingAsBufferView group binding in
           let buffer := Buffer_GetHandle (BufferView_GetBuffer view) in
           let uboIndex := indices binding in
           emit (glBindBufferRange GL_UNIFORM_BUFFER uboIndex buffer
                   (BufferView_GetOffset view) (BufferView_GetSize view))
       | Sampler =>
           let sampler := Sampler_GetHandle (GetBindingAsSampler group binding) in
           let samplerIndex := indices binding in
           glPipeline <- deref (lastGLPipeline s) ;;
           for_each (GetTextureUnitsForSampler glPipeline samplerIndex)
             (fun unit_ (_ : unit) => emit (glBindSampler unit_ sampler))
             tt
       | SampledTexture =>
           let view := GetBindingAsTextureView group binding in
           let texture := TextureView_GetTexture view in
           let handle := Texture_GetHandle texture in
           let target := Texture_GetGLTarget texture in
           let textureIndex := indices binding in
           glPipeline <- deref (lastGLPipeline s) ;;
           for_each (GetTextureUnitsForTexture glPipeline textureIndex)
             (fun unit_ (_ : unit) =>
                emit (glActiveTexture (GL_TEXTURE0 + unit_)) ;;;
                emit (glBindTexture target handle))
             tt
       | StorageBuffer =>
           let view := GetBindingAsBufferView group binding in
           let buffer := Buffer_GetHandle (BufferView_GetBuffer view) in
           let ssboIndex := indices binding in
           emit (glBindBufferRange GL_SHADER_STORAGE_BUFFER ssboIndex buffer
                   (BufferView_GetOffset view) (BufferView_GetSize view))
       end)
    tt.

(** The body of the [switch] in the loop of [Execute]: one command. *)
Definition ExecuteCommand (command : Command) (s : ExecuteState) : M ExecuteState :=
  match command with
  | BeginComputePass =>
      ret (with_pushConstants s (PushConstantTracker_OnBeginPass (pushConstants s)))

  | BeginRenderPass renderPass framebuffer =>
      ret {| lastPipeline := lastPipeline s; lastGLPipeline := lastGLPipeline s;
             lastRenderPipeline := lastRenderPipeline s;
             indexBufferOffset := indexBufferOffset s;
             pushConstants := pushConstants s; inputBuffers := inputBuffers s;
             currentRenderPass := Some renderPass;
             currentFramebuffer := Some framebuffer;
             currentSubpass := 0; currentFBO := currentFBO s;
             framebuffersGenerated := framebuffersGenerated s |}

  | BeginRenderSubpass => ExecuteBeginRenderSubpass s

  | CopyBufferToBuffer src dst size =>
      emit (glBindBuffer GL_PIXEL_PACK_BUFFER (Buffer_GetHandle (copy_buffer src))) ;;;
      emit (glBindBuffer GL_PIXEL_UNPACK_BUFFER (Buffer_GetHandle (copy_buffer dst))) ;;;
      emit (glCopyBufferSubData GL_PIXEL_PACK_BUFFER GL_PIXEL_UNPACK_BUFFER
              (copy_buffer_offset src) (copy_buffer_offset dst) size) ;;;
      emit (glBindBuffer GL_PIXEL_PACK_BUFFER 0) ;;;
      emit (glBindBuffer GL_PIXEL_UNPACK_BUFFER 0) ;;;
      ret s

  | CopyBufferToTexture src dst rowPitch =>
      let buffer := copy_buffer src in
      let texture := copy_texture dst in
      let target := Texture_GetGLTarget texture in
      emit (glBindBuffer GL_PIXEL_UNPACK_BUFFER (Buffer_GetHandle buffer)) ;;;
      emit (glActiveTexture GL_TEXTURE0) ;;;
      emit (glBindTexture target (Texture_GetHandle texture)) ;;;
      assert (TextureDimension_eqb (Texture_GetDimension texture) e2D) ;;;
      let pixelSize := TextureFormatPixelSize (Texture_GetFormat texture) in
      defined_when (negb (pixelSize =? 0)) ;;;
      emit (glPixelStorei GL_UNPACK_ROW_LENGTH (rowPitch / pixelSize)) ;;;
      emit (glTexSubImage2D target (copy_level dst) (copy_x dst) (copy_y dst)
              (copy_width dst) (copy_height dst)
              (Texture_GetGLFormat_format texture) (Texture_GetGLFormat_type texture)
              (copy_buffer_offset src)) ;;;
      emit (glPixelStorei GL_UNPACK_ROW_LENGTH 0) ;;;
      emit (glBindBuffer GL_PIXEL_UNPACK_BUFFER 0) ;;;
      ret s

  | CopyTextureToBuffer src dst rowPitch =>
      let texture := copy_texture src in
      let buffer := copy_buffer dst in
      assert (TextureDimension_eqb (Texture_GetDimension texture) e2D) ;;;
      emit (glBindTexture GL_TEXTURE_2D (Texture_GetHandle texture)) ;;;
      let readFBO := GeneratedFramebuffer (framebuffersGenerated s) in
      emit (glGenFramebuffers 1 [readFBO]) ;;;
      emit (glBindFramebuffer GL_READ_FRAMEBUFFER readFBO) ;;;
      emit (glFramebufferTexture2D GL_READ_FRAMEBUFFER GL_COLOR_ATTACHMENT0
              GL_TEXTURE_2D (Texture_GetHandle texture) (copy_level src)) ;;;
      emit (glBindBuffer GL_PIXEL_PACK_BUFFER (Buffer_GetHandle buffer)) ;;;
      let pixelSize := TextureFormatPixelSize (Texture_GetFormat texture) in
      defined_when (negb (pixelSize =? 0)) ;;;
      emit (glPixelStorei GL_PACK_ROW_LENGTH (rowPitch / pixelSize)) ;;;
      assert ((copy_depth src =? 1) && (copy_z src =? 0)) ;;;
      let offset := copy_buffer_offset dst in
      emit (glReadPixels (copy_x src) (copy_y src) (copy_width src) (copy_height src)
              (Texture_GetGLFormat_format texture) (Texture_GetGLFormat_type texture)
              offset) ;;;
      emit (glPixelStorei GL_PACK_ROW_LENGTH 0) ;;;
      emit (glBindBuffer GL_PIXEL_PACK_BUFFER 0) ;;;
      emit (glDeleteFramebuffers 1 [readFBO]) ;;;
      ret {| lastPipeline := lastPipeline s; lastGLPipeline := lastGLPipeline s;
             lastRenderPipeline := lastRenderPipeline s;
             indexBufferOffset := indexBufferOffset s;
             pushConstants := pushConstants s; inputBuffers := inputBuffers s;
             currentRenderPass := currentRenderPass s;
             currentFramebuffer := currentFramebuffer s;
             currentSubpass := currentSubpass s; currentFBO := currentFBO s;
             framebuffersGenerated := S (framebuffersGenerated s) |}

  | Dispatch x y z =>
      tracker <-
        PushConstantTracker_Apply (pushConstants s) (lastPipeline s)
          (lastGLPipeline s) ;;
      emit (glDispatchCompute x y z) ;;;
      emit (glMemoryBarrier GL_ALL_BARRIER_BITS) ;;;
      ret (with_pushConstants s tracker)

  | DrawArrays vertexCount instanceCount firstVertex firstInstance =>
      tracker <-
        PushConstantTracker_Apply (pushConstants s) (lastPipeline s)
          (lastGLPipeline s) ;;
      let s := with_pushConstants s tracker in
      tracker <- InputBufferTracker_Apply (inputBuffers s) ;;
      let s := with_inputBuffers s tracker in
      renderPipeline <- deref (lastRenderPipeline s) ;;
      (if firstInstance >? 0 then
         emit (glDrawArraysInstancedBaseInstance
                 (GetGLPrimitiveTopology renderPipeline) firstVertex vertexCount
                 instanceCount firstInstance)
       else
         emit (glDrawArraysInstanced (GetGLPrimitiveTopology renderPipeline)
                 firstVertex vertexCount instanceCount)) ;;;
      ret s

  | DrawElements indexCount instanceCount firstIndex firstInstance =>
      tracker <-
        PushConstantTracker_Apply (pushConstants s) (lastPipeline s)
          (lastGLPipeline s) ;;
      let s := with_pushConstants s tracker in
      tracker <- InputBufferTracker_Apply (inputBuffers s) ;;
      let s := with_inputBuffers s tracker in
      renderPipeline <- deref (lastRenderPipeline s) ;;
      let indexFormat := GetIndexFormat renderPipeline in
      let formatSize := IndexFormatSize indexFormat in
      formatType <- IndexFormatType indexFormat ;;
      let indices := (firstIndex * formatSize + indexBufferOffset s) mod 2 ^ 64 in
      (if firstInstance >? 0 then
         emit (glDrawElementsInstancedBaseInstance
                 (GetGLPrimitiveTopology renderPipeline) indexCount formatType
                 indices instanceCount firstInstance)
       else
         emit (glDrawElementsInstanced (GetGLPrimitiveTopology renderPipeline)
                 indexCount formatType indices instanceCount)) ;;;
      ret s

  | EndComputePass => ret s

  | EndRenderPass => ret s

  | EndRenderSubpass =>
      emit (glDeleteFramebuffers 1 [currentFBO s]) ;;;
      ret {| lastPipeline := lastPipeline s; lastGLPipeline := lastGLPipeline s;
             lastRenderPipeline := lastRenderPipeline s;
             indexBufferOffset := indexBufferOffset s;
             pushConstants := pushConstants s; inputBuffers := inputBuffers s;
             currentRenderPass := currentRenderPass s;
             currentFramebuffer := currentFramebuffer s;
             currentSubpass := (currentSubpass s + 1) mod 2 ^ 32;
             currentFBO := 0;
             framebuffersGenerated := framebuffersGenerated s |}

  | SetComputePipeline pipeline =>
      emit (ComputePipeline_ApplyNow
              (Pipeline_address (ComputePipeline_base pipeline))) ;;;
      let s :=
        {| lastPipeline := Some (ComputePipeline_base pipeline);
           lastGLPipeline := Some (ComputePipeline_base pipeline);
           lastRenderPipeline := lastRenderPipeline s;
           indexBufferOffset := indexBufferOffset s;
           pushConstants := pushConstants s; inputBuffers := inputBuffers s;
           currentRenderPass := currentRenderPass s;
           currentFramebuffer := currentFramebuffer s;
           currentSubpass := currentSubpass s; currentFBO := currentFBO s;
           framebuffersGenerated := framebuffersGenerated s |} in
      tracker <- PushConstantTracker_OnSetPipeline (pushConstants s) (lastPipeline s) ;;
      ret (with_pushConstants s tracker)

  | SetRenderPipeline pipeline =>
      emit (RenderPipeline_ApplyNow
              (Pipeline_address (RenderPipeline_base pipeline))) ;;;
      let s :=
        {| lastPipeline := Some (RenderPipeline_base pipeline);
           lastGLPipeline := Some (RenderPipeline_base pipeline);
           lastRenderPipeline := Some pipeline;
           indexBufferOffset := indexBufferOffset s;
           pushConstants := pushConstants s; inputBuffers := inputBuffers s;
           currentRenderPass := currentRenderPass s;
           currentFramebuffer := currentFramebuffer s;
           currentSubpass := currentSubpass s; currentFBO := currentFBO s;
           framebuffersGenerated := framebuffersGenerated s |} in
      tracker <- PushConstantTracker_OnSetPipeline (pushConstants s) (lastPipeline s) ;;
      let s := with_pushConstants s tracker in
      renderPipeline <- deref (lastRenderPipeline s) ;;
      ret (with_inputBuffers s
             (InputBufferTracker_OnSetPipeline (inputBuffers s) renderPipeline))

  | SetPushConstants stages count offset data =>
      tracker <-
        PushConstantTracker_OnSetPushConstants (pushConstants s) stages count
          offset data ;;
      ret (with_pushConstants s tracker)

  | SetStencilReference reference =>
      emit (PersistentPipelineState_SetStencilReference reference) ;;;
      ret s

  | SetBlendColor r g b a =>
      emit (glBlendColor r g b a) ;;;
      ret s

  | SetBindGroup index group =>
      ExecuteSetBindGroup s index group ;;;
      ret s

  | SetIndexBuffer buffer offset =>
      let s :=
        {| lastPipeline := lastPipeline s; lastGLPipeline := lastGLPipeline s;
           lastRenderPipeline := lastRenderPipeline s;
           indexBufferOffset := offset;
           pushConstants := pushConstants s; inputBuffers := inputBuffers s;
           currentRenderPass := currentRenderPass s;
           currentFramebuffer := currentFramebuffer s;
           currentSubpass := currentSubpass s; currentFBO := currentFBO s;
           framebuffersGenerated := framebuffersGenerated s |} in
      ret (with_inputBuffers s
             (InputBufferTracker_OnSetIndexBuffer (inputBuffers s) buffer))

  | SetVertexBuffers startSlot count buffers offsets =>
      tracker <-
        InputBufferTracker_OnSetVertexBuffers (inputBuffers s) startSlot count
          buffers offsets ;;
      ret (with_inputBuffers s tracker)

  | TransitionBufferUsage buffer usage =>
      emit (Buffer_UpdateUsageInternal (Buffer_address buffer) usage) ;;;
      ret s

  | TransitionTextureUsage texture usage =>
      emit (Texture_UpdateUsageInternal (Texture_address texture) usage) ;;;
      ret s
  end.

(** The [while] loop of [Execute], started in state [s]. *)
Definition ExecuteCommands (commands : list Command) (s : ExecuteState)
  : M ExecuteState :=
  for_each commands ExecuteCommand s.

(** [CommandBuffer::Execute] *)
Definition Execute (mCommands : list Command) : M unit :=
  emit PersistentPipelineState_SetDefaultState ;;;
  ExecuteCommands mCommands InitialState ;;;
  (* HACK: cleanup a tiny bit of state to make this work with
     virtualized contexts enabled in Chromium *)
  emit (glBindSampler 0 0).

End Executor.
End opengl.

(** * Properties *)

(** ** Bit masks *)

Lemma has_lor (a b flag : Z) : has (Z.lor a b) flag = has a flag || has b flag.
Proof.
  unfold has. rewrite Z.land_lor_distr_l.
  destruct (Z.eqb_spec (Z.land a flag) 0) as [Ha | Ha];
    destruct (Z.eqb_spec (Z.land b flag) 0) as [Hb | Hb]; cbn.
  - rewrite Ha, Hb. reflexivity.
  - apply negb_true_iff, Z.eqb_neq. rewrite Z.lor_eq_0_iff. tauto.
  - apply negb_true_iff, Z.eqb_neq. rewrite Z.lor_eq_0_iff. tauto.
  - apply negb_true_iff, Z.eqb_neq. rewrite Z.lor_eq_0_iff. tauto.
Qed.

Lemma has_true_iff (mask flag : Z) : has mask flag = true <-> Z.land mask flag <> 0.
Proof. unfold has. rewrite negb_true_iff, Z.eqb_neq. reflexivity. Qed.

Lemma has_false_iff (mask flag : Z) : has mask flag = false <-> Z.land mask flag = 0.
Proof. unfold has. rewrite negb_false_iff, Z.eqb_eq. reflexivity. Qed.

Lemma has_self (flag : Z) : flag <> 0 -> has flag flag = true.
Proof. intros H. apply has_true_iff. rewrite Z.land_diag. exact H. Qed.

Lemma pow2_nonzero (k : Z) : 0 <= k -> 2 ^ k <> 0.
Proof. intros H. pose proof (Z.pow_pos_nonneg 2 k). lia. Qed.

Lemma pow2_disjoint (i j : Z) :
  0 <= i -> 0 <= j -> i <> j -> Z.land (2 ^ i) (2 ^ j) = 0.
Proof.
  intros Hi Hj Hij. apply Z.bits_inj'. intros n Hn.
  rewrite Z.land_spec, Z.bits_0, !Z.pow2_bits_eqb by lia.
  destruct (Z.eqb_spec i n), (Z.eqb_spec j n); try reflexivity. lia.
Qed.

Lemma has_lor_r (mask x y : Z) : has mask (Z.lor x y) = has mask x || has mask y.
Proof.
  unfold has. rewrite Z.land_lor_distr_r.
  destruct (Z.eqb_spec (Z.land mask x) 0) as [Hx | Hx];
    destruct (Z.eqb_spec (Z.land mask y) 0) as [Hy | Hy]; cbn.
  - rewrite Hx, Hy. reflexivity.
  - apply negb_true_iff, Z.eqb_neq. rewrite Z.lor_eq_0_iff. tauto.
  - apply negb_true_iff, Z.eqb_neq. rewrite Z.lor_eq_0_iff. tauto.
  - apply negb_true_iff, Z.eqb_neq. rewrite Z.lor_eq_0_iff. tauto.
Qed.

Lemma land_lor_absorb (state flag : Z) : Z.land (Z.lor state flag) flag = flag.
Proof.
  apply Z.bits_inj'. intros n _. rewrite Z.land_spec, Z.lor_spec.
  destruct (Z.testbit state n), (Z.testbit flag n); reflexivity.
Qed.

Lemma has_pow2 (i j : Z) : 0 <= i -> 0 <= j -> has (2 ^ i) (2 ^ j) = (i =? j).
Proof.
  intros Hi Hj. destruct (Z.eqb_spec i j) as [-> | Hne].
  - apply has_self, pow2_nonzero, Hj.
  - apply has_false_iff, pow2_disjoint; assumption.
Qed.

(** ** Direct3D 12 buffers *)

Section BufferD3D12.
Import d3d12.
Import nxt.BufferUsageBit.
Context {usageBit : nxt.BufferUsageBit.values}.

(** The usage flags, unpacked: eight distinct bit positions. *)
Lemma usage_bit_positions :
  exists p0 p1 p2 p3 p4 p5 p6 p7 : Z,
    MapRead = 2 ^ p0 /\ MapWrite = 2 ^ p1 /\ TransferSrc = 2 ^ p2 /\
    TransferDst = 2 ^ p3 /\ Index = 2 ^ p4 /\ Vertex = 2 ^ p5 /\
    Uniform = 2 ^ p6 /\ Storage = 2 ^ p7 /\
    Forall (fun k => 0 <= k) [p0; p1; p2; p3; p4; p5; p6; p7] /\
    NoDup [p0; p1; p2; p3; p4; p5; p6; p7].
Proof.
  destruct single_bits as (ps & Heq & Hrange & Hnd).
  do 8 (destruct ps as [| ? ps]; [discriminate Heq |]).
  destruct ps; [| discriminate Heq].
  injection Heq as -> -> -> -> -> -> -> ->.
  do 8 eexists. repeat (split; [reflexivity |]). split; [| exact Hnd].
  eapply Forall_impl; [| exact Hrange]. cbn. intros; lia.
Qed.

Lemma MapRead_nonzero : MapRead <> 0.
Proof.
  destruct usage_bit_positions as (p0 & ? & ? & ? & ? & ? & ? & ? & -> & _ & _ & _ & _ & _ & _ & _ & Hr & _).
  inversion Hr; subst. apply pow2_nonzero; assumption.
Qed.

Lemma MapWrite_nonzero : MapWrite <> 0.
Proof.
  destruct usage_bit_positions as (? & p1 & ? & ? & ? & ? & ? & ? & _ & -> & _ & _ & _ & _ & _ & _ & Hr & _).
  inversion Hr as [| ? ? _ Hr']; subst. inversion Hr'; subst.
  apply pow2_nonzero; assumption.
Qed.

(** [Vertex] and [Uniform] are different usages with the same native
    state. *)
Lemma Vertex_Uniform_same_state :
  Vertex <> Uniform /\ D3D12BufferUsage Vertex = D3D12BufferUsage Uniform.
Proof.
  destruct usage_bit_positions
    as (p0 & p1 & p2 & p3 & p4 & p5 & p6 & p7 & H0 & H1 & H2 & H3 & H4 & H5 & H6 & H7
        & Hr & Hnd).
  repeat match goal with
         | H : Forall _ (_ :: _) |- _ => inversion H; clear H; subst
         | H : NoDup (_ :: _) |- _ => inversion H; clear H; subst
         end.
  cbn [In] in *.
  split.
  - rewrite H5, H6. intros Heq.
    assert (p5 = p6) by (apply (Z.pow_inj_r 2); [reflexivity | assumption .. ]).
    intuition congruence.
  - unfold D3D12BufferUsage.
    rewrite !has_lor_r. rewrite H2, H3, H4, H5, H6, H7.
    rewrite !has_pow2 by assumption.
    repeat match goal with
           | |- context [?a =? ?b] =>
               destruct (Z.eqb_spec a b); [exfalso; intuition congruence |]
           end.
    rewrite !Z.eqb_refl. reflexivity.
Qed.

(** The barrier [GetResourceTransitionBarrier] fills in when it returns
    [true]. *)
Definition TransitionBarrier (this : Buffer) (currentUsage targetUsage : Z)
  : D3D12_RESOURCE_BARRIER :=
  {| Type_ := D3D12_RESOURCE_BARRIER_TYPE_TRANSITION;
     Flags_ := D3D12_RESOURCE_BARRIER_FLAG_NONE;
     Transition_pResource := mResource this;
     Transition_StateBefore := D3D12BufferUsage currentUsage;
     Transition_StateAfter := D3D12BufferUsage targetUsage;
     Transition_Subresource := 0 |}.

Lemma GetResourceTransitionBarrier_not_mappable
    (this : Buffer) (currentUsage targetUsage : Z) :
  has (GetAllowedUsage this) (Z.lor MapRead MapWrite) = false ->
  GetResourceTransitionBarrier this currentUsage targetUsage =
    if D3D12BufferUsage currentUsage =? D3D12BufferUsage targetUsage then None
    else Some (TransitionBarrier this currentUsage targetUsage).
Proof. intros H. unfold GetResourceTransitionBarrier. rewrite H. reflexivity. Qed.

Lemma GetResourceTransitionBarrier_mappable
    (this : Buffer) (currentUsage targetUsage : Z) :
  has (GetAllowedUsage this) (Z.lor MapRead MapWrite) = true ->
  GetResourceTransitionBarrier this currentUsage targetUsage = None.
Proof. intros H. unfold GetResourceTransitionBarrier. rewrite H. reflexivity. Qed.

Lemma TransitionUsageImpl_same_usage (this : Buffer) (usage : Z) :
  TransitionUsageImpl this usage usage = [].
Proof.
  unfold TransitionUsageImpl, GetResourceTransitionBarrier.
  destruct (has _ _); [reflexivity |]. rewrite Z.eqb_refl. reflexivity.
Qed.

Lemma TransitionRequests_allowed (requests : list Z) :
  forall this : Buffer,
    GetAllowedUsage (fst (TransitionRequests this requests)) = GetAllowedUsage this.
Proof.
  induction requests as [| usage rest IH]; intros this; cbn.
  - reflexivity.
  - specialize (IH (fst (UpdateUsageInternal this usage))).
    cbn in IH.
    destruct (TransitionRequests _ rest) as [this'' calls'] eqn:E.
    cbn in *. exact IH.
Qed.

(** C6.  The usage-to-state table is a homomorphism for union: the native
    state of [a | b] is the union of the native states of [a] and of [b],
    for all usage bit sets [a] and [b]. *)
Theorem D3D12BufferUsage_union (a b : Z) :
  D3D12BufferUsage (Z.lor a b) = Z.lor (D3D12BufferUsage a) (D3D12BufferUsage b).
Proof.
  unfold D3D12BufferUsage. rewrite !has_lor.
  destruct (has a TransferSrc), (has b TransferSrc),
    (has a TransferDst), (has b TransferDst),
    (has a (Z.lor Vertex Uniform)), (has b (Z.lor Vertex Uniform)),
    (has a Index), (has b Index), (has a Storage), (has b Storage);
    reflexivity.
Qed.

(** C1, as amended.  For a buffer that is not mappable and any two usages,
    [GetResourceTransitionBarrier] returns [true], with the two computed
    states in the barrier, exactly when the native states of the current and
    of the target usage differ.  Of two consecutive requests to the same
    target usage the second never adds a barrier, so the two together produce
    one barrier when the native state of the usage held before them differs
    from the target's, and none otherwise.  Two usages with the same native
    state, such as [Vertex] and [Uniform], produce none. *)
Theorem transition_iff_native_states_differ (this : Buffer)
    (not_mappable : has (GetAllowedUsage this) (Z.lor MapRead MapWrite) = false) :
  (forall currentUsage targetUsage : Z,
     GetResourceTransitionBarrier this currentUsage targetUsage =
       if D3D12BufferUsage currentUsage =? D3D12BufferUsage targetUsage then None
       else Some (TransitionBarrier this currentUsage targetUsage))
  /\ (forall targetUsage : Z,
        snd (TransitionRequests this [targetUsage; targetUsage]) =
          snd (TransitionRequests this [targetUsage])
        /\ snd (TransitionRequests this [targetUsage]) =
             if D3D12BufferUsage (GetUsage this) =? D3D12BufferUsage targetUsage
             then []
             else [ResourceBarrier 1
                     [TransitionBarrier this (GetUsage this) targetUsage]])
  /\ (forall currentUsage targetUsage : Z,
        D3D12BufferUsage currentUsage = D3D12BufferUsage targetUsage ->
        TransitionUsageImpl this currentUsage targetUsage = [])
  /\ Vertex <> Uniform
  /\ TransitionUsageImpl this Vertex Uniform = [].
Proof.
  assert (Hb : forall c t,
             GetResourceTransitionBarrier this c t =
               if D3D12BufferUsage c =? D3D12BufferUsage t then None
               else Some (TransitionBarrier this c t)).
  { intros c t. apply GetResourceTransitionBarrier_not_mappable, not_mappable. }
  assert (Hsame : forall c t,
             D3D12BufferUsage c = D3D12BufferUsage t ->
             TransitionUsageImpl this c t = []).
  { intros c t Heq. unfold TransitionUsageImpl. rewrite Hb, Heq, Z.eqb_refl.
    reflexivity. }
  split; [exact Hb |]. split; [| split; [exact Hsame |]].
  - intros t. cbn. rewrite TransitionUsageImpl_same_usage, !app_nil_r.
    split; [reflexivity |].
    unfold TransitionUsageImpl. rewrite Hb.
    destruct (_ =? _); reflexivity.
  - destruct Vertex_Uniform_same_state as [Hne Heq].
    split; [exact Hne | apply Hsame, Heq].
Qed.

(** C2.  A buffer whose allowed usage is exactly [MapRead | TransferDst] or
    exactly [MapWrite | TransferSrc] never transitions: whatever the current
    and the target usage, [GetResourceTransitionBarrier] returns [false] and
    [TransitionUsageImpl] records no barrier, and so does any sequence of
    transition requests. *)
Theorem mapped_buffer_never_transitions (this : Buffer)
    (mapped_only :
       GetAllowedUsage this = Z.lor MapRead TransferDst
       \/ GetAllowedUsage this = Z.lor MapWrite TransferSrc) :
  (forall currentUsage targetUsage : Z,
     GetResourceTransitionBarrier this currentUsage targetUsage = None
     /\ TransitionUsageImpl this currentUsage targetUsage = [])
  /\ (forall requests : list Z, snd (TransitionRequests this requests) = []).
Proof.
  assert (Hm : has (GetAllowedUsage this) (Z.lor MapRead MapWrite) = true).
  { rewrite has_lor_r.
    destruct mapped_only as [-> | ->]; rewrite !has_lor.
    - rewrite (has_self MapRead MapRead_nonzero). reflexivity.
    - rewrite (has_self MapWrite MapWrite_nonzero). apply orb_true_r. }
  assert (Hone : forall (b : Buffer) c t,
             GetAllowedUsage b = GetAllowedUsage this ->
             TransitionUsageImpl b c t = []).
  { intros b c t Hb. unfold TransitionUsageImpl.
    rewrite GetResourceTransitionBarrier_mappable; [reflexivity |].
    rewrite Hb. exact Hm. }
  split.
  - intros c t. split.
    + apply GetResourceTransitionBarrier_mappable, Hm.
    + apply Hone. reflexivity.
  - intros requests.
    assert (Hgen : forall b : Buffer,
               GetAllowedUsage b = GetAllowedUsage this ->
               snd (TransitionRequests b requests) = []).
    { induction requests as [| usage rest IH]; intros b Hb; cbn.
      - reflexivity.
      - specialize (IH (fst (UpdateUsageInternal b usage)) Hb).
        cbn in IH.
        destruct (TransitionRequests _ rest) as [b'' calls'] eqn:E.
        cbn in *. rewrite IH, app_nil_r. apply Hone, Hb. }
    apply Hgen. reflexivity.
Qed.

(** C10.  [Buffer::Buffer] asks the allocator for the READBACK heap and an
    initial state that includes COPY_DEST when the allowed usage contains
    [MapRead] (whether or not it contains [MapWrite]); otherwise for the
    UPLOAD heap and a state that includes GENERIC_READ when it contains
    [MapWrite]; otherwise for the DEFAULT heap and exactly the state computed
    from the current usage. *)
Theorem Buffer_heap_and_initial_state (Align : Z -> Z -> Z) (allowedUsage usage size : Z) :
  exists (resourceDescriptor : D3D12_RESOURCE_DESC) (initialState : Z),
    Buffer_constructor Align allowedUsage usage size =
      Allocate (D3D12HeapType allowedUsage) resourceDescriptor initialState
    /\ if has allowedUsage MapRead then
         D3D12HeapType allowedUsage = D3D12_HEAP_TYPE_READBACK
         /\ initialState =
              Z.lor (D3D12BufferUsage usage) D3D12_RESOURCE_STATE_COPY_DEST
         /\ Z.land initialState D3D12_RESOURCE_STATE_COPY_DEST =
              D3D12_RESOURCE_STATE_COPY_DEST
       else if has allowedUsage MapWrite then
         D3D12HeapType allowedUsage = D3D12_HEAP_TYPE_UPLOAD
         /\ initialState =
              Z.lor (D3D12BufferUsage usage) D3D12_RESOURCE_STATE_GENERIC_READ
         /\ Z.land initialState D3D12_RESOURCE_STATE_GENERIC_READ =
              D3D12_RESOURCE_STATE_GENERIC_READ
       else
         D3D12HeapType allowedUsage = D3D12_HEAP_TYPE_DEFAULT
         /\ initialState = D3D12BufferUsage usage.
Proof.
  unfold Buffer_constructor, D3D12HeapType.
  destruct (has allowedUsage MapRead); [| destruct (has allowedUsage MapWrite)];
    cbn [D3D12_HEAP_TYPE_eqb or_when]; do 2 eexists; (split; [reflexivity |]).
  - split; [reflexivity | split; [reflexivity |]].
    apply land_lor_absorb.
  - split; [reflexivity | split; [reflexivity |]].
    apply land_lor_absorb.
  - split; reflexivity.
Qed.

End BufferD3D12.

(** A buffer that may be bound as vertex or uniform buffer and filled by
    copies, currently a vertex buffer; the flags are those of the generated
    header. *)
Definition exampleVertexBuffer : d3d12.Buffer :=
  {| d3d12.GetAllowedUsage := Z.lor (Z.lor 8 32) 64;
     d3d12.GetUsage := 32;
     d3d12.GetSize := 256;
     d3d12.mResource := 4096 |}.

(** A read-back buffer: allowed usage [MapRead | TransferDst]. *)
Definition exampleReadbackBuffer : d3d12.Buffer :=
  {| d3d12.GetAllowedUsage := Z.lor 1 8;
     d3d12.GetUsage := 8;
     d3d12.GetSize := 256;
     d3d12.mResource := 8192 |}.

Lemma transition_iff_native_states_differ_witness :
  has (d3d12.GetAllowedUsage exampleVertexBuffer) (Z.lor 1 2) = false
  /\ snd (d3d12.TransitionRequests (usageBit := nxt.BufferUsageBit.header)
            exampleVertexBuffer [8; 8])
     = snd (d3d12.TransitionRequests (usageBit := nxt.BufferUsageBit.header)
              exampleVertexBuffer [8]).
Proof.
  split; [reflexivity |].
  exact (proj1 (proj1 (proj2
           (@transition_iff_native_states_differ nxt.BufferUsageBit.header
              exampleVertexBuffer eq_refl)) 8)).
Defined.

(** C1 as stated fails: the buffer is a vertex buffer ([Vertex = 32]) and is
    twice asked to become a uniform buffer ([Uniform = 64]).  Both usages
    have the native state VERTEX_AND_CONSTANT_BUFFER, so neither request
    records a barrier: the two requests produce none, not one. *)
Lemma two_requests_same_target_no_barrier :
  has (d3d12.GetAllowedUsage exampleVertexBuffer)
      (Z.lor (nxt.BufferUsageBit.MapRead (values := nxt.BufferUsageBit.header))
             (nxt.BufferUsageBit.MapWrite (values := nxt.BufferUsageBit.header)))
    = false
  /\ snd (d3d12.TransitionRequests (usageBit := nxt.BufferUsageBit.header)
            exampleVertexBuffer [64; 64]) = []
  /\ List.length
       (snd (d3d12.TransitionRequests (usageBit := nxt.BufferUsageBit.header)
               exampleVertexBuffer [64; 64])) <> 1%nat.
Proof. repeat split; try reflexivity. cbn. discriminate. Qed.

Lemma mapped_buffer_never_transitions_witness :
  (d3d12.GetAllowedUsage exampleReadbackBuffer = Z.lor 1 8
   \/ d3d12.GetAllowedUsage exampleReadbackBuffer = Z.lor 2 4)
  /\ snd (d3d12.TransitionRequests (usageBit := nxt.BufferUsageBit.header)
            exampleReadbackBuffer [4; 32; 8]) = [].
Proof.
  split; [left; reflexivity |].
  exact (proj2 (@mapped_buffer_never_transitions nxt.BufferUsageBit.header
                  exampleReadbackBuffer (or_introl eq_refl)) [4; 32; 8]).
Defined.

(** ** The map-read request tracker *)

Section MapReadRequestTracker.
Import d3d12.

(** Serials are those of a queue filled through [Enqueue]: non-decreasing
    from front to back. *)
Definition Ordered {T : Type} (q : SerialQueue.t T) : Prop :=
  StronglySorted (fun a b => fst a <= fst b) q.

Lemma LastSerial_cons {T : Type} (a b : Serial * T) (q : SerialQueue.t T) :
  SerialQueue.LastSerial (a :: b :: q) = SerialQueue.LastSerial (b :: q).
Proof.
  unfold SerialQueue.LastSerial. cbn [rev].
  destruct (rev q ++ [b]) as [| x l] eqn:E.
  - destruct (rev q); discriminate E.
  - reflexivity.
Qed.

Lemma Ordered_last_bounds {T : Type} (q : SerialQueue.t T) (last : Serial) :
  Ordered q -> SerialQueue.LastSerial q = Some last ->
  Forall (fun x => fst x <= last) q.
Proof.
  induction q as [| a q IH]; intros Hs Hl.
  - constructor.
  - apply StronglySorted_inv in Hs. destruct Hs as [Hs Ha].
    destruct q as [| b q].
    + destruct a as [s v]. cbn in Hl. injection Hl as <-.
      constructor; [cbn; lia | constructor].
    + rewrite LastSerial_cons in Hl. specialize (IH Hs Hl).
      constructor; [| exact IH].
      inversion Ha as [| ? ? Hab _]; subst. inversion IH; subst. lia.
Qed.

Lemma Enqueue_Ordered {T : Type} (q q' : SerialQueue.t T) (value : T) (serial : Serial) :
  Ordered q -> SerialQueue.Enqueue q value serial = Some q' ->
  q' = q ++ [(serial, value)] /\ Ordered q'.
Proof.
  intros Hs He. unfold SerialQueue.Enqueue in He.
  destruct (SerialQueue.LastSerial q) as [last |] eqn:El.
  - destruct (Z.leb_spec last serial) as [Hle | Hgt]; cbn in He; [| discriminate He].
    injection He as <-. split; [reflexivity |].
    pose proof (Ordered_last_bounds q last Hs El) as Hb.
    clear El. induction q as [| a q IH].
    + repeat constructor.
    + apply StronglySorted_inv in Hs. destruct Hs as [Hs Ha].
      inversion Hb; subst. cbn. constructor.
      * apply IH; assumption.
      * apply Forall_app. split; [exact Ha |]. constructor; [cbn; lia | constructor].
  - cbn in He. injection He as <-. split; [reflexivity |].
    destruct q as [| a q].
    + repeat constructor.
    + exfalso. unfold SerialQueue.LastSerial in El. cbn [rev] in El.
      destruct (rev q ++ [a]) as [| [s v] l] eqn:E; [| discriminate El].
      destruct (rev q); discriminate E.
Qed.

(** On an ordered queue the prefix removed by [ClearUpTo] holds every item
    whose serial has been reached. *)
Lemma ClearUpTo_Ordered {T : Type} (q : SerialQueue.t T) (serial : Serial) :
  Ordered q ->
  SerialQueue.ClearUpTo q serial = filter (fun x => serial <? fst x) q
  /\ Ordered (SerialQueue.ClearUpTo q serial).
Proof.
  induction q as [| [s v] q IH]; intros Hs.
  - split; [reflexivity | constructor].
  - apply StronglySorted_inv in Hs. destruct Hs as [Hs Ha].
    cbn [SerialQueue.ClearUpTo filter fst].
    destruct (Z.leb_spec s serial) as [Hle | Hgt].
    + destruct (Z.ltb_spec serial s); [lia |]. apply IH, Hs.
    + destruct (Z.ltb_spec serial s); [| lia]. split.
      * f_equal. symmetry. apply forallb_filter_id.
        apply forallb_forall. intros x Hx.
        rewrite Forall_forall in Ha. specialize (Ha x Hx). cbn in Ha.
        apply Z.ltb_lt. lia.
      * constructor; assumption.
Qed.

(** Whether a request enqueued at [serial] is reached by one of the [Tick]
    calls that follow. *)
Definition TickedLater (serial : Serial) (rest : list TrackerCall) : bool :=
  existsb (fun call =>
             match call with
             | CallTick finishedSerial => serial <=? finishedSerial
             | CallTrack _ _ _ _ => false
             end) rest.

(** The requests enqueued by [calls] that no later [Tick] has reached. *)
Fixpoint InFlight (calls : list TrackerCall) : SerialQueue.t Request :=
  match calls with
  | [] => []
  | CallTrack buffer mapSerial data deviceSerial :: rest =>
      if TickedLater deviceSerial rest then InFlight rest
      else (deviceSerial,
            {| buffer := buffer; mapSerial := mapSerial; data := data |})
           :: InFlight rest
  | CallTick _ :: rest => InFlight rest
  end.

(** Every request enqueued by [calls] is reached by a later [Tick]. *)
Fixpoint EveryRequestTicked (calls : list TrackerCall) : bool :=
  match calls with
  | [] => true
  | CallTrack _ _ _ deviceSerial :: rest =>
      TickedLater deviceSerial rest && EveryRequestTicked rest
  | CallTick _ :: rest => EveryRequestTicked rest
  end.

Lemma EveryRequestTicked_InFlight (calls : list TrackerCall) :
  EveryRequestTicked calls = true -> InFlight calls = [].
Proof.
  induction calls as [| [b m d s | x] rest IH]; cbn; intros H.
  - reflexivity.
  - apply andb_true_iff in H. destruct H as [Ht Hr]. rewrite Ht. apply IH, Hr.
  - apply IH, H.
Qed.

Lemma RunTracker_queue (calls : list TrackerCall) :
  forall (this this' : MapReadRequestTracker) (callbacks : list Callback),
    Ordered (mInflightRequests this) ->
    RunTracker this calls = Some (this', callbacks) ->
    mInflightRequests this' =
      filter (fun x => negb (TickedLater (fst x) calls)) (mInflightRequests this)
      ++ InFlight calls.
Proof.
  induction calls as [| [b m d s | x] rest IH]; intros this this' callbacks Hs Hrun.
  - cbn in Hrun. injection Hrun as <- _. cbn.
    rewrite app_nil_r. symmetry. apply forallb_filter_id.
    apply forallb_forall. reflexivity.
  - cbn [RunTracker] in Hrun. unfold Track in Hrun.
    destruct (SerialQueue.Enqueue _ _ s) as [q |] eqn:Eq; [| discriminate Hrun].
    apply Enqueue_Ordered in Eq; [| exact Hs]. destruct Eq as [-> Hq].
    apply IH in Hrun; [| exact Hq]. cbn [mInflightRequests] in Hrun.
    rewrite Hrun, filter_app. cbn [filter fst InFlight TickedLater existsb orb].
    rewrite <- app_assoc. f_equal.
    fold (TickedLater s rest). destruct (TickedLater s rest); reflexivity.
  - cbn [RunTracker] in Hrun. unfold Tick in Hrun.
    destruct (RunTracker _ rest) as [[this'' callbacks''] |] eqn:Er;
      [| discriminate Hrun].
    injection Hrun as <- _.
    destruct (ClearUpTo_Ordered (mInflightRequests this) x Hs) as [Hc Ho].
    apply IH in Er; [| exact Ho]. cbn [mInflightRequests] in Er.
    rewrite Er, Hc. cbn [InFlight]. f_equal.
    clear. induction (mInflightRequests this) as [| [s v] q IHq]; [reflexivity |].
    cbn [filter fst TickedLater existsb].
    fold (TickedLater s rest).
    destruct (Z.ltb_spec x s), (Z.leb_spec s x); try lia; cbn [negb orb filter fst].
    + destruct (TickedLater s rest); cbn [negb]; [exact IHq | f_equal; exact IHq].
    + exact IHq.
Qed.

(** C8.  After any run of [Track] and [Tick] calls on a fresh tracker, the
    queue holds exactly the requests that no later [Tick] has reached.
    Destroying the tracker fires the debug assertion exactly when that queue
    is not empty, and does not fire it when every enqueued request has been
    reached by a later [Tick]. *)
Theorem destructor_asserts_iff_requests_in_flight
    (calls : list TrackerCall) (this : MapReadRequestTracker)
    (callbacks : list Callback)
    (run : RunTracker MapReadRequestTracker_constructor calls
           = Some (this, callbacks)) :
  mInflightRequests this = InFlight calls
  /\ (MapReadRequestTracker_destructor this = None <-> InFlight calls <> [])
  /\ (MapReadRequestTracker_destructor this = Some tt <-> InFlight calls = [])
  /\ (EveryRequestTicked calls = true ->
      MapReadRequestTracker_destructor this = Some tt).
Proof.
  assert (Hq : mInflightRequests this = InFlight calls).
  { apply RunTracker_queue in run; [| constructor]. exact run. }
  assert (Hd : MapReadRequestTracker_destructor this
               = match InFlight calls with [] => Some tt | _ :: _ => None end).
  { unfold MapReadRequestTracker_destructor. rewrite Hq.
    destruct (InFlight calls); reflexivity. }
  split; [exact Hq |]. rewrite Hd. repeat split.
  - destruct (InFlight calls); [discriminate | discriminate].
  - destruct (InFlight calls); [congruence | reflexivity].
  - destruct (InFlight calls); [reflexivity | discriminate].
  - intros ->. reflexivity.
  - intros H. rewrite (EveryRequestTicked_InFlight calls H). reflexivity.
Qed.

End MapReadRequestTracker.

(** Two requests, each reached by a later [Tick]. *)
Definition exampleTrackerCalls : list d3d12.TrackerCall :=
  [d3d12.CallTrack 4096 7 100 3; d3d12.CallTick 2;
   d3d12.CallTrack 4096 8 200 4; d3d12.CallTick 4].

Lemma destructor_asserts_iff_requests_in_flight_witness :
  d3d12.RunTracker d3d12.MapReadRequestTracker_constructor exampleTrackerCalls
  = Some ({| d3d12.mInflightRequests := [] |},
          [d3d12.CallMapReadCallback 4096 7
             d3d12.NXT_BUFFER_MAP_READ_STATUS_SUCCESS 100;
           d3d12.CallMapReadCallback 4096 8
             d3d12.NXT_BUFFER_MAP_READ_STATUS_SUCCESS 200])
  /\ d3d12.MapReadRequestTracker_destructor {| d3d12.mInflightRequests := [] |}
     = Some tt.
Proof.
  split; [reflexivity |].
  exact (proj2 (proj2 (proj2
           (destructor_asserts_iff_requests_in_flight exampleTrackerCalls _ _
              eq_refl))) eq_refl).
Defined.

(** A request enqueued at serial 5 is still in flight after [Tick 4]:
    destroying the tracker then fires the assertion. *)
Example destructor_fires_with_request_in_flight :
  match d3d12.RunTracker d3d12.MapReadRequestTracker_constructor
          [d3d12.CallTrack 4096 7 100 5; d3d12.CallTick 4] with
  | Some (tracker, _) => d3d12.MapReadRequestTracker_destructor tracker
  | None => Some tt
  end = None.
Proof. reflexivity. Qed.

(** ** Vulkan: gathering instance and device information *)

Section VulkanInfo.
Import vulkan.
Variables VkPhysicalDeviceProperties VkPhysicalDeviceFeatures
  VkMemoryType VkMemoryHeap VkQueueFamilyProperties : Type.
Variable defaultQueueFamily : VkQueueFamilyProperties.

Let Driver : Type :=
  VulkanFunctions VkPhysicalDeviceProperties VkPhysicalDeviceFeatures
    VkMemoryType VkMemoryHeap VkQueueFamilyProperties.

(** The [VkResult] the driver [fn] returns to [call] when the calls in
    [history] came before; the [void] entry points return none and count as
    successful. *)
Definition ResultOf (fn : Driver) (history : list VkCall) (call : VkCall) : VkResult :=
  match call with
  | EnumerateInstanceLayerProperties count withData =>
      result _ (fnEnumerateInstanceLayerProperties _ _ _ _ _ fn history count withData)
  | EnumerateInstanceExtensionProperties count withData =>
      result _ (fnEnumerateInstanceExtensionProperties _ _ _ _ _ fn history count
                  withData)
  | EnumerateDeviceLayerProperties physicalDevice count withData =>
      result _ (fnEnumerateDeviceLayerProperties _ _ _ _ _ fn history
                  physicalDevice count withData)
  | EnumerateDeviceExtensionProperties physicalDevice count withData =>
      result _ (fnEnumerateDeviceExtensionProperties _ _ _ _ _ fn history
                  physicalDevice count withData)
  | GetPhysicalDeviceProperties _
  | GetPhysicalDeviceFeatures _
  | GetPhysicalDeviceMemoryProperties _
  | GetPhysicalDeviceQueueFamilyProperties _ _ _ => VK_SUCCESS
  end.

Definition WithData (call : VkCall) : bool :=
  match call with
  | EnumerateInstanceLayerProperties _ withData
  | EnumerateInstanceExtensionProperties _ withData
  | GetPhysicalDeviceQueueFamilyProperties _ _ withData
  | EnumerateDeviceLayerProperties _ _ withData
  | EnumerateDeviceExtensionProperties _ _ withData => withData
  | _ => false
  end.

(** A result the caller takes as success: [VK_SUCCESS], or [VK_INCOMPLETE]
    on a query that asks for the count only. *)
Definition Succeeded (call : VkCall) (r : VkResult) : bool :=
  (r =? VK_SUCCESS) || (negb (WithData call) && (r =? VK_INCOMPLETE)).

(** Every call of [calls], made in this order after [history], succeeded. *)
Fixpoint AllSucceeded (fn : Driver) (history : list VkCall) (calls : list VkCall) : bool :=
  match calls with
  | [] => true
  | call :: rest =>
      Succeeded call (ResultOf fn history call)
      && AllSucceeded fn (history ++ [call]) rest
  end.

(** Every call of [calls] but the last succeeded. *)
Fixpoint OnlyLastMayFail (fn : Driver) (history : list VkCall) (calls : list VkCall)
  : bool :=
  match calls with
  | [] | [_] => true
  | call :: rest =>
      Succeeded call (ResultOf fn history call)
      && OnlyLastMayFail fn (history ++ [call]) rest
  end.

(** The entry point of a call and whether it asks for data: two calls that
    agree on both are a repetition. *)
Definition CallSite (call : VkCall) : nat * bool :=
  (match call with
   | EnumerateInstanceLayerProperties _ _ => 0
   | EnumerateInstanceExtensionProperties _ _ => 1
   | GetPhysicalDeviceProperties _ => 2
   | GetPhysicalDeviceFeatures _ => 3
   | GetPhysicalDeviceMemoryProperties _ => 4
   | GetPhysicalDeviceQueueFamilyProperties _ _ _ => 5
   | EnumerateDeviceLayerProperties _ _ _ => 6
   | EnumerateDeviceExtensionProperties _ _ _ => 7
   end%nat, WithData call).

(** What C9 asks of a gathering function that returned [ok] after making
    [calls]: it returned [true] exactly when every call it made succeeded;
    no call follows a failed one; no entry point is asked the same question
    twice; and a [true] comes only after all four enumeration calls. *)
Definition PropagatesFailure (fn : Driver) (history : list VkCall)
    (ok : bool) (calls : list VkCall) : Prop :=
  ok = AllSucceeded fn history calls
  /\ OnlyLastMayFail fn history calls = true
  /\ NoDup (map CallSite calls)
  /\ (if ok then List.length (filter IsEnumeration calls) = 4%nat
      else (1 <= List.length (filter IsEnumeration calls) <= 4)%nat).

Lemma VkResult_neqb_eqb (x y : VkResult) : VkResult_neqb x y = negb (x =? y).
Proof. reflexivity. Qed.

Ltac settle_gather :=
  unfold PropagatesFailure; cbn [fst snd app] in *;
  cbn [AllSucceeded OnlyLastMayFail ResultOf map CallSite WithData filter
       IsEnumeration List.length];
  unfold Succeeded, CallSite; cbn [WithData];
  try rewrite <- !app_assoc; cbn [app];
  change (VK_SUCCESS =? VK_SUCCESS) with true;
  repeat match goal with
         | H : (_ =? _) = _ |- _ => rewrite H
         end;
  cbn [negb andb orb];
  repeat split;
  try reflexivity; try lia;
  try (repeat constructor; cbn; intuition congruence).

Ltac split_on_results :=
  repeat match goal with
         | |- context [if negb (?a =? ?b) && _ then _ else _] =>
             destruct (a =? b) eqn:?; cbn [negb andb]
         | |- context [if negb (?a =? ?b) then _ else _] =>
             destruct (a =? b) eqn:?; cbn [negb andb]
         end.

(** C9.  [GatherGlobalInfo] and [GatherDeviceInfo] pass every enumeration
    failure on: each returns [true] exactly when every enumeration call it
    made returned [VK_SUCCESS] (or [VK_INCOMPLETE], for a count-only query),
    which then are all four of them; when a call fails it is the last call
    made, so the function returns [false] at once; and no entry point is
    called a second time with the same question, so nothing is retried. *)
Theorem gather_info_propagates_failure (fn : Driver) (history : list VkCall) :
  (forall info : VulkanGlobalInfo,
     PropagatesFailure fn history
       (fst (fst (GatherGlobalInfo _ _ _ _ _ fn history info)))
       (snd (GatherGlobalInfo _ _ _ _ _ fn history info)))
  /\ (forall (physicalDevice : Z)
        (info : VulkanDeviceInfo VkPhysicalDeviceProperties
                  VkPhysicalDeviceFeatures VkMemoryType VkMemoryHeap
                  VkQueueFamilyProperties),
        PropagatesFailure fn history
          (fst (fst (GatherDeviceInfo _ _ _ _ _ defaultQueueFamily fn history
                       physicalDevice info)))
          (snd (GatherDeviceInfo _ _ _ _ _ defaultQueueFamily fn history
                  physicalDevice info))).
Proof.
  split.
  - intros info. unfold GatherGlobalInfo, VkResult_neqb. cbv zeta.
    split_on_results. all: settle_gather.
  - intros physicalDevice info. unfold GatherDeviceInfo, VkResult_neqb. cbv zeta.
    split_on_results. all: settle_gather.
Qed.

End VulkanInfo.

(** A driver that runs out of host memory when asked for the instance
    layers themselves: [GatherGlobalInfo] stops after that second call. *)
Definition exampleFailingDriver : vulkan.VulkanFunctions unit unit unit unit unit :=
  {| vulkan.fnEnumerateInstanceLayerProperties :=
       fun _ _ withData =>
         {| vulkan.result := if withData then -1 else vulkan.VK_INCOMPLETE;
            vulkan.countOut := 2;
            vulkan.written := [] |};
     vulkan.fnEnumerateInstanceExtensionProperties :=
       fun _ _ _ =>
         {| vulkan.result := vulkan.VK_SUCCESS; vulkan.countOut := 0;
            vulkan.written := [] |};
     vulkan.fnGetPhysicalDeviceProperties := fun _ _ => tt;
     vulkan.fnGetPhysicalDeviceFeatures := fun _ _ => tt;
     vulkan.fnGetPhysicalDeviceMemoryProperties := fun _ _ => ([], []);
     vulkan.fnGetPhysicalDeviceQueueFamilyProperties :=
       fun _ _ _ _ =>
         {| vulkan.result := vulkan.VK_SUCCESS; vulkan.countOut := 0;
            vulkan.written := [] |};
     vulkan.fnEnumerateDeviceLayerProperties :=
       fun _ _ _ _ =>
         {| vulkan.result := vulkan.VK_SUCCESS; vulkan.countOut := 0;
            vulkan.written := [] |};
     vulkan.fnEnumerateDeviceExtensionProperties :=
       fun _ _ _ _ =>
         {| vulkan.result := vulkan.VK_SUCCESS; vulkan.countOut := 0;
            vulkan.written := [] |} |}.

Example GatherGlobalInfo_stops_at_failure :
  let info := {| vulkan.g_layers := []; vulkan.g_extensions := [];
                 vulkan.standardValidation := false;
                 vulkan.debugReport := false; vulkan.surface := false |} in
  let r := vulkan.GatherGlobalInfo unit unit unit unit unit exampleFailingDriver
             [] info in
  fst (fst r) = false
  /\ snd r = [vulkan.EnumerateInstanceLayerProperties 0 false;
              vulkan.EnumerateInstanceLayerProperties 2 true].
Proof. split; reflexivity. Qed.

(** ** OpenGL: the execution monad *)

Section Monad.
Import opengl.

Lemma bind_calls {A B : Type} (m : M A) (k : A -> M B) :
  fst (bind m k) =
    fst m ++ match snd m with Some a => fst (k a) | None => [] end.
Proof.
  destruct m as [calls [a |]]; cbn.
  - destruct (k a); reflexivity.
  - rewrite app_nil_r. reflexivity.
Qed.

Lemma bind_outcome {A B : Type} (m : M A) (k : A -> M B) :
  snd (bind m k) = match snd m with Some a => snd (k a) | None => None end.
Proof. destruct m as [calls [a |]]; cbn; [destruct (k a) |]; reflexivity. Qed.

Lemma bind_ret_l {A B : Type} (a : A) (k : A -> M B) : bind (ret a) k = k a.
Proof. unfold bind, ret. destruct (k a). reflexivity. Qed.

Lemma bind_emit (call : Call) {B : Type} (k : unit -> M B) :
  bind (emit call) k = (call :: fst (k tt), snd (k tt)).
Proof. unfold bind, emit. destruct (k tt). reflexivity. Qed.

Lemma bind_fault {A B : Type} (k : A -> M B) : bind fault k = fault.
Proof. reflexivity. Qed.

Lemma bind_Some {A B : Type} (m : M A) (k : A -> M B) (b : B) :
  snd (bind m k) = Some b ->
  exists a, snd m = Some a /\ snd (k a) = Some b.
Proof.
  rewrite bind_outcome. destruct (snd m) as [a |]; [| discriminate].
  intros H. exists a. split; [reflexivity | exact H].
Qed.

Lemma for_each_app {A S : Type} (l1 l2 : list A) (body : A -> S -> M S) (s : S) :
  for_each (l1 ++ l2) body s = bind (for_each l1 body s) (for_each l2 body).
Proof.
  revert s. induction l1 as [| x l1 IH]; intros s; cbn [app for_each].
  - unfold bind, ret. destruct (for_each l2 body s). reflexivity.
  - destruct (body x s) as [calls [s' |]]; cbn; [| reflexivity].
    rewrite IH. destruct (for_each l1 body s') as [calls1 [s1 |]]; cbn.
    + destruct (for_each l2 body s1). rewrite app_assoc. reflexivity.
    + reflexivity.
Qed.

(** A loop whose body only records calls, without fault or state. *)
Lemma for_each_emits {A : Type} (range : list A) (body : A -> list Call) :
  for_each range (fun x (_ : unit) => (body x, Some tt)) tt
  = (flat_map body range, Some tt).
Proof.
  induction range as [| x rest IH]; cbn [for_each flat_map]; [reflexivity |].
  unfold bind. rewrite IH. reflexivity.
Qed.

Lemma for_each_ext {A S : Type} (range : list A) (body body' : A -> S -> M S) (s : S) :
  (forall x s, In x range -> body x s = body' x s) ->
  for_each range body s = for_each range body' s.
Proof.
  revert s. induction range as [| x rest IH]; intros s H; cbn [for_each];
    [reflexivity |].
  rewrite (H x s) by (left; reflexivity).
  unfold bind. destruct (body' x s) as [calls [s' |]]; [| reflexivity].
  rewrite IH; [reflexivity |]. intros y t Hy. apply H. right. exact Hy.
Qed.

(** A loop that completes has completed every iteration. *)
Lemma for_each_Some_In {A S : Type} (range : list A) (body : A -> S -> M S)
    (s s' : S) :
  snd (for_each range body s) = Some s' ->
  forall x : A, In x range ->
    exists s0 s1 : S, snd (body x s0) = Some s1.
Proof.
  revert s. induction range as [| y rest IH]; intros s Hrun x Hx;
    [contradiction Hx |].
  cbn [for_each] in Hrun. apply bind_Some in Hrun as (s1 & Hy & Hrest).
  destruct Hx as [-> | Hx].
  - exists s, s1. exact Hy.
  - exact (IH s1 Hrest x Hx).
Qed.

(** What every completed iteration preserves holds when the loop completes. *)
Lemma for_each_invariant {A S : Type} (P : S -> Prop) (range : list A)
    (body : A -> S -> M S) (s s' : S) :
  (forall (x : A) (s0 s1 : S), P s0 -> snd (body x s0) = Some s1 -> P s1) ->
  P s -> snd (for_each range body s) = Some s' -> P s'.
Proof.
  intros Hbody. revert s. induction range as [| y rest IH]; intros s Hs Hrun.
  - cbn in Hrun. injection Hrun as <-. exact Hs.
  - cbn [for_each] in Hrun. apply bind_Some in Hrun as (s1 & Hy & Hrest).
    exact (IH s1 (Hbody y s s1 Hs Hy) Hrest).
Qed.

End Monad.

(** ** OpenGL: bit sets *)

Section BitSets.
Import opengl.

(** The positions [0 .. N-1]. *)
Definition positions (N : nat) : list Z := map Z.of_nat (seq 0 N).

Lemma IterateBitSet_from_filter (remaining start : nat) (bits : bitset) :
  IterateBitSet_from remaining (Z.of_nat start) bits
  = filter (Z.testbit bits) (map Z.of_nat (seq start remaining)).
Proof.
  revert start. induction remaining as [| n IH]; intros start;
    cbn [IterateBitSet_from seq map filter]; [reflexivity |].
  replace (Z.of_nat start + 1) with (Z.of_nat (S start)) by lia.
  rewrite IH. reflexivity.
Qed.

(** Iterating a bit set visits the positions below its size whose bit is
    set, lowest first. *)
Lemma IterateBitSet_filter (N : nat) (bits : bitset) :
  IterateBitSet N bits = filter (Z.testbit bits) (positions N).
Proof. apply (IterateBitSet_from_filter N 0). Qed.

Lemma positions_NoDup (N : nat) : NoDup (positions N).
Proof.
  unfold positions. apply Injective_map_NoDup.
  - intros x y. apply Nat2Z.inj.
  - apply seq_NoDup.
Qed.

Lemma In_positions (N : nat) (i : Z) : In i (positions N) <-> 0 <= i < Z.of_nat N.
Proof.
  unfold positions. rewrite in_map_iff. split.
  - intros (n & <- & Hn). apply in_seq in Hn. lia.
  - intros H. exists (Z.to_nat i). split; [lia |]. apply in_seq. lia.
Qed.

Lemma IterateBitSet_In (N : nat) (bits : bitset) (i : Z) :
  In i (IterateBitSet N bits) <-> 0 <= i < Z.of_nat N /\ Z.testbit bits i = true.
Proof. rewrite IterateBitSet_filter, filter_In, In_positions. reflexivity. Qed.

Lemma IterateBitSet_NoDup (N : nat) (bits : bitset) : NoDup (IterateBitSet N bits).
Proof. rewrite IterateBitSet_filter. apply NoDup_filter, positions_NoDup. Qed.

(** The mask [((1ull << count) - 1ull) << offset] is the run of [count]
    ones that starts at bit [offset], as long as it fits in 63 bits. *)
Lemma range_mask_ull_ones (count offset : Z) :
  0 <= count -> 0 <= offset -> offset + count <= 63 ->
  range_mask_ull count offset = Z.shiftl (Z.ones count) offset.
Proof.
  intros Hc Ho Hb. unfold range_mask_ull.
  rewrite Z.shiftl_1_l.
  assert (H1 : 0 < 2 ^ count) by (apply Z.pow_pos_nonneg; lia).
  assert (H2 : 2 ^ count <= 2 ^ 63) by (apply Z.pow_le_mono_r; lia).
  assert (H3 : 2 ^ 63 < 2 ^ 64) by (apply Z.pow_lt_mono_r; lia).
  rewrite (Z.mod_small (2 ^ count)) by lia.
  rewrite (Z.mod_small (2 ^ count - 1)) by lia.
  rewrite Z.ones_equiv, <- Z.sub_1_r.
  apply Z.mod_small.
  rewrite Z.shiftl_mul_pow2 by lia.
  assert (H4 : 0 < 2 ^ offset) by (apply Z.pow_pos_nonneg; lia).
  assert (H5 : 2 ^ count * 2 ^ offset <= 2 ^ 63).
  { rewrite <- Z.pow_add_r by lia. apply Z.pow_le_mono_r; lia. }
  nia.
Qed.

Lemma range_mask_ull_empty (offset : Z) : range_mask_ull 0 offset = 0.
Proof.
  unfold range_mask_ull. cbn [Z.shiftl Z.sub Z.add Z.opp Z.pos_sub].
  rewrite Z.mod_1_l by reflexivity. cbn [Z.sub Z.add Z.opp Z.pos_sub].
  rewrite Z.mod_0_l, Z.shiftl_0_l by discriminate. reflexivity.
Qed.

(** Or-ing that mask into a bit set of [N] bits sets exactly the bits of
    the range [offset, offset + count). *)
Lemma range_mask_bits (N : nat) (count offset c : Z) :
  0 <= count -> 0 <= offset -> offset + count <= Z.of_nat N -> (N <= 63)%nat ->
  Z.testbit (bitset_of_ull N (range_mask_ull count offset)) c
  = (offset <=? c) && (c <? offset + count).
Proof.
  intros Hc Ho Hb HN. unfold bitset_of_ull.
  rewrite range_mask_ull_ones by lia.
  destruct (Z.ltb_spec c 0) as [Hneg | Hpos].
  - rewrite Z.testbit_neg_r by lia.
    destruct (Z.leb_spec offset c); [lia | reflexivity].
  - destruct (Z.ltb_spec c (Z.of_nat N)) as [Hlow | Hhigh].
    + rewrite Z.mod_pow2_bits_low by lia.
      rewrite Z.shiftl_spec by lia.
      destruct (Z.leb_spec offset c) as [Hoc | Hoc]; cbn [andb].
      * destruct (Z.ltb_spec c (offset + count)).
        -- apply Z.ones_spec_low. lia.
        -- apply Z.ones_spec_high. lia.
      * apply Z.testbit_neg_r. lia.
    + rewrite Z.mod_pow2_bits_high by lia.
      destruct (Z.ltb_spec c (offset + count)); [lia |].
      symmetry. apply andb_false_r.
Qed.

End BitSets.

(** ** OpenGL: the push-constant tracker *)

Section PushConstants.
Import opengl.
Context {constants : Constants}.

(** The call that writes push constant [constant] of [stage]: the uniform
    at the location the GL pipeline gives it, with the tracked value. *)
Definition UniformCall (pipeline glPipeline : Pipeline) (this : PushConstantTracker)
    (stage : ShaderStage) (constant : Z) : Call :=
  let location := GetGLPushConstants glPipeline stage constant in
  match types (GetPushConstants pipeline stage) constant with
  | Int => glUniform1i location (mValues this stage constant)
  | UInt => glUniform1ui location (mValues this stage constant)
  | Float => glUniform1f location (mValues this stage constant)
  end.

(** The slots of [stage] that are dirty and consumed by [pipeline], lowest
    first. *)
Definition DirtyAndConsumed (this : PushConstantTracker) (pipeline : Pipeline)
    (stage : ShaderStage) : list Z :=
  filter (fun constant =>
            Z.testbit (mDirtyBits this stage) constant
            && Z.testbit (mask (GetPushConstants pipeline stage)) constant)
    (positions kMaxPushConstants).

Lemma IterateStages_kAllStages : IterateStages kAllStages = [Vertex; Fragment; Compute].
Proof. reflexivity. Qed.

Lemma ApplyStage_calls (this : PushConstantTracker) (pipeline glPipeline : Pipeline)
    (stage : ShaderStage) :
  PushConstantTracker_ApplyStage this (Some pipeline) (Some glPipeline) stage
  = (map (UniformCall pipeline glPipeline this stage)
       (DirtyAndConsumed this pipeline stage),
     Some {| mValues := mValues this;
             mDirtyBits := PerStage_set (mDirtyBits this) stage 0 |}).
Proof.
  unfold PushConstantTracker_ApplyStage, DirtyAndConsumed.
  cbn [deref]. rewrite !bind_ret_l. cbv zeta.
  rewrite IterateBitSet_filter.
  rewrite (filter_ext _
             (fun constant =>
                Z.testbit (mDirtyBits this stage) constant
                && Z.testbit (mask (GetPushConstants pipeline stage)) constant))
    by (intros c; apply Z.land_spec).
  set (slots := filter _ (positions kMaxPushConstants)).
  assert (Hloop :
            for_each slots
              (fun constant (_ : unit) =>
                 match types (GetPushConstants pipeline stage) constant with
                 | Int =>
                     emit (glUniform1i (GetGLPushConstants glPipeline stage constant)
                             (mValues this stage constant))
                 | UInt =>
                     emit (glUniform1ui (GetGLPushConstants glPipeline stage constant)
                             (mValues this stage constant))
                 | Float =>
                     emit (glUniform1f (GetGLPushConstants glPipeline stage constant)
                             (mValues this stage constant))
                 end) tt
            = (map (UniformCall pipeline glPipeline this stage) slots, Some tt)).
  { induction slots as [| c rest IH]; cbn [for_each map]; [reflexivity |].
    unfold UniformCall at 1. cbv zeta.
    destruct (types _ c); rewrite bind_emit, IH; reflexivity. }
  rewrite Hloop. cbn. rewrite app_nil_r. reflexivity.
Qed.

(** [OnSetPushConstants] stores the data in the slots of the range, for
    the stages of the mask, and marks exactly those slots dirty in addition
    to the ones that were. *)
Lemma OnSetPushConstants_stores_and_marks
    (this set : PushConstantTracker) (stages count offset : Z) (data : list Z) :
  0 <= count -> 0 <= offset ->
  snd (PushConstantTracker_OnSetPushConstants this stages count offset data)
  = Some set ->
  forall (stage : ShaderStage) (constant : Z),
    if Z.testbit stages (ShaderStage_index stage) then
      mValues set stage constant
      = (if (offset <=? constant) && (constant <? offset + count)
         then nth (Z.to_nat (constant - offset)) data 0
         else mValues this stage constant)
      /\ Z.testbit (mDirtyBits set stage) constant
         = Z.testbit (mDirtyBits this stage) constant
           || ((offset <=? constant) && (constant <? offset + count))
    else
      mValues set stage constant = mValues this stage constant
      /\ mDirtyBits set stage = mDirtyBits this stage.
Proof.
  intros Hcount Hoffset Hset stage constant.
  unfold PushConstantTracker_OnSetPushConstants, IterateStages in Hset.
  pose proof static_assert_push_constants as Hmax.
  cbn [filter ShaderStage_index] in Hset.
  destruct ((offset + count <=? Z.of_nat kMaxPushConstants)
            && (count <=? Z.of_nat (List.length data))) eqn:Hdefined.
  - apply andb_true_iff in Hdefined. destruct Hdefined as [Hfits _].
    apply Z.leb_le in Hfits.
    destruct stage; cbn [ShaderStage_index];
      destruct (Z.testbit stages 0), (Z.testbit stages 1), (Z.testbit stages 2);
      cbn in Hset; injection Hset as <-;
      cbn [mValues mDirtyBits];
      (split; [reflexivity |]); try reflexivity;
      unfold PerStage_set, ShaderStage_eqb;
      cbn [ShaderStage_index Z.eqb Pos.eqb];
      rewrite Z.lor_spec, range_mask_bits by lia; reflexivity.
  - destruct stage; cbn [ShaderStage_index];
      destruct (Z.testbit stages 0), (Z.testbit stages 1), (Z.testbit stages 2);
      cbn in Hset; try discriminate Hset; injection Hset as <-;
      split; reflexivity.
Qed.

(** [OnSetPipeline] makes no call, keeps the values and replaces the dirty
    bits of each stage by the mask of the pipeline for that stage. *)
Lemma PushConstantTracker_OnSetPipeline_run (this : PushConstantTracker)
    (pipeline : Pipeline) :
  exists switched : PushConstantTracker,
    PushConstantTracker_OnSetPipeline this (Some pipeline) = ([], Some switched)
    /\ mValues switched = mValues this
    /\ forall stage : ShaderStage,
         mDirtyBits switched stage = mask (GetPushConstants pipeline stage).
Proof.
  unfold PushConstantTracker_OnSetPipeline. rewrite IterateStages_kAllStages.
  cbn. eexists. split; [reflexivity |]. split; [reflexivity |].
  intros stage. destruct stage; reflexivity.
Qed.

(** C3, as amended.  With a pipeline bound, [Apply] writes, stage by stage,
    exactly the slots that are both dirty and in the pipeline's mask for
    that stage, each once and in ascending order, through the uniform call
    of the slot's type, at the slot's location and with the value the
    tracker holds for it.  It leaves the values as they are and clears every
    dirty bit of every stage, those of the slots the pipeline does not
    consume included.  A pipeline switch, on whatever tracker, makes no
    call, keeps the values and leaves dirty, in each stage, exactly the
    slots in the mask of the new pipeline: the dirty bits that were set
    before the switch play no part. *)
Theorem Apply_writes_dirty_consumed_and_clears_all
    (this : PushConstantTracker) (pipeline glPipeline : Pipeline) :
  fst (PushConstantTracker_Apply this (Some pipeline) (Some glPipeline))
  = flat_map
      (fun stage =>
         map (UniformCall pipeline glPipeline this stage)
           (DirtyAndConsumed this pipeline stage))
      [Vertex; Fragment; Compute]
  /\ (forall stage : ShaderStage,
        NoDup (DirtyAndConsumed this pipeline stage)
        /\ forall constant : Z,
             In constant (DirtyAndConsumed this pipeline stage)
             <-> 0 <= constant < Z.of_nat kMaxPushConstants
                 /\ Z.testbit (mDirtyBits this stage) constant = true
                 /\ Z.testbit (mask (GetPushConstants pipeline stage)) constant
                    = true)
  /\ exists this' : PushConstantTracker,
       snd (PushConstantTracker_Apply this (Some pipeline) (Some glPipeline))
       = Some this'
       /\ mValues this' = mValues this
       /\ (forall stage : ShaderStage, mDirtyBits this' stage = 0)
       /\ forall (tracker : PushConstantTracker) (next : Pipeline),
            exists switched : PushConstantTracker,
              PushConstantTracker_OnSetPipeline tracker (Some next)
              = ([], Some switched)
              /\ mValues switched = mValues tracker
              /\ forall stage : ShaderStage,
                   mDirtyBits switched stage = mask (GetPushConstants next stage).
Proof.
  unfold PushConstantTracker_Apply. rewrite IterateStages_kAllStages.
  cbn [for_each]. rewrite !ApplyStage_calls. cbn [bind ret].
  rewrite !ApplyStage_calls. cbn [bind ret mValues mDirtyBits].
  rewrite !ApplyStage_calls. cbn [bind ret mValues mDirtyBits fst snd flat_map].
  split; [| split].
  - unfold DirtyAndConsumed, UniformCall. cbn [mValues mDirtyBits].
    rewrite !app_nil_r. reflexivity.
  - intros stage. split.
    + apply NoDup_filter, positions_NoDup.
    + intros c. unfold DirtyAndConsumed.
      rewrite filter_In, In_positions, andb_true_iff. reflexivity.
  - eexists. split; [reflexivity |]. split; [reflexivity |]. split.
    + intros stage. destruct stage; reflexivity.
    + intros tracker next.
      destruct (PushConstantTracker_OnSetPipeline_run tracker next)
        as (switched & Hswitch & Hvalues & Hdirty).
      exists switched. split; [exact Hswitch |]. split; assumption.
Qed.

End PushConstants.

(** A pipeline whose vertex stage consumes push constant 0 only, as an
    [int] at uniform location 10. *)
Definition examplePipeline : opengl.Pipeline :=
  {| opengl.Pipeline_address := 4096;
     opengl.GetPushConstants :=
       fun stage =>
         {| opengl.mask := match stage with opengl.Vertex => 1 | _ => 0 end;
            opengl.types := fun _ => opengl.Int |};
     opengl.GetLayout_GetBindingIndexInfo := fun _ binding => binding;
     opengl.GetGLPushConstants := fun _ constant => 10 + constant;
     opengl.GetTextureUnitsForSampler := fun _ => [];
     opengl.GetTextureUnitsForTexture := fun _ => [] |}.

(** C3 as stated fails.  The pipeline is bound, then constants 0 and 1 of the
    vertex stage are set to 5 and 6: both are dirty, and the pipeline
    consumes constant 0 only.  [Apply] writes constant 0 and nothing else,
    and afterwards the dirty bit of constant 1 is clear, not pending. *)
Lemma Apply_clears_unconsumed_dirty_bit :
  let fresh : opengl.PushConstantTracker :=
    {| opengl.mValues := fun _ _ => 0; opengl.mDirtyBits := fun _ => 0 |} in
  exists bound set applied : opengl.PushConstantTracker,
    snd (opengl.PushConstantTracker_OnSetPipeline fresh (Some examplePipeline))
    = Some bound
    /\ snd (opengl.PushConstantTracker_OnSetPushConstants
              (constants := opengl.constants_h) bound 1 2 0 [5; 6])
       = Some set
    /\ Z.testbit (opengl.mDirtyBits set opengl.Vertex) 1 = true
    /\ Z.testbit
         (opengl.mask (opengl.GetPushConstants examplePipeline opengl.Vertex)) 1
       = false
    /\ opengl.PushConstantTracker_Apply (constants := opengl.constants_h) set
         (Some examplePipeline) (Some examplePipeline)
       = ([opengl.glUniform1i 10 5], Some applied)
    /\ Z.testbit (opengl.mDirtyBits applied opengl.Vertex) 1 = false.
Proof.
  cbv zeta. do 3 eexists.
  split; [reflexivity |]. split; [reflexivity |].
  split; [reflexivity |]. split; [reflexivity |].
  split; reflexivity.
Qed.

(** ** OpenGL: the vertex-input tracker *)

Section InputBuffers.
Import opengl.
Context {constants : Constants} {helpers : Helpers}.

(** The slots that are dirty in the tracker and live in the layout, lowest
    first. *)
Definition DirtyAndLive (this : InputBufferTracker) (inputState : InputState)
  : list Z :=
  filter (fun slot =>
            Z.testbit (mDirtyVertexBuffers this) slot
            && Z.testbit (GetInputsSetMask inputState) slot)
    (positions kMaxVertexInputs).

(** The attribute locations fed from [slot], lowest first. *)
Definition AttributesUsing (inputState : InputState) (slot : Z) : list Z :=
  filter (Z.testbit (GetAttributesUsingInput inputState slot))
    (positions kMaxVertexAttributes).

(** The vertex formats [VertexFormatType] knows, all of type [GL_FLOAT]. *)
Definition IsFloatFormat (format : VertexFormat) : bool :=
  match format with
  | VertexFormat_other _ => false
  | _ => true
  end.

(** The two calls that point attribute [location], fed from [slot], at
    [buffer]: the buffer is bound to [GL_ARRAY_BUFFER], then the attribute
    pointer is set with the components of the attribute's format, the
    stride of the slot and the offset of the slot plus that of the
    attribute. *)
Definition AttributePointer (inputState : InputState) (slot location : Z)
    (buffer : Buffer) (offset : Z) : list Call :=
  let attribute := GetAttribute inputState location in
  [glBindBuffer GL_ARRAY_BUFFER (Buffer_GetHandle buffer);
   glVertexAttribPointer location
     (VertexFormatNumComponents (attribute_format attribute)) GL_FLOAT GL_FALSE
     (input_stride (GetInput inputState slot))
     ((offset + attribute_offset attribute) mod 2 ^ 32)].

(** The calls that bind attribute [location] to the buffer the tracker holds
    for [slot]; none when the slot holds no buffer or the format of the
    attribute has no GL type. *)
Definition AttributeCalls (this : InputBufferTracker) (inputState : InputState)
    (slot location : Z) : list Call :=
  match mVertexBuffers this slot with
  | Some buffer =>
      if IsFloatFormat (attribute_format (GetAttribute inputState location))
      then AttributePointer inputState slot location buffer
             (mVertexBufferOffsets this slot)
      else []
  | None => []
  end.

(** The calls that bind [slot]: those of each attribute fed from it, lowest
    location first. *)
Definition SlotCalls (this : InputBufferTracker) (inputState : InputState)
    (slot : Z) : list Call :=
  flat_map (AttributeCalls this inputState slot) (AttributesUsing inputState slot).

(** The call that binds the index buffer, when it is dirty and set. *)
Definition BindIndexBuffer (this : InputBufferTracker) : list Call :=
  match mIndexBufferDirty this, mIndexBuffer this with
  | true, Some indexBuffer =>
      [glBindBuffer GL_ELEMENT_ARRAY_BUFFER (Buffer_GetHandle indexBuffer)]
  | _, _ => []
  end.

(** The calls of a loop without state are those of its iterations, up to
    the first fault. *)
Lemma for_each_unit_calls {A : Type} (range : list A) (body : A -> unit -> M unit)
    (full : A -> list Call) :
  (forall x : A,
     exists rest : list Call,
       full x = fst (body x tt) ++ rest
       /\ (snd (body x tt) <> None -> rest = [])) ->
  exists rest : list Call,
    flat_map full range = fst (for_each range body tt) ++ rest
    /\ (snd (for_each range body tt) <> None -> rest = []).
Proof.
  intros Hbody. induction range as [| x range IH]; cbn [for_each flat_map].
  - exists []. split; [reflexivity | reflexivity].
  - destruct IH as (rest & Hcalls & Hrest).
    destruct (Hbody x) as (r & Hx & Hr).
    rewrite bind_calls, bind_outcome, Hx.
    destruct (body x tt) as [calls [[] |]]; cbn [fst snd] in *.
    + rewrite Hr by discriminate.
      exists rest. split; [| exact Hrest].
      rewrite Hcalls, app_nil_r, app_assoc. reflexivity.
    + exists (r ++ flat_map full range).
      split; [rewrite app_nil_r, app_assoc; reflexivity |].
      intros H; contradiction H; reflexivity.
Qed.

Lemma BindAttribute_arrays (this this' : InputBufferTracker) (inputState : InputState)
    (slot location : Z) :
  mVertexBuffers this' = mVertexBuffers this ->
  mVertexBufferOffsets this' = mVertexBufferOffsets this ->
  BindAttribute this' inputState slot location
  = BindAttribute this inputState slot location.
Proof. intros Hb Ho. unfold BindAttribute. rewrite Hb, Ho. reflexivity. Qed.

(** [OnSetVertexBuffers], when it completes, has stayed inside the arrays
    and marks the slots of [startSlot, startSlot + count) dirty in addition
    to the ones that were; the index buffer and the cached layout are as
    before. *)
Lemma OnSetVertexBuffers_marks_range
    (this set : InputBufferTracker) (startSlot count : Z)
    (buffers : list Buffer) (offsets : list Z) :
  0 <= count -> 0 <= startSlot < 2 ^ 32 ->
  snd (InputBufferTracker_OnSetVertexBuffers this startSlot count buffers offsets)
  = Some set ->
  (0 < count -> startSlot + count <= Z.of_nat kMaxVertexInputs)
  /\ (forall slot : Z,
        Z.testbit (mDirtyVertexBuffers set) slot
        = Z.testbit (mDirtyVertexBuffers this) slot
          || ((startSlot <=? slot) && (slot <? startSlot + count)))
  /\ mIndexBufferDirty set = mIndexBufferDirty this
  /\ mIndexBuffer set = mIndexBuffer this
  /\ mLastInputState set = mLastInputState this.
Proof.
  intros Hcount Hstart Hset.
  unfold InputBufferTracker_OnSetVertexBuffers in Hset.
  apply bind_Some in Hset as (mid & Hloop & Hret).
  cbn [ret snd] in Hret. injection Hret as <-.
  cbn [mDirtyVertexBuffers mIndexBufferDirty mIndexBuffer mLastInputState].
  pose proof static_assert_vertex_inputs as Hmax.
  assert (Hkept :
            mDirtyVertexBuffers mid = mDirtyVertexBuffers this
            /\ mIndexBufferDirty mid = mIndexBufferDirty this
            /\ mIndexBuffer mid = mIndexBuffer this
            /\ mLastInputState mid = mLastInputState this).
  { refine (for_each_invariant
              (fun s =>
                 mDirtyVertexBuffers s = mDirtyVertexBuffers this
                 /\ mIndexBufferDirty s = mIndexBufferDirty this
                 /\ mIndexBuffer s = mIndexBuffer this
                 /\ mLastInputState s = mLastInputState this)
              _ _ this mid _ _ Hloop); [| repeat split].
    intros i s0 s1 Hs0 Hbody.
    apply bind_Some in Hbody as ([] & _ & Hbody).
    apply bind_Some in Hbody as (buffer & _ & Hbody).
    apply bind_Some in Hbody as (offset & _ & Hbody).
    cbn [ret snd] in Hbody. injection Hbody as <-. exact Hs0. }
  destruct Hkept as (Hdirty & Hindexdirty & Hindex & Hlast).
  assert (Hslots :
            forall i : Z, 0 <= i < count ->
              (startSlot + i) mod 2 ^ 32 < Z.of_nat kMaxVertexInputs).
  { intros i Hi.
    destruct (for_each_Some_In _ _ _ _ Hloop i) as (s0 & s1 & Hbody).
    - apply in_map_iff. exists (Z.to_nat i). split; [lia |].
      apply in_seq. lia.
    - apply bind_Some in Hbody as ([] & Hdefined & _).
      unfold defined_when in Hdefined.
      destruct (Z.ltb_spec ((startSlot + i) mod 2 ^ 32)
                  (Z.of_nat kMaxVertexInputs)) as [Hlt | Hge];
        [exact Hlt | discriminate Hdefined]. }
  assert (Hinside : 0 < count -> startSlot + count <= Z.of_nat kMaxVertexInputs).
  { intros Hpos. change (2 ^ 32) with 4294967296 in *.
    destruct (Z.lt_ge_cases (startSlot + count - 1) 4294967296) as [Hsmall | Hwrap].
    - specialize (Hslots (count - 1)).
      rewrite Z.mod_small in Hslots by lia. lia.
    - specialize (Hslots (4294967296 - 1 - startSlot)).
      rewrite Z.mod_small in Hslots by lia. lia. }
  repeat split; try assumption.
  intros slot. rewrite Z.lor_spec, Hdirty. f_equal.
  destruct (Z.eq_dec count 0) as [-> | Hne].
  - rewrite range_mask_ull_empty. unfold bitset_of_ull.
    rewrite Z.mod_0_l by (apply Z.pow_nonzero; lia).
    rewrite Z.testbit_0_l.
    destruct (Z.leb_spec startSlot slot), (Z.ltb_spec slot (startSlot + 0));
      try reflexivity; lia.
  - apply range_mask_bits; lia.
Qed.

Lemma BindAttribute_run (this : InputBufferTracker) (inputState : InputState)
    (slot location : Z) :
  BindAttribute this inputState slot location
  = (AttributeCalls this inputState slot location,
     match mVertexBuffers this slot with
     | Some _ =>
         if IsFloatFormat (attribute_format (GetAttribute inputState location))
         then Some tt else None
     | None => None
     end).
Proof.
  unfold BindAttribute, AttributeCalls, AttributePointer, VertexFormatType.
  cbv zeta.
  destruct (mVertexBuffers this slot) as [buffer |]; [| reflexivity].
  cbn [deref]. rewrite bind_ret_l.
  destruct (attribute_format (GetAttribute inputState location)); reflexivity.
Qed.

(** A completed loop without state has completed each of its turns. *)
Lemma for_each_unit_completed {A : Type} (range : list A) (body : A -> unit -> M unit) :
  snd (for_each range body tt) = Some tt ->
  forall x : A, In x range -> snd (body x tt) = Some tt.
Proof.
  intros Hrun x Hx.
  destruct (for_each_Some_In _ _ _ _ Hrun x Hx) as ([] & [] & H). exact H.
Qed.

Lemma InputBufferTracker_Apply_bindings (bound : InputBufferTracker)
    (layout : InputState) :
  mLastInputState bound = Some layout ->
  exists rest : list Call,
    BindIndexBuffer bound
    ++ flat_map (SlotCalls bound layout) (DirtyAndLive bound layout)
    = fst (InputBufferTracker_Apply bound) ++ rest
    /\ forall applied : InputBufferTracker,
         snd (InputBufferTracker_Apply bound) = Some applied ->
         rest = []
         /\ (forall slot location : Z,
               In slot (DirtyAndLive bound layout) ->
               In location (AttributesUsing layout slot) ->
               exists buffer : Buffer,
                 mVertexBuffers bound slot = Some buffer
                 /\ AttributeCalls bound layout slot location
                    = AttributePointer layout slot location buffer
                        (mVertexBufferOffsets bound slot))
         /\ mDirtyVertexBuffers applied = 0
         /\ (mIndexBufferDirty applied = false \/ mIndexBuffer applied = None)
         /\ mLastInputState applied = Some layout
         /\ mIndexBuffer applied = mIndexBuffer bound
         /\ mVertexBuffers applied = mVertexBuffers bound
         /\ mVertexBufferOffsets applied = mVertexBufferOffsets bound.
Proof.
  intros Hlast. unfold InputBufferTracker_Apply.
  set (indexed :=
         match mIndexBufferDirty bound, mIndexBuffer bound with
         | true, Some indexBuffer => _
         | _, _ => ret bound
         end).
  assert (Hindexed :
            exists bound',
              indexed = (BindIndexBuffer bound, Some bound')
              /\ mLastInputState bound' = Some layout
              /\ mDirtyVertexBuffers bound' = mDirtyVertexBuffers bound
              /\ mVertexBuffers bound' = mVertexBuffers bound
              /\ mVertexBufferOffsets bound' = mVertexBufferOffsets bound
              /\ mIndexBuffer bound' = mIndexBuffer bound
              /\ (mIndexBufferDirty bound' = false \/ mIndexBuffer bound' = None)).
  { subst indexed. unfold BindIndexBuffer.
    destruct (mIndexBufferDirty bound) eqn:Hd, (mIndexBuffer bound) eqn:Hi;
      eexists; (split; [reflexivity |]); cbn;
      repeat split; try exact Hlast; try assumption; auto. }
  destruct Hindexed as (bound' & -> & Hl' & Hd' & Hb' & Ho' & Hi' & Hclean).
  rewrite bind_calls, bind_outcome. cbn [fst snd].
  rewrite Hl'. cbn [deref]. rewrite bind_ret_l.
  rewrite Hd', IterateBitSet_filter.
  rewrite (filter_ext _
             (fun slot =>
                Z.testbit (mDirtyVertexBuffers bound) slot
                && Z.testbit (GetInputsSetMask layout) slot))
    by (intros c; apply Z.land_spec).
  fold (DirtyAndLive bound layout).
  rewrite (for_each_ext _ _
             (fun slot (_ : unit) =>
                for_each (AttributesUsing layout slot)
                  (fun location (_ : unit) =>
                     BindAttribute bound layout slot location) tt)).
  2:{ intros slot [] _. unfold AttributesUsing. rewrite IterateBitSet_filter.
      apply for_each_ext. intros location [] _.
      apply BindAttribute_arrays; assumption. }
  destruct (for_each_unit_calls (DirtyAndLive bound layout)
              (fun slot (_ : unit) =>
                 for_each (AttributesUsing layout slot)
                   (fun location (_ : unit) =>
                      BindAttribute bound layout slot location) tt)
              (SlotCalls bound layout))
    as (rest & Hcalls & Hrest).
  { intros slot. unfold SlotCalls.
    apply for_each_unit_calls. intros location. exists [].
    rewrite app_nil_r, BindAttribute_run. split; reflexivity. }
  exists rest. rewrite Hcalls, bind_calls, bind_outcome.
  destruct (for_each (DirtyAndLive bound layout) _ tt) as [calls [[] |]] eqn:Hloop;
    cbn [fst snd ret] in *.
  - rewrite Hrest by discriminate. rewrite !app_nil_r. split; [reflexivity |].
    intros applied Happlied. injection Happlied as <-.
    cbn [mDirtyVertexBuffers mIndexBufferDirty mIndexBuffer mLastInputState
         mVertexBuffers mVertexBufferOffsets].
    split; [reflexivity |]. split; [| repeat split; assumption].
    intros slot location Hslot Hlocation.
    assert (Hdone : snd (for_each (DirtyAndLive bound layout)
                           (fun slot (_ : unit) =>
                              for_each (AttributesUsing layout slot)
                                (fun location (_ : unit) =>
                                   BindAttribute bound layout slot location) tt)
                           tt) = Some tt)
      by (rewrite Hloop; reflexivity).
    pose proof (for_each_unit_completed _ _ Hdone slot Hslot) as Hinner.
    cbv beta in Hinner.
    pose proof (for_each_unit_completed _ _ Hinner location Hlocation) as Hturn.
    cbv beta in Hturn. rewrite BindAttribute_run in Hturn. cbn [snd] in Hturn.
    unfold AttributeCalls.
    destruct (mVertexBuffers bound slot) as [buffer |]; [| discriminate Hturn].
    exists buffer. split; [reflexivity |].
    destruct (IsFloatFormat _); [reflexivity | discriminate Hturn].
  - rewrite app_nil_r, app_assoc. split; [reflexivity |]. discriminate.
Qed.

(** C4, as amended.  A pipeline switch to the cached layout changes nothing;
    a switch to another layout marks the index buffer dirty and adds the
    slots the new layout declares live to the dirty slots, clearing none.
    A following [Apply] binds the index buffer when it is dirty and set,
    then exactly the slots that are both dirty and live in the bound layout,
    each once and lowest first, up to a fault if one occurs.  When it
    completes, every attribute fed from such a slot, lowest location first,
    has been given its two calls, [glBindBuffer] of the buffer the tracker
    holds for the slot to [GL_ARRAY_BUFFER] and [glVertexAttribPointer] at
    the location, and no vertex slot is left dirty.  So a slot that was
    clean before a switch to another layout is bound again when that layout
    declares it live. *)
Theorem switch_marks_live_slots_and_Apply_binds_dirty_live
    (this : InputBufferTracker) (pipeline : RenderPipeline) :
  let inputState := GetInputState pipeline in
  let switched := InputBufferTracker_OnSetPipeline this pipeline in
  (if same_InputState (mLastInputState this) inputState
   then switched = this
   else
     mIndexBufferDirty switched = true
     /\ mLastInputState switched = Some inputState
     /\ mDirtyVertexBuffers switched
        = Z.lor (mDirtyVertexBuffers this) (GetInputsSetMask inputState)
     /\ (forall slot : Z,
           Z.testbit (mDirtyVertexBuffers switched) slot
           = Z.testbit (mDirtyVertexBuffers this) slot
             || Z.testbit (GetInputsSetMask inputState) slot)
     /\ mIndexBuffer switched = mIndexBuffer this
     /\ mVertexBuffers switched = mVertexBuffers this
     /\ mVertexBufferOffsets switched = mVertexBufferOffsets this)
  /\ (forall (bound : InputBufferTracker) (layout : InputState),
        mLastInputState bound = Some layout ->
        (forall slot : Z,
           In slot (DirtyAndLive bound layout)
           <-> 0 <= slot < Z.of_nat kMaxVertexInputs
               /\ Z.testbit (mDirtyVertexBuffers bound) slot = true
               /\ Z.testbit (GetInputsSetMask layout) slot = true)
        /\ NoDup (DirtyAndLive bound layout)
        /\ exists rest : list Call,
             BindIndexBuffer bound
             ++ flat_map (SlotCalls bound layout) (DirtyAndLive bound layout)
             = fst (InputBufferTracker_Apply bound) ++ rest
             /\ forall applied : InputBufferTracker,
                  snd (InputBufferTracker_Apply bound) = Some applied ->
                  rest = []
                  /\ mDirtyVertexBuffers applied = 0
                  /\ forall slot location : Z,
                       In slot (DirtyAndLive bound layout) ->
                       In location (AttributesUsing layout slot) ->
                       exists buffer : Buffer,
                         mVertexBuffers bound slot = Some buffer
                         /\ AttributeCalls bound layout slot location
                            = [glBindBuffer GL_ARRAY_BUFFER (Buffer_GetHandle buffer);
                               glVertexAttribPointer location
                                 (VertexFormatNumComponents
                                    (attribute_format (GetAttribute layout location)))
                                 GL_FLOAT GL_FALSE
                                 (input_stride (GetInput layout slot))
                                 ((mVertexBufferOffsets bound slot
                                   + attribute_offset (GetAttribute layout location))
                                  mod 2 ^ 32)]).
Proof.
  cbv zeta. split.
  - unfold InputBufferTracker_OnSetPipeline.
    destruct (same_InputState _ _); [reflexivity |].
    cbn. repeat split. intros slot. apply Z.lor_spec.
  - intros bound layout Hlast. split; [| split].
    + intros slot. unfold DirtyAndLive.
      rewrite filter_In, In_positions, andb_true_iff. reflexivity.
    + apply NoDup_filter, positions_NoDup.
    + destruct (InputBufferTracker_Apply_bindings bound layout Hlast)
        as (rest & Hcalls & Hrest).
      exists rest. split; [exact Hcalls |].
      intros applied Happlied.
      destruct (Hrest applied Happlied) as (-> & Hbuffers & Hdirty & _).
      split; [reflexivity |]. split; [exact Hdirty |]. exact Hbuffers.
Qed.

End InputBuffers.

(** *** The scenario of the claim, run on the tracker *)

Definition exampleHelpers : opengl.Helpers :=
  {| opengl.VertexFormatNumComponents :=
       fun format =>
         match format with
         | opengl.FloatR32G32B32A32 => 4
         | opengl.FloatR32G32B32 => 3
         | opengl.FloatR32G32 => 2
         | opengl.FloatR32 => 1
         | opengl.VertexFormat_other _ => 0
         end;
     opengl.IndexFormatSize :=
       fun format =>
         match format with
         | opengl.Uint16 => 2
         | opengl.Uint32 => 4
         | opengl.IndexFormat_other _ => 0
         end;
     opengl.TextureFormatPixelSize := fun _ => 4;
     opengl.TextureFormatHasDepth :=
       fun format =>
         match format with opengl.D32FloatS8Uint => true | _ => false end;
     opengl.TextureFormatHasStencil :=
       fun format =>
         match format with opengl.D32FloatS8Uint => true | _ => false end |}.

(** A layout with slot 0 live, feeding attribute 0. *)
Definition layoutA : opengl.InputState :=
  {| opengl.InputState_address := 100;
     opengl.GetInputsSetMask := 1;
     opengl.GetAttributesUsingInput := fun slot => if slot =? 0 then 1 else 0;
     opengl.GetAttribute :=
       fun location =>
         {| opengl.attribute_bindingSlot := 0;
            opengl.attribute_format := opengl.FloatR32G32B32A32;
            opengl.attribute_offset := 0 |};
     opengl.GetInput := fun _ => {| opengl.input_stride := 16 |} |}.

(** A layout with slots 0, 2 and 4 live, feeding attributes 0, 1 and 2. *)
Definition layoutB : opengl.InputState :=
  {| opengl.InputState_address := 200;
     opengl.GetInputsSetMask := 21;
     opengl.GetAttributesUsingInput :=
       fun slot =>
         if slot =? 0 then 1 else if slot =? 2 then 2 else if slot =? 4 then 4 else 0;
     opengl.GetAttribute :=
       fun location =>
         {| opengl.attribute_bindingSlot := 2 * location;
            opengl.attribute_format := opengl.FloatR32G32B32A32;
            opengl.attribute_offset := 0 |};
     opengl.GetInput := fun _ => {| opengl.input_stride := 16 |} |}.

Definition renderPipelineA : opengl.RenderPipeline :=
  {| opengl.RenderPipeline_base := examplePipeline;
     opengl.GetInputState := layoutA;
     opengl.GetGLPrimitiveTopology := 4;
     opengl.GetIndexFormat := opengl.Uint16 |}.

Definition renderPipelineB : opengl.RenderPipeline :=
  {| opengl.RenderPipeline_base := examplePipeline;
     opengl.GetInputState := layoutB;
     opengl.GetGLPrimitiveTopology := 4;
     opengl.GetIndexFormat := opengl.Uint16 |}.

Definition vertexBuffer (handle : Z) : opengl.Buffer :=
  {| opengl.Buffer_address := 4096 + handle; opengl.Buffer_GetHandle := handle |}.

(** The tracker as [Execute] declares it. *)
Definition freshInputBuffers : opengl.InputBufferTracker :=
  {| opengl.mIndexBufferDirty := false;
     opengl.mIndexBuffer := None;
     opengl.mDirtyVertexBuffers := 0;
     opengl.mVertexBuffers := fun _ => None;
     opengl.mVertexBufferOffsets := fun _ => 0;
     opengl.mLastInputState := None |}.

(** The calls that bind the buffer with name [handle] to attribute
    [location] in the two layouts. *)
Definition bindCalls (handle location : Z) : list opengl.Call :=
  [opengl.glBindBuffer opengl.GL_ARRAY_BUFFER handle;
   opengl.glVertexAttribPointer location 4 opengl.GL_FLOAT opengl.GL_FALSE 16 0].

(** Whether a computation ends without fault, and the value it then
    yields. *)
Definition completes {A : Type} (m : opengl.M A) : bool :=
  match snd m with Some _ => true | None => false end.

Definition value_of {A : Type} (m : opengl.M A) (default : A) : A :=
  match snd m with Some a => a | None => default end.

Lemma completes_value_of {A : Type} (m : opengl.M A) (default : A) :
  completes m = true -> snd m = Some (value_of m default).
Proof.
  unfold completes, value_of. destruct (snd m); [reflexivity | discriminate].
Qed.

(** C4 as stated fails in its example.  Slot 0 is bound and drawn with under
    layout A, so it is clean.  Then vertex buffers are bound at slots [2,5)
    and the pipeline is switched to layout B, which uses slots {0,2,4} and
    is not the cached layout.  [Apply] binds slots 0, 2 and 4: slot 0, clean
    before the switch, was marked dirty by it. *)
Lemma Apply_after_switch_rebinds_clean_live_slot :
  let bind0 :=
    opengl.InputBufferTracker_OnSetVertexBuffers
      (constants := opengl.constants_h) freshInputBuffers 0 1
      [vertexBuffer 10] [0] in
  let draw0 :=
    opengl.InputBufferTracker_Apply
      (constants := opengl.constants_h) (helpers := exampleHelpers)
      (opengl.InputBufferTracker_OnSetPipeline
         (value_of bind0 freshInputBuffers) renderPipelineA) in
  let bind234 :=
    opengl.InputBufferTracker_OnSetVertexBuffers
      (constants := opengl.constants_h) (value_of draw0 freshInputBuffers) 2 3
      [vertexBuffer 12; vertexBuffer 13; vertexBuffer 14] [0; 0; 0] in
  let before := value_of bind234 freshInputBuffers in
  let draw :=
    opengl.InputBufferTracker_Apply
      (constants := opengl.constants_h) (helpers := exampleHelpers)
      (opengl.InputBufferTracker_OnSetPipeline before renderPipelineB) in
  completes bind0 = true
  /\ completes draw0 = true
  /\ fst draw0 = bindCalls 10 0
  /\ completes bind234 = true
  /\ opengl.mDirtyVertexBuffers before = 28
  /\ Z.testbit (opengl.mDirtyVertexBuffers before) 0 = false
  /\ opengl.same_InputState (opengl.mLastInputState before) layoutB = false
  /\ completes draw = true
  /\ fst draw = bindCalls 10 0 ++ bindCalls 12 1 ++ bindCalls 14 2.
Proof. cbv zeta. repeat split; vm_compute; reflexivity. Qed.

(** When layout B is the cached layout the switch changes nothing, and
    [Apply] binds slots 2 and 4 only. *)
Example Apply_after_switch_to_cached_layout :
  let bind04 :=
    opengl.InputBufferTracker_OnSetVertexBuffers
      (constants := opengl.constants_h) freshInputBuffers 0 5
      [vertexBuffer 10; vertexBuffer 11; vertexBuffer 12; vertexBuffer 13;
       vertexBuffer 14] [0; 0; 0; 0; 0] in
  let draw0 :=
    opengl.InputBufferTracker_Apply
      (constants := opengl.constants_h) (helpers := exampleHelpers)
      (opengl.InputBufferTracker_OnSetPipeline
         (value_of bind04 freshInputBuffers) renderPipelineB) in
  let bind234 :=
    opengl.InputBufferTracker_OnSetVertexBuffers
      (constants := opengl.constants_h) (value_of draw0 freshInputBuffers) 2 3
      [vertexBuffer 22; vertexBuffer 23; vertexBuffer 24] [0; 0; 0] in
  let before := value_of bind234 freshInputBuffers in
  let draw :=
    opengl.InputBufferTracker_Apply
      (constants := opengl.constants_h) (helpers := exampleHelpers)
      (opengl.InputBufferTracker_OnSetPipeline before renderPipelineB) in
  completes bind04 = true
  /\ fst draw0 = bindCalls 10 0 ++ bindCalls 12 1 ++ bindCalls 14 2
  /\ completes bind234 = true
  /\ opengl.same_InputState (opengl.mLastInputState before) layoutB = true
  /\ completes draw = true
  /\ fst draw = bindCalls 22 1 ++ bindCalls 24 2.
Proof. cbv zeta. repeat split; vm_compute; reflexivity. Qed.

(** Buffers are bound at slots 0 to 4, then the pipeline is switched to
    layout B: [Apply] completes and binds slots 0, 2 and 4. *)
Lemma switch_and_Apply_witness :
  let bound :=
    opengl.InputBufferTracker_OnSetPipeline
      (value_of
         (opengl.InputBufferTracker_OnSetVertexBuffers
            (constants := opengl.constants_h) freshInputBuffers 0 5
            [vertexBuffer 10; vertexBuffer 11; vertexBuffer 12; vertexBuffer 13;
             vertexBuffer 14] [0; 0; 0; 0; 0])
         freshInputBuffers)
      renderPipelineB in
  let draw :=
    opengl.InputBufferTracker_Apply
      (constants := opengl.constants_h) (helpers := exampleHelpers) bound in
  opengl.mLastInputState bound = Some layoutB
  /\ completes draw = true
  /\ fst draw
     = [opengl.glBindBuffer opengl.GL_ARRAY_BUFFER 10;
        opengl.glVertexAttribPointer 0 4 opengl.GL_FLOAT opengl.GL_FALSE 16 0;
        opengl.glBindBuffer opengl.GL_ARRAY_BUFFER 12;
        opengl.glVertexAttribPointer 1 4 opengl.GL_FLOAT opengl.GL_FALSE 16 0;
        opengl.glBindBuffer opengl.GL_ARRAY_BUFFER 14;
        opengl.glVertexAttribPointer 2 4 opengl.GL_FLOAT opengl.GL_FALSE 16 0]
  /\ opengl.mDirtyVertexBuffers (value_of draw bound) = 0.
Proof.
  cbv zeta.
  set (bound :=
         opengl.InputBufferTracker_OnSetPipeline
           (value_of
              (opengl.InputBufferTracker_OnSetVertexBuffers
                 (constants := opengl.constants_h) freshInputBuffers 0 5
                 [vertexBuffer 10; vertexBuffer 11; vertexBuffer 12;
                  vertexBuffer 13; vertexBuffer 14] [0; 0; 0; 0; 0])
              freshInputBuffers)
           renderPipelineB).
  assert (Hlast : opengl.mLastInputState bound = Some layoutB) by reflexivity.
  assert (Hrun : completes
                   (opengl.InputBufferTracker_Apply
                      (constants := opengl.constants_h) (helpers := exampleHelpers)
                      bound) = true)
    by (vm_compute; reflexivity).
  destruct (proj2 (proj2
              (proj2
                 (switch_marks_live_slots_and_Apply_binds_dirty_live
                    (constants := opengl.constants_h) (helpers := exampleHelpers)
                    freshInputBuffers renderPipelineB)
                 bound layoutB Hlast)))
    as (rest & Hcalls & Hrest).
  destruct (Hrest _ (completes_value_of _ bound Hrun)) as (Hnil & Hdirty & _).
  split; [exact Hlast |]. split; [exact Hrun |]. split; [| exact Hdirty].
  rewrite Hnil, app_nil_r in Hcalls. rewrite <- Hcalls.
  vm_compute. reflexivity.
Defined.

(** ** OpenGL: calls a computation never makes *)

Section Without.
Import opengl.

(** None of the recorded calls satisfies [selected]. *)
Definition Without (selected : Call -> bool) (calls : list Call) : Prop :=
  Forall (fun call => selected call = false) calls.

Variable selected : Call -> bool.

Lemma Without_app (a b : list Call) :
  Without selected a -> Without selected b -> Without selected (a ++ b).
Proof. intros Ha Hb. apply Forall_app. split; assumption. Qed.

Lemma Without_filter (calls : list Call) :
  Without selected calls -> filter selected calls = [].
Proof.
  induction 1 as [| call calls Hcall _ IH]; cbn; [reflexivity |].
  rewrite Hcall. exact IH.
Qed.

Lemma Without_ret {A : Type} (a : A) : Without selected (fst (ret a)).
Proof. constructor. Qed.

Lemma Without_fault {A : Type} : Without selected (fst (@fault A)).
Proof. constructor. Qed.

Lemma Without_emit (call : Call) :
  selected call = false -> Without selected (fst (emit call)).
Proof. intros H. constructor; [exact H | constructor]. Qed.

Lemma Without_deref {A : Type} (pointer : option A) :
  Without selected (fst (deref pointer)).
Proof. destruct pointer; constructor. Qed.

Lemma Without_assert (condition : bool) : Without selected (fst (assert condition)).
Proof. destruct condition; constructor. Qed.

Lemma Without_defined_when (condition : bool) :
  Without selected (fst (defined_when condition)).
Proof. destruct condition; constructor. Qed.

Lemma Without_bind {A B : Type} (m : M A) (k : A -> M B) :
  Without selected (fst m) -> (forall a, Without selected (fst (k a))) ->
  Without selected (fst (bind m k)).
Proof.
  intros Hm Hk. rewrite bind_calls. apply Without_app; [exact Hm |].
  destruct (snd m); [apply Hk | constructor].
Qed.

Lemma Without_for_each {A S : Type} (range : list A) (body : A -> S -> M S) (s : S) :
  (forall x s, Without selected (fst (body x s))) ->
  Without selected (fst (for_each range body s)).
Proof.
  intros Hbody. revert s. induction range as [| x range IH]; intros s;
    cbn [for_each].
  - constructor.
  - apply Without_bind; [apply Hbody | exact IH].
Qed.

End Without.

(** Walks through a computation made of the operations above; [emit] leaves
    the side condition that the call is not a selected one. *)
Ltac without :=
  repeat first
    [ apply Without_ret
    | apply Without_fault
    | apply Without_deref
    | apply Without_assert
    | apply Without_defined_when
    | apply Without_emit; reflexivity
    | apply Without_for_each; intros
    | apply Without_bind; [| intros]
    | match goal with
      | |- Without _ (fst (if ?c then _ else _)) => destruct c
      | |- Without _ (fst (match ?x with _ => _ end)) => destruct x
      | |- Without _ (fst (let (_, _) := ?x in _)) => destruct x
      end ].

(** ** OpenGL: dispatches and their barrier *)

Section Dispatch.
Import opengl.
Context {constants : Constants} {helpers : Helpers} {environment : Environment}.

Definition IsDispatch (call : Call) : bool :=
  match call with glDispatchCompute _ _ _ => true | _ => false end.

(** Every [glDispatchCompute] of the list is directly followed by
    [glMemoryBarrier(GL_ALL_BARRIER_BITS)]. *)
Inductive Fenced : list Call -> Prop :=
| Fenced_nil : Fenced []
| Fenced_other (call : Call) (calls : list Call) :
    IsDispatch call = false -> Fenced calls -> Fenced (call :: calls)
| Fenced_dispatch (x y z : Z) (calls : list Call) :
    Fenced calls ->
    Fenced (glDispatchCompute x y z :: glMemoryBarrier GL_ALL_BARRIER_BITS :: calls).

Lemma Fenced_app (a b : list Call) : Fenced a -> Fenced b -> Fenced (a ++ b).
Proof.
  intros Ha Hb. induction Ha; cbn [app].
  - exact Hb.
  - apply Fenced_other; assumption.
  - apply Fenced_dispatch. assumption.
Qed.

Lemma Without_Fenced (calls : list Call) : Without IsDispatch calls -> Fenced calls.
Proof. induction 1; [constructor | apply Fenced_other; assumption]. Qed.

Lemma Fenced_next (calls : list Call) :
  Fenced calls ->
  forall (pre post : list Call) (x y z : Z),
    calls = pre ++ glDispatchCompute x y z :: post ->
    exists post', post = glMemoryBarrier GL_ALL_BARRIER_BITS :: post'.
Proof.
  induction 1 as [| call calls Hcall _ IH | x0 y0 z0 calls _ IH];
    intros pre post x y z Heq.
  - destruct pre; discriminate Heq.
  - destruct pre as [| c pre]; cbn in Heq.
    + injection Heq as -> _. discriminate Hcall.
    + injection Heq as _ Heq. eapply IH, Heq.
  - destruct pre as [| c pre]; cbn in Heq.
    + injection Heq as _ _ _ <-. eexists. reflexivity.
    + injection Heq as _ Heq. destruct pre as [| c' pre]; cbn in Heq.
      * discriminate Heq.
      * injection Heq as _ Heq. eapply IH, Heq.
Qed.

Lemma Fenced_bind {A B : Type} (m : M A) (k : A -> M B) :
  Fenced (fst m) -> (forall a, Fenced (fst (k a))) -> Fenced (fst (bind m k)).
Proof.
  intros Hm Hk. rewrite bind_calls. apply Fenced_app; [exact Hm |].
  destruct (snd m); [apply Hk | constructor].
Qed.

Lemma PushConstantTracker_Apply_Without (selected : Call -> bool)
    (this : PushConstantTracker) (pipeline glPipeline : option Pipeline) :
  (forall location v0,
     selected (glUniform1i location v0) = false
     /\ selected (glUniform1ui location v0) = false
     /\ selected (glUniform1f location v0) = false) ->
  Without selected (fst (PushConstantTracker_Apply this pipeline glPipeline)).
Proof.
  intros Hsel. unfold PushConstantTracker_Apply, PushConstantTracker_ApplyStage.
  without; apply Without_emit, Hsel.
Qed.

Lemma ExecuteCommand_Without_dispatch (command : Command) (s : ExecuteState) :
  (forall x y z, command <> Dispatch x y z) ->
  Without IsDispatch (fst (ExecuteCommand command s)).
Proof.
  intros Hcommand.
  destruct command;
    try (exfalso; eapply Hcommand; reflexivity);
    unfold ExecuteCommand, ExecuteBeginRenderSubpass, ExecuteSetBindGroup,
      AttachColorBuffers, AttachDepthStencilBuffer, ClearColorAttachments,
      ClearDepthStencilAttachment, PushConstantTracker_Apply,
      PushConstantTracker_ApplyStage, PushConstantTracker_OnSetPipeline,
      PushConstantTracker_OnSetPushConstants, InputBufferTracker_Apply,
      InputBufferTracker_OnSetVertexBuffers, BindAttribute, IndexFormatType,
      VertexFormatType;
    cbv zeta; without.
Qed.

Lemma ExecuteCommand_Dispatch (s : ExecuteState) (x y z : Z) :
  exists writes : list Call,
    Without IsDispatch writes
    /\ fst (PushConstantTracker_Apply (pushConstants s) (lastPipeline s)
              (lastGLPipeline s)) = writes
    /\ if completes (ExecuteCommand (Dispatch x y z) s)
       then fst (ExecuteCommand (Dispatch x y z) s)
            = writes ++ [glDispatchCompute x y z;
                         glMemoryBarrier GL_ALL_BARRIER_BITS]
       else fst (ExecuteCommand (Dispatch x y z) s) = writes.
Proof.
  eexists. split; [| split; [reflexivity |]].
  - apply PushConstantTracker_Apply_Without. intros; repeat split.
  - unfold completes. cbn [ExecuteCommand].
    rewrite bind_calls, bind_outcome.
    destruct (snd (PushConstantTracker_Apply _ _ _)); cbn.
    + reflexivity.
    + rewrite app_nil_r. reflexivity.
Qed.

Lemma ExecuteCommand_Fenced (command : Command) (s : ExecuteState) :
  Fenced (fst (ExecuteCommand command s)).
Proof.
  destruct command;
    try (apply Without_Fenced, ExecuteCommand_Without_dispatch; discriminate).
  destruct (ExecuteCommand_Dispatch s x y z) as (writes & Hw & _ & Hcalls).
  destruct (completes _); rewrite Hcalls.
  - apply Fenced_app; [apply Without_Fenced, Hw |].
    apply Fenced_dispatch. constructor.
  - apply Without_Fenced, Hw.
Qed.

Lemma ExecuteCommands_Fenced (commands : list Command) (s : ExecuteState) :
  Fenced (fst (ExecuteCommands commands s)).
Proof.
  unfold ExecuteCommands. revert s.
  induction commands as [| command commands IH]; intros s; cbn [for_each].
  - constructor.
  - apply Fenced_bind; [apply ExecuteCommand_Fenced | exact IH].
Qed.

(** C7.  In the calls [Execute] makes for any command stream, from any
    state of the loop, every [glDispatchCompute] is directly followed by
    [glMemoryBarrier(GL_ALL_BARRIER_BITS)].  Both calls come from the
    [Dispatch] record itself: after the push-constant writes it issues
    exactly these two calls and nothing after them, so the barrier precedes
    whatever the next record does; no other record dispatches. *)
Theorem dispatch_followed_by_full_barrier
    (mCommands : list Command) (pre post : list Call) (x y z : Z)
    (dispatched : fst (Execute mCommands) = pre ++ glDispatchCompute x y z :: post) :
  (exists post', post = glMemoryBarrier GL_ALL_BARRIER_BITS :: post')
  /\ (forall (s : ExecuteState) (commands : list Command) (pre post : list Call)
        (x y z : Z),
        fst (ExecuteCommands commands s) = pre ++ glDispatchCompute x y z :: post ->
        exists post', post = glMemoryBarrier GL_ALL_BARRIER_BITS :: post')
  /\ (forall (s : ExecuteState) (x y z : Z),
        exists writes : list Call,
          Without IsDispatch writes
          /\ if completes (ExecuteCommand (Dispatch x y z) s)
             then fst (ExecuteCommand (Dispatch x y z) s)
                  = writes ++ [glDispatchCompute x y z;
                               glMemoryBarrier GL_ALL_BARRIER_BITS]
             else fst (ExecuteCommand (Dispatch x y z) s) = writes)
  /\ (forall (s : ExecuteState) (command : Command),
        (forall x y z, command <> Dispatch x y z) ->
        Without IsDispatch (fst (ExecuteCommand command s))).
Proof.
  split; [| split; [| split]].
  - eapply Fenced_next; [| exact dispatched].
    unfold Execute. apply Fenced_bind.
    + apply Without_Fenced, Without_emit. reflexivity.
    + intros _. apply Fenced_bind; [apply ExecuteCommands_Fenced |].
      intros _. apply Without_Fenced, Without_emit. reflexivity.
  - intros s commands pre' post' x' y' z' H.
    eapply Fenced_next; [apply ExecuteCommands_Fenced | exact H].
  - intros s x' y' z'.
    destruct (ExecuteCommand_Dispatch s x' y' z') as (writes & Hw & _ & Hcalls).
    exists writes. split; assumption.
  - intros s command. apply ExecuteCommand_Without_dispatch.
Qed.

End Dispatch.

Definition exampleEnvironment : opengl.Environment :=
  {| opengl.GeneratedFramebuffer := fun n => 100 + Z.of_nat n;
     opengl.indeterminate_mValues := fun _ _ => 0;
     opengl.indeterminate_mVertexBufferOffsets := fun _ => 0 |}.

(** A compute pipeline whose compute stage consumes push constant 0. *)
Definition exampleComputePipeline : opengl.ComputePipeline :=
  {| opengl.ComputePipeline_base :=
       {| opengl.Pipeline_address := 8192;
          opengl.GetPushConstants :=
            fun stage =>
              {| opengl.mask := match stage with opengl.Compute => 1 | _ => 0 end;
                 opengl.types := fun _ => opengl.Int |};
          opengl.GetLayout_GetBindingIndexInfo := fun _ binding => binding;
          opengl.GetGLPushConstants := fun _ constant => 10 + constant;
          opengl.GetTextureUnitsForSampler := fun _ => [];
          opengl.GetTextureUnitsForTexture := fun _ => [] |} |}.

Definition exampleComputeStream : list opengl.Command :=
  [opengl.BeginComputePass;
   opengl.SetComputePipeline exampleComputePipeline;
   opengl.SetPushConstants 4 1 0 [5];
   opengl.Dispatch 8 4 1;
   opengl.EndComputePass].

Lemma dispatch_followed_by_full_barrier_witness :
  fst (opengl.Execute (constants := opengl.constants_h) (helpers := exampleHelpers)
         (environment := exampleEnvironment) exampleComputeStream)
  = [opengl.PersistentPipelineState_SetDefaultState;
     opengl.ComputePipeline_ApplyNow 8192;
     opengl.glUniform1i 10 5]
    ++ opengl.glDispatchCompute 8 4 1
       :: [opengl.glMemoryBarrier opengl.GL_ALL_BARRIER_BITS;
           opengl.glBindSampler 0 0]
  /\ exists post',
       [opengl.glMemoryBarrier opengl.GL_ALL_BARRIER_BITS; opengl.glBindSampler 0 0]
       = opengl.glMemoryBarrier opengl.GL_ALL_BARRIER_BITS :: post'.
Proof.
  assert (H : fst (opengl.Execute (constants := opengl.constants_h)
                     (helpers := exampleHelpers)
                     (environment := exampleEnvironment) exampleComputeStream)
              = [opengl.PersistentPipelineState_SetDefaultState;
                 opengl.ComputePipeline_ApplyNow 8192;
                 opengl.glUniform1i 10 5]
                ++ opengl.glDispatchCompute 8 4 1
                   :: [opengl.glMemoryBarrier opengl.GL_ALL_BARRIER_BITS;
                       opengl.glBindSampler 0 0])
    by (vm_compute; reflexivity).
  split; [exact H |].
  exact (proj1 (dispatch_followed_by_full_barrier exampleComputeStream _ _ 8 4 1 H)).
Defined.

(** ** OpenGL: load operations of a render pass *)

Section LoadOps.
Import opengl.
Context {constants : Constants} {helpers : Helpers} {environment : Environment}.

Definition IsClear (call : Call) : bool :=
  match call with
  | glClearBufferfv _ _ _ | glClearBufferfi _ _ _ _ | glClearBufferiv _ _ _ => true
  | _ => false
  end.

(** [Clears m expected post]: the clear calls of [m] are an initial part of
    [expected]; when [m] ends without fault they are all of [expected], and
    the value it yields satisfies [post]. *)
Definition Clears {A : Type} (m : M A) (expected : list Call) (post : A -> Prop)
  : Prop :=
  (exists rest, expected = filter IsClear (fst m) ++ rest)
  /\ forall a, snd m = Some a -> filter IsClear (fst m) = expected /\ post a.

Lemma Clears_ret {A : Type} (a : A) (post : A -> Prop) :
  post a -> Clears (ret a) [] post.
Proof.
  intros H. split.
  - exists []. reflexivity.
  - intros a' Ha. injection Ha as <-. split; [reflexivity | exact H].
Qed.

Lemma Clears_bind {A B : Type} (m : M A) (k : A -> M B) (l1 l2 : list Call)
    (mid : A -> Prop) (post : B -> Prop) :
  Clears m l1 mid -> (forall a, mid a -> Clears (k a) l2 post) ->
  Clears (bind m k) (l1 ++ l2) post.
Proof.
  intros [[rest1 Hpre1] Hm] Hk. unfold Clears.
  rewrite bind_calls, bind_outcome.
  destruct (snd m) as [a |] eqn:E.
  - destruct (Hm a eq_refl) as [H1 Hmid].
    destruct (Hk a Hmid) as [[rest2 Hpre2] Hka].
    rewrite filter_app, H1. split.
    + exists rest2. rewrite Hpre2, app_assoc. reflexivity.
    + intros b Hb. destruct (Hka b Hb) as [H2 Hpost].
      rewrite H2. split; [reflexivity | exact Hpost].
  - rewrite app_nil_r. split.
    + exists (rest1 ++ l2). rewrite Hpre1, app_assoc. reflexivity.
    + discriminate.
Qed.

Lemma Clears_Without {A : Type} (m : M A) (post : A -> Prop) :
  Without IsClear (fst m) -> (forall a, snd m = Some a -> post a) ->
  Clears m [] post.
Proof.
  intros Hw Hpost. unfold Clears. rewrite (Without_filter IsClear _ Hw). split.
  - exists []. reflexivity.
  - intros a Ha. split; [reflexivity | apply Hpost, Ha].
Qed.

(** A computation whose calls all are clear calls. *)
Lemma Clears_only {A : Type} (m : M A) (post : A -> Prop) :
  Without (fun call => negb (IsClear call)) (fst m) ->
  (forall a, snd m = Some a -> post a) ->
  Clears m (fst m) post.
Proof.
  intros Hw Hpost.
  assert (Hf : filter IsClear (fst m) = fst m).
  { apply forallb_filter_id, forallb_forall. intros call Hcall.
    unfold Without in Hw. rewrite Forall_forall in Hw.
    specialize (Hw call Hcall). apply negb_false_iff, Hw. }
  unfold Clears. rewrite Hf. split.
  - exists []. rewrite app_nil_r. reflexivity.
  - intros a Ha. split; [reflexivity | apply Hpost, Ha].
Qed.

Lemma Clears_weaken {A : Type} (m : M A) (l l' : list Call) (post post' : A -> Prop) :
  Clears m l post -> l = l' -> (forall a, post a -> post' a) -> Clears m l' post'.
Proof.
  intros [Hpre Hm] <- Hpost. split; [exact Hpre |].
  intros a Ha. destruct (Hm a Ha). split; [assumption | apply Hpost; assumption].
Qed.

(** The part of the state that places the executor in a render pass. *)
Definition InPass (renderPass : RenderPass) (framebuffer : Framebuffer) (subpass : Z)
    (s : ExecuteState) : Prop :=
  currentRenderPass s = Some renderPass
  /\ currentFramebuffer s = Some framebuffer
  /\ currentSubpass s = subpass.

(** The commands that leave the render pass, its framebuffer and the
    subpass index as they are. *)
Definition KeepsSubpass (command : Command) : bool :=
  match command with
  | BeginRenderPass _ _ | BeginRenderSubpass | EndRenderSubpass => false
  | _ => true
  end.

(** Takes a completed computation apart. *)
Ltac completed :=
  repeat match goal with
         | H : snd (bind _ _) = Some _ |- _ =>
             apply bind_Some in H; destruct H as (? & ? & H)
         | H : snd (ret _) = Some _ |- _ => injection H as <-
         | H : snd (if ?c then _ else _) = Some _ |- _ => destruct c
         end.

Lemma KeepsSubpass_state (command : Command) (s s' : ExecuteState) :
  KeepsSubpass command = true ->
  snd (ExecuteCommand command s) = Some s' ->
  currentRenderPass s' = currentRenderPass s
  /\ currentFramebuffer s' = currentFramebuffer s
  /\ currentSubpass s' = currentSubpass s.
Proof.
  intros Hkeeps Hrun.
  destruct command; try discriminate Hkeeps; cbn [ExecuteCommand] in Hrun;
    cbv zeta in Hrun; completed; repeat split; reflexivity.
Qed.

Lemma KeepsSubpass_Without_clear (command : Command) (s : ExecuteState) :
  KeepsSubpass command = true ->
  Without IsClear (fst (ExecuteCommand command s)).
Proof.
  intros Hkeeps.
  destruct command; try discriminate Hkeeps;
    unfold ExecuteCommand, ExecuteSetBindGroup, PushConstantTracker_Apply,
      PushConstantTracker_ApplyStage, PushConstantTracker_OnSetPipeline,
      PushConstantTracker_OnSetPushConstants, InputBufferTracker_Apply,
      InputBufferTracker_OnSetVertexBuffers, BindAttribute, IndexFormatType,
      VertexFormatType;
    cbv zeta; without.
Qed.


(** The colour locations a subpass has set, lowest first. *)
Definition SetLocations (subpass : SubpassInfo) : list Z :=
  filter (Z.testbit (colorAttachmentsSet subpass)) (positions kMaxColorAttachments).

(** The clear call of the colour attachment at output [location] of
    subpass [subpass], if its load operation asks for one there. *)
Definition ColorClearAt (renderPass : RenderPass) (framebuffer : Framebuffer)
    (subpass location : Z) : list Call :=
  let attachmentSlot := colorAttachments (GetSubpassInfo renderPass subpass) location in
  let attachmentInfo := GetAttachmentInfo renderPass attachmentSlot in
  if (firstSubpass attachmentInfo =? subpass)
     && LoadOp_eqb (colorLoadOp attachmentInfo) Clear
  then [glClearBufferfv GL_COLOR location (GetClearColor framebuffer location)]
  else [].

(** The clear call of a depth/stencil attachment whose load operations ask
    for one. *)
Definition DepthStencilClear (attachmentInfo : AttachmentInfo)
    (clear : ClearDepthStencil) : list Call :=
  let doDepthClear :=
    TextureFormatHasDepth (format attachmentInfo)
    && LoadOp_eqb (depthLoadOp attachmentInfo) Clear in
  let doStencilClear :=
    TextureFormatHasStencil (format attachmentInfo)
    && LoadOp_eqb (stencilLoadOp attachmentInfo) Clear in
  if doDepthClear && doStencilClear then
    [glClearBufferfi GL_DEPTH_STENCIL 0 (clear_depth clear) (clear_stencil clear)]
  else if doDepthClear then [glClearBufferfv GL_DEPTH 0 [clear_depth clear]]
  else if doStencilClear then
    [glClearBufferiv GL_STENCIL 0 [to_GLint (clear_stencil clear)]]
  else [].

(** The clear calls that are due when subpass [subpass] of the pass begins:
    for each colour location the subpass has set, lowest first, the clear
    of its attachment if this is the attachment's first subpass and its load
    operation is [Clear]; then, if the subpass has a depth/stencil
    attachment and this is its first subpass, the clear its load operations
    ask for. *)
Definition SubpassClears (renderPass : RenderPass) (framebuffer : Framebuffer)
    (subpass : Z) : list Call :=
  let info := GetSubpassInfo renderPass subpass in
  let attachmentSlot := depthStencilAttachment info in
  flat_map (ColorClearAt renderPass framebuffer subpass) (SetLocations info)
  ++ (if depthStencilAttachmentSet info
         && (firstSubpass (GetAttachmentInfo renderPass attachmentSlot) =? subpass)
      then DepthStencilClear (GetAttachmentInfo renderPass attachmentSlot)
             (GetClearDepthStencil framebuffer attachmentSlot)
      else []).

Lemma ClearColorAttachments_calls (renderPass : RenderPass) (framebuffer : Framebuffer)
    (subpass : Z) :
  fst (ClearColorAttachments (GetSubpassInfo renderPass subpass) renderPass
         (Some framebuffer) subpass)
  = flat_map (ColorClearAt renderPass framebuffer subpass)
      (SetLocations (GetSubpassInfo renderPass subpass)).
Proof.
  unfold ClearColorAttachments, SetLocations. rewrite IterateBitSet_filter.
  rewrite (for_each_ext _ _
             (fun location (_ : unit) =>
                (ColorClearAt renderPass framebuffer subpass location, Some tt))).
  - rewrite for_each_emits. reflexivity.
  - intros location [] _. unfold ColorClearAt. cbv zeta.
    destruct (firstSubpass _ =? subpass); [| reflexivity].
    destruct (LoadOp_eqb _ Clear); reflexivity.
Qed.

Lemma ClearDepthStencilAttachment_calls (renderPass : RenderPass)
    (framebuffer : Framebuffer) (subpass : Z) :
  let info := GetSubpassInfo renderPass subpass in
  let attachmentSlot := depthStencilAttachment info in
  fst (ClearDepthStencilAttachment info renderPass (Some framebuffer) subpass)
  = if depthStencilAttachmentSet info
       && (firstSubpass (GetAttachmentInfo renderPass attachmentSlot) =? subpass)
    then DepthStencilClear (GetAttachmentInfo renderPass attachmentSlot)
           (GetClearDepthStencil framebuffer attachmentSlot)
    else [].
Proof.
  cbv zeta. unfold ClearDepthStencilAttachment, DepthStencilClear.
  destruct (depthStencilAttachmentSet _); [| reflexivity].
  destruct (firstSubpass _ =? subpass); [| reflexivity].
  cbv zeta. cbn [deref andb]. rewrite bind_ret_l.
  destruct (TextureFormatHasDepth _), (TextureFormatHasStencil _),
    (LoadOp_eqb (depthLoadOp _) Clear), (LoadOp_eqb (stencilLoadOp _) Clear);
    reflexivity.
Qed.

Ltac quiet_leaf :=
  apply Clears_Without; [without | intros; exact I].

Lemma BeginRenderSubpass_Clears (renderPass : RenderPass) (framebuffer : Framebuffer)
    (subpass : Z) (s : ExecuteState) :
  InPass renderPass framebuffer subpass s ->
  Clears (ExecuteBeginRenderSubpass s) (SubpassClears renderPass framebuffer subpass)
    (InPass renderPass framebuffer subpass).
Proof.
  intros (Hrp & Hfb & Hk).
  unfold ExecuteBeginRenderSubpass. cbv zeta.
  cbn [currentRenderPass currentFramebuffer currentSubpass currentFBO
       with_pushConstants with_inputBuffers framebuffersGenerated].
  rewrite Hrp, Hfb, Hk.
  eapply Clears_weaken with (post := InPass renderPass framebuffer subpass).
  - eapply Clears_bind; [quiet_leaf | intros _ _].
    eapply Clears_bind; [quiet_leaf | intros _ _].
    eapply Clears_bind; [quiet_leaf | intros _ _].
    cbn [deref]. rewrite bind_ret_l.
    eapply Clears_bind.
    { apply Clears_Without; [unfold AttachColorBuffers; without | intros; exact I]. }
    intros [drawBuffers attachmentCount] _.
    eapply Clears_bind; [quiet_leaf | intros _ _].
    eapply Clears_bind.
    { apply Clears_Without;
        [unfold AttachDepthStencilBuffer; without | intros; exact I]. }
    intros _ _.
    eapply Clears_bind.
    { apply Clears_only; [unfold ClearColorAttachments; without | intros; exact I]. }
    intros _ _.
    eapply Clears_bind.
    { apply Clears_only;
        [unfold ClearDepthStencilAttachment; without | intros; exact I]. }
    intros _ _.
    eapply Clears_bind; [quiet_leaf | intros _ _].
    rewrite bind_ret_l.
    eapply Clears_bind; [quiet_leaf | intros _ _].
    apply Clears_ret. repeat split.
  - cbn [app]. rewrite ?app_nil_r. rewrite ClearColorAttachments_calls.
    pose proof (ClearDepthStencilAttachment_calls renderPass framebuffer subpass)
      as Hds.
    cbv zeta in Hds. rewrite Hds. reflexivity.
  - trivial.
Qed.
Lemma body_Clears (renderPass : RenderPass) (framebuffer : Framebuffer)
    (subpass : Z) (body : list Command) :
  Forall (fun command => KeepsSubpass command = true) body ->
  forall s : ExecuteState,
    InPass renderPass framebuffer subpass s ->
    Clears (for_each body ExecuteCommand s) []
      (InPass renderPass framebuffer subpass).
Proof.
  induction 1 as [| command body Hcommand _ IH]; intros s Hs; cbn [for_each].
  - apply Clears_ret, Hs.
  - change (@nil Call) with (@nil Call ++ []).
    eapply Clears_bind; [| exact IH].
    apply Clears_Without.
    + apply KeepsSubpass_Without_clear, Hcommand.
    + intros s' Hs'. destruct Hs as (Hrp & Hfb & Hk).
      destruct (KeepsSubpass_state _ _ _ Hcommand Hs') as (Hrp' & Hfb' & Hk').
      repeat split; congruence.
Qed.

Lemma subpass_Clears (renderPass : RenderPass) (framebuffer : Framebuffer)
    (subpass : Z) (body : list Command) (s : ExecuteState) :
  Forall (fun command => KeepsSubpass command = true) body ->
  InPass renderPass framebuffer subpass s ->
  Clears (for_each (BeginRenderSubpass :: body ++ [EndRenderSubpass]) ExecuteCommand s)
    (SubpassClears renderPass framebuffer subpass)
    (InPass renderPass framebuffer ((subpass + 1) mod 2 ^ 32)).
Proof.
  intros Hbody Hs. cbn [for_each ExecuteCommand].
  eapply Clears_weaken.
  - eapply Clears_bind; [apply BeginRenderSubpass_Clears, Hs |].
    intros s1 Hs1. rewrite for_each_app.
    eapply Clears_bind; [apply body_Clears; [exact Hbody | exact Hs1] |].
    intros s2 (Hrp & Hfb & Hk). cbn [for_each ExecuteCommand].
    rewrite bind_emit. cbn [fst snd bind ret].
    apply Clears_Without with
      (post := InPass renderPass framebuffer ((subpass + 1) mod 2 ^ 32)).
    + cbn. repeat constructor.
    + cbn. intros s3 Hs3. injection Hs3 as <-. cbn.
      repeat split; [exact Hrp | exact Hfb | rewrite Hk; reflexivity].
  - rewrite !app_nil_r. reflexivity.
  - trivial.
Qed.

(** The commands of subpass [body] between their two delimiters. *)
Definition Subpass (body : list Command) : list Command :=
  BeginRenderSubpass :: body ++ [EndRenderSubpass].

(** The commands of a render pass whose subpasses have the given bodies. *)
Definition RenderPassStream (renderPass : RenderPass) (framebuffer : Framebuffer)
    (bodies : list (list Command)) : list Command :=
  BeginRenderPass renderPass framebuffer :: flat_map Subpass bodies ++ [EndRenderPass].

Lemma subpasses_Clears (renderPass : RenderPass) (framebuffer : Framebuffer)
    (bodies : list (list Command)) :
  Forall (Forall (fun command => KeepsSubpass command = true)) bodies ->
  forall (first : nat) (s : ExecuteState),
    (bodies <> [] -> InPass renderPass framebuffer (Z.of_nat first) s) ->
    Z.of_nat first + Z.of_nat (List.length bodies) <= 2 ^ 32 ->
    Clears (for_each (flat_map Subpass bodies) ExecuteCommand s)
      (flat_map (fun k => SubpassClears renderPass framebuffer (Z.of_nat k))
         (seq first (List.length bodies)))
      (fun _ => True).
Proof.
  induction 1 as [| body bodies Hbody _ IH]; intros first s Hs Hcount.
  - cbn. apply Clears_ret. exact I.
  - cbn [flat_map List.length seq]. rewrite for_each_app.
    eapply Clears_bind.
    + apply subpass_Clears; [exact Hbody | apply Hs; discriminate].
    + intros s1 Hs1. apply IH.
      * intros Hne. destruct bodies as [| b bs]; [contradiction Hne; reflexivity |].
        cbn [List.length] in Hcount.
        rewrite Z.mod_small in Hs1 by lia.
        replace (Z.of_nat (S first)) with (Z.of_nat first + 1) by lia.
        exact Hs1.
      * cbn [List.length] in Hcount. lia.
Qed.

Lemma RenderPassStream_Clears (renderPass : RenderPass) (framebuffer : Framebuffer)
    (bodies : list (list Command)) (s : ExecuteState) :
  Forall (Forall (fun command => KeepsSubpass command = true)) bodies ->
  Z.of_nat (List.length bodies) <= 2 ^ 32 ->
  Clears (ExecuteCommands (RenderPassStream renderPass framebuffer bodies) s)
    (flat_map (fun k => SubpassClears renderPass framebuffer (Z.of_nat k))
       (seq 0 (List.length bodies)))
    (fun _ => True).
Proof.
  intros Hbodies Hcount. unfold ExecuteCommands, RenderPassStream.
  cbn [for_each ExecuteCommand]. rewrite bind_ret_l, for_each_app.
  eapply Clears_weaken.
  - eapply Clears_bind.
    + apply (subpasses_Clears renderPass framebuffer bodies Hbodies 0).
      * intros _. repeat split.
      * lia.
    + intros s1 _. cbn [for_each ExecuteCommand]. rewrite !bind_ret_l.
      apply Clears_ret. exact I.
  - apply app_nil_r.
  - trivial.
Qed.

(** Among the clear calls due in subpass [subpass], those of colour
    attachment [attachment]: the colour clears at the output locations the
    subpass maps to it. *)
Definition ClearsOfColorAttachment (renderPass : RenderPass)
    (framebuffer : Framebuffer) (attachment subpass : Z) : list Call :=
  filter
    (fun call =>
       match call with
       | glClearBufferfv buffer drawbuffer _ =>
           (buffer =? GL_COLOR)
           && (colorAttachments (GetSubpassInfo renderPass subpass) drawbuffer
               =? attachment)
       | _ => false
       end)
    (SubpassClears renderPass framebuffer subpass).

(** Among the clear calls due in subpass [subpass], those of depth/stencil
    attachment [attachment]: the depth and stencil clears, when the subpass
    has it as its depth/stencil attachment. *)
Definition ClearsOfDepthStencilAttachment (renderPass : RenderPass)
    (framebuffer : Framebuffer) (attachment subpass : Z) : list Call :=
  if depthStencilAttachmentSet (GetSubpassInfo renderPass subpass)
     && (depthStencilAttachment (GetSubpassInfo renderPass subpass) =? attachment)
  then
    filter
      (fun call =>
         match call with
         | glClearBufferfi buffer _ _ _ => buffer =? GL_DEPTH_STENCIL
         | glClearBufferfv buffer _ _ => buffer =? GL_DEPTH
         | glClearBufferiv buffer _ _ => buffer =? GL_STENCIL
         | _ => false
         end)
      (SubpassClears renderPass framebuffer subpass)
  else [].

(** The output locations at which subpass [subpass] uses [attachment] as a
    colour attachment, lowest first. *)
Definition ColorLocations (renderPass : RenderPass) (attachment subpass : Z) : list Z :=
  filter
    (fun location =>
       colorAttachments (GetSubpassInfo renderPass subpass) location =? attachment)
    (SetLocations (GetSubpassInfo renderPass subpass)).

(** Whether [subpass] is one of the first [count] subpasses. *)
Definition IsExecutedSubpass (count : nat) (subpass : Z) : bool :=
  (0 <=? subpass) && (subpass <? Z.of_nat count).

Lemma DepthStencilClear_not_color (attachmentInfo : AttachmentInfo)
    (clear : ClearDepthStencil) (p : Z -> bool) :
  filter
    (fun call =>
       match call with
       | glClearBufferfv buffer drawbuffer _ => (buffer =? GL_COLOR) && p drawbuffer
       | _ => false
       end)
    (DepthStencilClear attachmentInfo clear) = [].
Proof.
  unfold DepthStencilClear. cbv zeta.
  destruct (_ && _); [reflexivity |].
  destruct (_ && _); [reflexivity |].
  destruct (_ && _); reflexivity.
Qed.

Lemma DepthStencilClear_kept (attachmentInfo : AttachmentInfo)
    (clear : ClearDepthStencil) :
  filter
    (fun call =>
       match call with
       | glClearBufferfi buffer _ _ _ => buffer =? GL_DEPTH_STENCIL
       | glClearBufferfv buffer _ _ => buffer =? GL_DEPTH
       | glClearBufferiv buffer _ _ => buffer =? GL_STENCIL
       | _ => false
       end)
    (DepthStencilClear attachmentInfo clear)
  = DepthStencilClear attachmentInfo clear.
Proof.
  unfold DepthStencilClear. cbv zeta.
  destruct (_ && _); [reflexivity |].
  destruct (_ && _); [reflexivity |].
  destruct (_ && _); reflexivity.
Qed.

Lemma ClearsOfColorAttachment_calls (renderPass : RenderPass)
    (framebuffer : Framebuffer) (attachment subpass : Z) :
  ClearsOfColorAttachment renderPass framebuffer attachment subpass
  = if (firstSubpass (GetAttachmentInfo renderPass attachment) =? subpass)
       && LoadOp_eqb (colorLoadOp (GetAttachmentInfo renderPass attachment)) Clear
    then map (fun location =>
                glClearBufferfv GL_COLOR location (GetClearColor framebuffer location))
           (ColorLocations renderPass attachment subpass)
    else [].
Proof.
  unfold ClearsOfColorAttachment, SubpassClears, ColorLocations. cbv zeta.
  rewrite filter_app.
  match goal with
  | |- _ ++ filter ?p ?l = _ =>
      assert (Hnone : filter p l = [])
  end.
  { destruct (_ && _); [| reflexivity].
    apply (DepthStencilClear_not_color _ _
             (fun drawbuffer =>
                colorAttachments (GetSubpassInfo renderPass subpass) drawbuffer
                =? attachment)). }
  rewrite Hnone, app_nil_r. clear Hnone.
  induction (SetLocations (GetSubpassInfo renderPass subpass))
    as [| location rest IH].
  - cbn. destruct (_ && _); reflexivity.
  - cbn [flat_map filter]. rewrite filter_app, IH. clear IH.
    unfold ColorClearAt at 1. cbv zeta.
    destruct (colorAttachments (GetSubpassInfo renderPass subpass) location
              =? attachment) eqn:E.
    + apply Z.eqb_eq in E. rewrite E.
      destruct (_ && _); cbn [filter map app].
      * rewrite E, !Z.eqb_refl. reflexivity.
      * reflexivity.
    + destruct ((firstSubpass
                   (GetAttachmentInfo renderPass
                      (colorAttachments (GetSubpassInfo renderPass subpass)
                         location)) =? subpass) && _);
        cbn [filter app].
      * rewrite E. change (GL_COLOR =? GL_COLOR) with true. cbn [andb].
        destruct (_ && _); reflexivity.
      * destruct (_ && _); reflexivity.
Qed.

Lemma ClearsOfDepthStencilAttachment_calls (renderPass : RenderPass)
    (framebuffer : Framebuffer) (attachment subpass : Z) :
  ClearsOfDepthStencilAttachment renderPass framebuffer attachment subpass
  = if depthStencilAttachmentSet (GetSubpassInfo renderPass subpass)
       && (depthStencilAttachment (GetSubpassInfo renderPass subpass) =? attachment)
       && (firstSubpass (GetAttachmentInfo renderPass attachment) =? subpass)
    then DepthStencilClear (GetAttachmentInfo renderPass attachment)
           (GetClearDepthStencil framebuffer attachment)
    else [].
Proof.
  unfold ClearsOfDepthStencilAttachment, SubpassClears. cbv zeta.
  destruct (depthStencilAttachmentSet (GetSubpassInfo renderPass subpass)) eqn:Eset;
    [| reflexivity].
  destruct (Z.eqb_spec (depthStencilAttachment (GetSubpassInfo renderPass subpass))
              attachment) as [Heq | Hne]; [| reflexivity].
  cbn [andb]. rewrite filter_app, Heq.
  match goal with
  | |- filter ?p ?l ++ _ = _ => assert (Hnone : filter p l = [])
  end.
  { induction (SetLocations _) as [| location rest IH];
      [reflexivity |].
    cbn [flat_map]. rewrite filter_app, IH, app_nil_r.
    unfold ColorClearAt. cbv zeta. destruct (_ && _); reflexivity. }
  rewrite Hnone. cbn [app]. clear Hnone.
  destruct (firstSubpass _ =? subpass); [| reflexivity].
  apply DepthStencilClear_kept.
Qed.

Lemma flat_map_nil {A B : Type} (g : A -> list B) (l : list A) :
  (forall y, In y l -> g y = []) -> flat_map g l = [].
Proof.
  induction l as [| a l IH]; intros H; cbn; [reflexivity |].
  rewrite (H a) by (left; reflexivity). apply IH.
  intros y Hy. apply H. right. exact Hy.
Qed.

Lemma flat_map_only {A B : Type} (g : A -> list B) (l : list A) (x : A) :
  NoDup l -> In x l -> (forall y, In y l -> y <> x -> g y = []) ->
  flat_map g l = g x.
Proof.
  induction 1 as [| a l Ha Hnd IH]; intros Hx Hg; [contradiction Hx |].
  cbn [flat_map]. destruct Hx as [-> | Hx].
  - rewrite flat_map_nil; [apply app_nil_r |].
    intros y Hy. apply Hg; [right; exact Hy |]. intros ->. contradiction.
  - rewrite (Hg a) by (try (left; reflexivity); intros ->; contradiction).
    apply IH; [exact Hx |]. intros y Hy. apply Hg. right. exact Hy.
Qed.

(** What is due in one subpass only, [first], is due once over the
    subpasses executed, if [first] is one of them. *)
Lemma flat_map_first_subpass (due : Z -> list Call) (first : Z) (count : nat) :
  (forall subpass : Z, subpass <> first -> due subpass = []) ->
  flat_map (fun k => due (Z.of_nat k)) (seq 0 count)
  = if IsExecutedSubpass count first then due first else [].
Proof.
  intros Hother. unfold IsExecutedSubpass.
  destruct (Z.leb_spec 0 first) as [Hlow | Hlow];
    [destruct (Z.ltb_spec first (Z.of_nat count)) as [Hhigh | Hhigh] |];
    cbn [andb].
  - rewrite (flat_map_only _ _ (Z.to_nat first)).
    + rewrite Z2Nat.id by exact Hlow. reflexivity.
    + apply seq_NoDup.
    + apply in_seq. lia.
    + intros k _ Hk. apply Hother. lia.
  - apply flat_map_nil. intros k Hk. apply in_seq in Hk. apply Hother. lia.
  - apply flat_map_nil. intros k Hk. apply Hother. lia.
Qed.

Lemma DepthStencilClear_length (attachmentInfo : AttachmentInfo)
    (clear : ClearDepthStencil) :
  List.length (DepthStencilClear attachmentInfo clear)
  = if (TextureFormatHasDepth (format attachmentInfo)
        && LoadOp_eqb (depthLoadOp attachmentInfo) Clear)
       || (TextureFormatHasStencil (format attachmentInfo)
           && LoadOp_eqb (stencilLoadOp attachmentInfo) Clear)
    then 1%nat else 0%nat.
Proof.
  unfold DepthStencilClear. cbv zeta.
  destruct (TextureFormatHasDepth _ && _), (TextureFormatHasStencil _ && _);
    reflexivity.
Qed.

(** C5, as amended.  Let a render pass be executed to its end:
    [BeginRenderPass], then for each subpass [BeginRenderSubpass], commands
    that stay in the subpass, [EndRenderSubpass], then [EndRenderPass].  The
    clear calls made are those due in the successive subpasses, subpass 0
    first, and a [BeginRenderSubpass] that completes makes exactly the clear
    calls due in its subpass.  A colour attachment is cleared only in the
    subpass that is its [firstSubpass], and only if its colour load
    operation is [Clear]: there it is cleared once for each output location
    the subpass maps to it, so over the whole pass as many times as that
    subpass has such locations, and not at all when that subpass is not
    executed.  A depth/stencil attachment is cleared only in the subpass that
    is its [firstSubpass] and has it as depth/stencil attachment, by at most
    one call: exactly one when its format has an aspect whose load operation
    is [Clear]. *)
Theorem clear_applied_once_on_first_subpass
    (renderPass : RenderPass) (framebuffer : Framebuffer)
    (bodies : list (list Command)) (s s' : ExecuteState)
    (bodies_keep :
       Forall (Forall (fun command => KeepsSubpass command = true)) bodies)
    (subpass_count : Z.of_nat (List.length bodies) <= 2 ^ 32)
    (executed :
       snd (ExecuteCommands (RenderPassStream renderPass framebuffer bodies) s)
       = Some s') :
  filter IsClear
    (fst (ExecuteCommands (RenderPassStream renderPass framebuffer bodies) s))
  = flat_map (fun k => SubpassClears renderPass framebuffer (Z.of_nat k))
      (seq 0 (List.length bodies))
  /\ (forall (subpass : Z) (begun begun' : ExecuteState),
        InPass renderPass framebuffer subpass begun ->
        snd (ExecuteBeginRenderSubpass begun) = Some begun' ->
        filter IsClear (fst (ExecuteBeginRenderSubpass begun))
        = SubpassClears renderPass framebuffer subpass)
  /\ (forall attachment subpass : Z,
        ClearsOfColorAttachment renderPass framebuffer attachment subpass
        = if (firstSubpass (GetAttachmentInfo renderPass attachment) =? subpass)
             && LoadOp_eqb (colorLoadOp (GetAttachmentInfo renderPass attachment))
                  Clear
          then map (fun location =>
                      glClearBufferfv GL_COLOR location
                        (GetClearColor framebuffer location))
                 (ColorLocations renderPass attachment subpass)
          else [])
  /\ (forall attachment subpass : Z,
        ClearsOfDepthStencilAttachment renderPass framebuffer attachment subpass
        = if depthStencilAttachmentSet (GetSubpassInfo renderPass subpass)
             && (depthStencilAttachment (GetSubpassInfo renderPass subpass)
                 =? attachment)
             && (firstSubpass (GetAttachmentInfo renderPass attachment) =? subpass)
          then DepthStencilClear (GetAttachmentInfo renderPass attachment)
                 (GetClearDepthStencil framebuffer attachment)
          else [])
  /\ (forall attachment : Z,
        let first := firstSubpass (GetAttachmentInfo renderPass attachment) in
        flat_map
          (fun k =>
             ClearsOfColorAttachment renderPass framebuffer attachment (Z.of_nat k))
          (seq 0 (List.length bodies))
        = if IsExecutedSubpass (List.length bodies) first
             && LoadOp_eqb (colorLoadOp (GetAttachmentInfo renderPass attachment))
                  Clear
          then map (fun location =>
                      glClearBufferfv GL_COLOR location
                        (GetClearColor framebuffer location))
                 (ColorLocations renderPass attachment first)
          else [])
  /\ (forall attachment : Z,
        let info := GetAttachmentInfo renderPass attachment in
        let first := firstSubpass info in
        flat_map
          (fun k =>
             ClearsOfDepthStencilAttachment renderPass framebuffer attachment
               (Z.of_nat k))
          (seq 0 (List.length bodies))
        = (if IsExecutedSubpass (List.length bodies) first
              && depthStencilAttachmentSet (GetSubpassInfo renderPass first)
              && (depthStencilAttachment (GetSubpassInfo renderPass first)
                  =? attachment)
           then DepthStencilClear info (GetClearDepthStencil framebuffer attachment)
           else [])
        /\ List.length
             (DepthStencilClear info (GetClearDepthStencil framebuffer attachment))
           = if (TextureFormatHasDepth (format info)
                 && LoadOp_eqb (depthLoadOp info) Clear)
                || (TextureFormatHasStencil (format info)
                    && LoadOp_eqb (stencilLoadOp info) Clear)
             then 1%nat else 0%nat).
Proof.
  split; [| split; [| split; [| split; [| split]]]].
  - destruct (RenderPassStream_Clears renderPass framebuffer bodies s bodies_keep
                subpass_count) as [_ Hdone].
    apply (Hdone s' executed).
  - intros subpass begun begun' Hbegun Hrun.
    destruct (BeginRenderSubpass_Clears renderPass framebuffer subpass begun Hbegun)
      as [_ Hdone].
    apply (Hdone begun' Hrun).
  - apply ClearsOfColorAttachment_calls.
  - apply ClearsOfDepthStencilAttachment_calls.
  - intros attachment first.
    rewrite (flat_map_first_subpass
               (ClearsOfColorAttachment renderPass framebuffer attachment) first).
    + rewrite ClearsOfColorAttachment_calls. fold first.
      rewrite Z.eqb_refl. cbn [andb].
      destruct (IsExecutedSubpass _ first); [reflexivity |].
      reflexivity.
    + intros subpass Hsubpass. rewrite ClearsOfColorAttachment_calls. fold first.
      destruct (Z.eqb_spec first subpass); [congruence | reflexivity].
  - intros attachment info first. split; [| apply DepthStencilClear_length].
    rewrite (flat_map_first_subpass
               (ClearsOfDepthStencilAttachment renderPass framebuffer attachment)
               first).
    + rewrite ClearsOfDepthStencilAttachment_calls. fold info. fold first.
      rewrite Z.eqb_refl, andb_true_r.
      destruct (IsExecutedSubpass _ first); [| reflexivity].
      cbn [andb]. reflexivity.
    + intros subpass Hsubpass. rewrite ClearsOfDepthStencilAttachment_calls.
      fold info. fold first.
      destruct (Z.eqb_spec first subpass); [congruence |].
      rewrite andb_false_r. reflexivity.
Qed.


End LoadOps.

(** *** The end-to-end scenario of the specification *)

Definition exampleColorTexture : opengl.Texture :=
  {| opengl.Texture_address := 12288;
     opengl.Texture_GetHandle := 7;
     opengl.Texture_GetGLTarget := opengl.GL_TEXTURE_2D;
     opengl.Texture_GetGLFormat_format := 0x1908;
     opengl.Texture_GetGLFormat_type := 0x1401;
     opengl.Texture_GetFormat := opengl.R8G8B8A8Unorm;
     opengl.Texture_GetDimension := opengl.e2D |}.

(** Red, as four floats: 1, 0, 0, 1. *)
Definition red : list opengl.GLfloat := [0x3F800000; 0; 0; 0x3F800000].

Definition exampleFramebuffer : opengl.Framebuffer :=
  {| opengl.GetTextureView :=
       fun _ => {| opengl.TextureView_GetTexture := exampleColorTexture |};
     opengl.GetClearColor := fun _ => red;
     opengl.GetClearDepthStencil :=
       fun _ => {| opengl.clear_depth := 0x3F800000; opengl.clear_stencil := 0 |};
     opengl.GetWidth := 640;
     opengl.GetHeight := 480 |}.

(** One subpass, with attachment 0 at colour output 0, cleared on load. *)
Definition exampleRenderPass : opengl.RenderPass :=
  {| opengl.GetSubpassInfo :=
       fun _ =>
         {| opengl.colorAttachmentsSet := 1;
            opengl.colorAttachments := fun _ => 0;
            opengl.depthStencilAttachmentSet := false;
            opengl.depthStencilAttachment := 0 |};
     opengl.GetAttachmentInfo :=
       fun _ =>
         {| opengl.format := opengl.R8G8B8A8Unorm;
            opengl.colorLoadOp := opengl.Clear;
            opengl.depthLoadOp := opengl.Load;
            opengl.stencilLoadOp := opengl.Load;
            opengl.firstSubpass := 0 |} |}.

Definition exampleSubpassBodies : list (list opengl.Command) :=
  [[opengl.SetRenderPipeline renderPipelineA;
    opengl.SetVertexBuffers 0 1 [vertexBuffer 10] [0];
    opengl.DrawArrays 3 1 0 0]].

Definition exampleRenderStream : list opengl.Command :=
  RenderPassStream exampleRenderPass exampleFramebuffer exampleSubpassBodies.

(** One clear to red, one binding of the vertex buffer before the draw, one
    draw of three vertices. *)
Example Execute_end_to_end :
  opengl.Execute (constants := opengl.constants_h) (helpers := exampleHelpers)
    (environment := exampleEnvironment) exampleRenderStream
  = ([opengl.PersistentPipelineState_SetDefaultState;
      opengl.glBindFramebuffer opengl.GL_READ_FRAMEBUFFER 0;
      opengl.glGenFramebuffers 1 [100];
      opengl.glBindFramebuffer opengl.GL_DRAW_FRAMEBUFFER 100;
      opengl.glFramebufferTexture2D opengl.GL_DRAW_FRAMEBUFFER
        opengl.GL_COLOR_ATTACHMENT0 opengl.GL_TEXTURE_2D 7 0;
      opengl.glDrawBuffers 1 [opengl.GL_COLOR_ATTACHMENT0];
      opengl.glClearBufferfv opengl.GL_COLOR 0 red;
      opengl.glBlendColor 0 0 0 0;
      opengl.glViewport 0 0 640 480;
      opengl.RenderPipeline_ApplyNow 4096;
      opengl.glUniform1i 10 0;
      opengl.glBindBuffer opengl.GL_ARRAY_BUFFER 10;
      opengl.glVertexAttribPointer 0 4 opengl.GL_FLOAT opengl.GL_FALSE 16 0;
      opengl.glDrawArraysInstanced 4 0 3 1;
      opengl.glDeleteFramebuffers 1 [100];
      opengl.glBindSampler 0 0],
     Some tt).
Proof. vm_compute. reflexivity. Qed.

(** The state that [BeginRenderPass] leaves for the example render pass. *)
Definition exampleInPassState : opengl.ExecuteState :=
  value_of
    (opengl.ExecuteCommand (constants := opengl.constants_h)
       (helpers := exampleHelpers) (environment := exampleEnvironment)
       (opengl.BeginRenderPass exampleRenderPass exampleFramebuffer)
       (opengl.InitialState (environment := exampleEnvironment)))
    (opengl.InitialState (environment := exampleEnvironment)).

(** The example pass makes one clear call, when its subpass begins. *)
Lemma clear_applied_once_on_first_subpass_witness :
  let run :=
    opengl.ExecuteCommands (constants := opengl.constants_h)
      (helpers := exampleHelpers) (environment := exampleEnvironment)
      exampleRenderStream (opengl.InitialState (environment := exampleEnvironment)) in
  Forall (Forall (fun command => KeepsSubpass command = true)) exampleSubpassBodies
  /\ Z.of_nat (List.length exampleSubpassBodies) <= 2 ^ 32
  /\ completes run = true
  /\ filter IsClear (fst run) = [opengl.glClearBufferfv opengl.GL_COLOR 0 red]
  /\ filter IsClear
       (fst (opengl.ExecuteBeginRenderSubpass (constants := opengl.constants_h)
               (helpers := exampleHelpers) (environment := exampleEnvironment)
               exampleInPassState))
     = [opengl.glClearBufferfv opengl.GL_COLOR 0 red]
  /\ flat_map
       (fun k =>
          ClearsOfColorAttachment (constants := opengl.constants_h)
            (helpers := exampleHelpers) exampleRenderPass exampleFramebuffer 0
            (Z.of_nat k))
       (seq 0 (List.length exampleSubpassBodies))
     = [opengl.glClearBufferfv opengl.GL_COLOR 0 red].
Proof.
  cbv zeta.
  assert (Hkeep : Forall (Forall (fun command => KeepsSubpass command = true))
                    exampleSubpassBodies)
    by (repeat constructor).
  assert (Hcount : Z.of_nat (List.length exampleSubpassBodies) <= 2 ^ 32)
    by (cbn; discriminate).
  assert (Hrun : completes
                   (opengl.ExecuteCommands (constants := opengl.constants_h)
                      (helpers := exampleHelpers)
                      (environment := exampleEnvironment)
                      exampleRenderStream
                      (opengl.InitialState (environment := exampleEnvironment)))
                 = true)
    by (vm_compute; reflexivity).
  pose proof (clear_applied_once_on_first_subpass
                (constants := opengl.constants_h) (helpers := exampleHelpers)
                (environment := exampleEnvironment)
                exampleRenderPass exampleFramebuffer exampleSubpassBodies
                (opengl.InitialState (environment := exampleEnvironment)) _
                Hkeep Hcount
                (completes_value_of _
                   (opengl.InitialState (environment := exampleEnvironment)) Hrun))
    as (Hall & Hbegin & _ & _ & Hcolor & _).
  split; [exact Hkeep |]. split; [exact Hcount |]. split; [exact Hrun |].
  split; [| split].
  - etransitivity; [exact Hall |]. vm_compute. reflexivity.
  - etransitivity.
    + refine (Hbegin 0 exampleInPassState
                (value_of
                   (opengl.ExecuteBeginRenderSubpass
                      (constants := opengl.constants_h)
                      (helpers := exampleHelpers)
                      (environment := exampleEnvironment) exampleInPassState)
                   exampleInPassState)
                _ _).
      * repeat split.
      * apply completes_value_of. vm_compute. reflexivity.
    + vm_compute. reflexivity.
  - etransitivity; [exact (Hcolor 0) |]. vm_compute. reflexivity.
Defined.

(** Colour outputs 0 and 1 of the one subpass both refer to attachment 0,
    which is cleared on load. *)
Definition exampleSharedRenderPass : opengl.RenderPass :=
  {| opengl.GetSubpassInfo :=
       fun _ =>
         {| opengl.colorAttachmentsSet := 3;
            opengl.colorAttachments := fun _ => 0;
            opengl.depthStencilAttachmentSet := false;
            opengl.depthStencilAttachment := 0 |};
     opengl.GetAttachmentInfo :=
       fun _ =>
         {| opengl.format := opengl.R8G8B8A8Unorm;
            opengl.colorLoadOp := opengl.Clear;
            opengl.depthLoadOp := opengl.Load;
            opengl.stencilLoadOp := opengl.Load;
            opengl.firstSubpass := 0 |} |}.

(** C5 as stated fails.  The pass has one subpass, without commands, and one
    attachment, number 0, whose load operation is [Clear] and whose first
    subpass is 0; the subpass refers to it at output locations 0 and 1.  The
    pass is executed to its end, and the attachment is cleared twice, once at
    each location, not exactly once. *)
Lemma Clear_attachment_at_two_locations_cleared_twice :
  let info := opengl.GetSubpassInfo exampleSharedRenderPass 0 in
  let run :=
    opengl.ExecuteCommands (constants := opengl.constants_h)
      (helpers := exampleHelpers) (environment := exampleEnvironment)
      (RenderPassStream exampleSharedRenderPass exampleFramebuffer [[]])
      (opengl.InitialState (environment := exampleEnvironment)) in
  opengl.colorLoadOp (opengl.GetAttachmentInfo exampleSharedRenderPass 0)
  = opengl.Clear
  /\ opengl.firstSubpass (opengl.GetAttachmentInfo exampleSharedRenderPass 0) = 0
  /\ opengl.colorAttachments info 0 = 0
  /\ opengl.colorAttachments info 1 = 0
  /\ completes run = true
  /\ filter IsClear (fst run)
     = [opengl.glClearBufferfv opengl.GL_COLOR 0 red;
        opengl.glClearBufferfv opengl.GL_COLOR 1 red].
Proof. cbv zeta. repeat split; vm_compute; reflexivity. Qed.

(** * Further properties *)

(** ** Lists *)

Lemma last_cons {A : Type} (l : list A) (x d : A) : last (x :: l) d = last l x.
Proof.
  revert x d. induction l as [| a l IH]; intros x d; [reflexivity |].
  change (last (x :: a :: l) d) with (last (a :: l) d).
  rewrite !IH. reflexivity.
Qed.

Lemma filter_filter_and {A : Type} (f g : A -> bool) (l : list A) :
  filter f (filter g l) = filter (fun x => g x && f x) l.
Proof.
  induction l as [| x l IH]; [reflexivity |]. cbn [filter].
  destruct (g x); cbn [filter andb]; [destruct (f x) |]; rewrite IH; reflexivity.
Qed.

Lemma filter_none {A : Type} (f : A -> bool) (l : list A) :
  (forall x, f x = false) -> filter f l = [].
Proof.
  intros Hf. induction l as [| x l IH]; [reflexivity |].
  cbn [filter]. rewrite Hf. exact IH.
Qed.


(** ** Direct3D 12 buffers: usages, native states and barriers *)

Section BufferStates.
Import d3d12.
Import nxt.BufferUsageBit.
Context {usageBit : nxt.BufferUsageBit.values}.

(** The five native state bits a buffer can be given. *)
Definition BufferStateBits : Z :=
  Z.lor (Z.lor (Z.lor (Z.lor
    D3D12_RESOURCE_STATE_COPY_SOURCE
    D3D12_RESOURCE_STATE_COPY_DEST)
    D3D12_RESOURCE_STATE_VERTEX_AND_CONSTANT_BUFFER)
    D3D12_RESOURCE_STATE_INDEX_BUFFER)
    D3D12_RESOURCE_STATE_UNORDERED_ACCESS.

Lemma D3D12BufferUsage_map_bits (usage : Z) :
  D3D12BufferUsage (Z.lor usage (Z.lor MapRead MapWrite)) = D3D12BufferUsage usage.
Proof.
  destruct usage_bit_positions
    as (p0 & p1 & p2 & p3 & p4 & p5 & p6 & p7 & H0 & H1 & H2 & H3 & H4 & H5 & H6 & H7
        & Hr & Hnd).
  repeat match goal with
         | H : Forall _ (_ :: _) |- _ => inversion H; clear H; subst
         | H : NoDup (_ :: _) |- _ => inversion H; clear H; subst
         end.
  cbn [In] in *.
  unfold D3D12BufferUsage.
  rewrite !has_lor_r, !has_lor. rewrite H0, H1, H2, H3, H4, H5, H6, H7.
  rewrite !has_pow2 by assumption.
  repeat match goal with
         | |- context [?a =? ?b] =>
             destruct (Z.eqb_spec a b); [exfalso; intuition congruence |]
         end.
  rewrite !orb_false_r. reflexivity.
Qed.

(** X1.  [D3D12BufferUsage] sets each native state bit exactly when the
    usage holds the flag it stands for (one bit for [Vertex] and [Uniform]
    together), sets no other bit, and gives the same state whether or not
    the usage holds [MapRead] or [MapWrite]. *)
Theorem D3D12BufferUsage_state_bits (usage : Z) :
  has (D3D12BufferUsage usage) D3D12_RESOURCE_STATE_COPY_SOURCE = has usage TransferSrc
  /\ has (D3D12BufferUsage usage) D3D12_RESOURCE_STATE_COPY_DEST = has usage TransferDst
  /\ has (D3D12BufferUsage usage) D3D12_RESOURCE_STATE_VERTEX_AND_CONSTANT_BUFFER
     = has usage Vertex || has usage Uniform
  /\ has (D3D12BufferUsage usage) D3D12_RESOURCE_STATE_INDEX_BUFFER = has usage Index
  /\ has (D3D12BufferUsage usage) D3D12_RESOURCE_STATE_UNORDERED_ACCESS
     = has usage Storage
  /\ Z.land (D3D12BufferUsage usage) BufferStateBits = D3D12BufferUsage usage
  /\ D3D12BufferUsage (Z.lor usage (Z.lor MapRead MapWrite)) = D3D12BufferUsage usage.
Proof.
  split; [| split; [| split; [| split; [| split; [| split]]]]];
    try apply D3D12BufferUsage_map_bits;
    unfold D3D12BufferUsage; rewrite ?has_lor_r;
    destruct (has usage TransferSrc), (has usage TransferDst), (has usage Vertex),
      (has usage Uniform), (has usage Index), (has usage Storage);
    reflexivity.
Qed.

(** The calls recorded when the usage of a buffer goes from [current]
    through [targets], one request after the other: each request is passed
    to [TransitionUsageImpl] with the usage the previous one asked for. *)
Fixpoint Transitions (this : Buffer) (current : Z) (targets : list Z) : list Call :=
  match targets with
  | [] => []
  | target :: rest =>
      TransitionUsageImpl this current target ++ Transitions this target rest
  end.

(** The native state a resource is in after the recorded calls, starting
    from [state]; defined when every call is one transition barrier for
    sub-resource 0 of [resource] that starts in the state the resource is in
    and ends in another one. *)
Fixpoint Replay (resource : ID3D12Resource) (state : Z) (calls : list Call)
  : option Z :=
  match calls with
  | [] => Some state
  | ResourceBarrier numBarriers [barrier] :: rest =>
      if (numBarriers =? 1)
         && (Transition_pResource barrier =? resource)
         && (Transition_Subresource barrier =? 0)
         && (Transition_StateBefore barrier =? state)
         && negb (Transition_StateAfter barrier =? state)
      then Replay resource (Transition_StateAfter barrier) rest
      else None
  | _ => None
  end.

Lemma not_mappable (allowedUsage : Z) :
  has allowedUsage (Z.lor MapRead MapWrite) = false ->
  has allowedUsage MapRead = false /\ has allowedUsage MapWrite = false.
Proof. rewrite has_lor_r. apply orb_false_iff. Qed.

Lemma Replay_Transitions (this : Buffer) (targets : list Z) :
  has (GetAllowedUsage this) (Z.lor MapRead MapWrite) = false ->
  forall current : Z,
    Replay (mResource this) (D3D12BufferUsage current)
      (Transitions this current targets)
    = Some (D3D12BufferUsage (last targets current)).
Proof.
  intros Hmap. induction targets as [| target rest IH]; intros current.
  - reflexivity.
  - cbn [Transitions]. unfold TransitionUsageImpl.
    rewrite GetResourceTransitionBarrier_not_mappable by exact Hmap.
    rewrite last_cons.
    destruct (Z.eqb_spec (D3D12BufferUsage current) (D3D12BufferUsage target))
      as [Heq | Hne]; cbn [app].
    + rewrite Heq. apply IH.
    + cbn [Replay TransitionBarrier Transition_pResource Transition_Subresource
             Transition_StateBefore Transition_StateAfter].
      rewrite !Z.eqb_refl.
      destruct (Z.eqb_spec (D3D12BufferUsage target) (D3D12BufferUsage current));
        [congruence |].
      cbn [andb negb]. apply IH.
Qed.

(** X2.  For a buffer that is not mappable, the native state follows the
    usage: the resource is allocated on the default heap in the state of the
    initial usage, and the barriers recorded by any sequence of usage
    requests form a chain from that state, each a single transition of the
    buffer's own resource that starts where the previous one ended and ends
    in a different state, the last one ending in the state of the usage
    requested last. *)
Theorem native_state_follows_usage (Align : Z -> Z -> Z) (this : Buffer)
    (usage size : Z) (targets : list Z) :
  has (GetAllowedUsage this) (Z.lor MapRead MapWrite) = false ->
  (exists resourceDescriptor : D3D12_RESOURCE_DESC,
     Buffer_constructor Align (GetAllowedUsage this) usage size
     = Allocate D3D12_HEAP_TYPE_DEFAULT resourceDescriptor (D3D12BufferUsage usage))
  /\ Replay (mResource this) (D3D12BufferUsage usage)
       (Transitions this usage targets)
     = Some (D3D12BufferUsage (last targets usage)).
Proof.
  intros Hmap. split; [| apply Replay_Transitions, Hmap].
  destruct (not_mappable _ Hmap) as [Hread Hwrite].
  unfold Buffer_constructor, D3D12HeapType. rewrite Hread, Hwrite.
  eexists. reflexivity.
Qed.

(** A barrier with its two states exchanged. *)
Definition Reversed (barrier : D3D12_RESOURCE_BARRIER) : D3D12_RESOURCE_BARRIER :=
  {| Type_ := Type_ barrier;
     Flags_ := Flags_ barrier;
     Transition_pResource := Transition_pResource barrier;
     Transition_StateBefore := Transition_StateAfter barrier;
     Transition_StateAfter := Transition_StateBefore barrier;
     Transition_Subresource := Transition_Subresource barrier |}.

(** X3.  A transition and its reverse are elided together or not at all:
    [GetResourceTransitionBarrier] from [target] back to [current] returns
    [true] exactly when it does from [current] to [target], and then fills in
    the same barrier with the two states exchanged. *)
Theorem reverse_transition_mirrors (this : Buffer) (current target : Z) :
  GetResourceTransitionBarrier this target current
  = option_map Reversed (GetResourceTransitionBarrier this current target).
Proof.
  unfold GetResourceTransitionBarrier.
  destruct (has _ _); [reflexivity |].
  rewrite (Z.eqb_sym (D3D12BufferUsage target)).
  destruct (_ =? _); reflexivity.
Qed.

(** The resource descriptor handed to the allocator. *)
Definition AllocatedDescriptor (call : Call) : option D3D12_RESOURCE_DESC :=
  match call with
  | Allocate _ resourceDescriptor _ => Some resourceDescriptor
  | ResourceBarrier _ _ => None
  end.

Lemma has_subset (usage allowedUsage flag : Z) :
  Z.land usage allowedUsage = usage ->
  has usage flag = true -> has allowedUsage flag = true.
Proof.
  intros Hsub. rewrite !has_true_iff. intros Hflag Hnone. apply Hflag.
  rewrite <- Hsub, <- Z.land_assoc, Hnone. apply Z.land_0_r.
Qed.

(** X4.  A buffer can only reach the unordered-access state if its resource
    was created for it: when a usage within the allowed usage maps to a
    native state with [D3D12_RESOURCE_STATE_UNORDERED_ACCESS], the
    descriptor the constructor hands to the allocator carries
    [D3D12_RESOURCE_FLAG_ALLOW_UNORDERED_ACCESS]. *)
Theorem unordered_access_state_has_resource_flag (Align : Z -> Z -> Z)
    (allowedUsage initialUsage size usage : Z) :
  Z.land usage allowedUsage = usage ->
  has (D3D12BufferUsage usage) D3D12_RESOURCE_STATE_UNORDERED_ACCESS = true ->
  option_map Flags
    (AllocatedDescriptor (Buffer_constructor Align allowedUsage initialUsage size))
  = Some D3D12_RESOURCE_FLAG_ALLOW_UNORDERED_ACCESS.
Proof.
  intros Hsub Hstate.
  assert (Hstorage : has usage Storage = true).
  { revert Hstate. unfold D3D12BufferUsage.
    destruct (has usage TransferSrc), (has usage TransferDst),
      (has usage (Z.lor Vertex Uniform)), (has usage Index), (has usage Storage);
      cbn; congruence. }
  cbn [Buffer_constructor AllocatedDescriptor option_map Flags].
  unfold Buffer_constructor. cbn [AllocatedDescriptor option_map Flags].
  unfold D3D12ResourceFlags.
  rewrite (has_subset usage allowedUsage Storage Hsub Hstorage). reflexivity.
Qed.

End BufferStates.

(** [Align] as [common/Math.h] is used here: the next multiple of the
    alignment. *)
Definition exampleAlign (value alignment : Z) : Z :=
  (value + alignment - 1) / alignment * alignment.

(** The vertex buffer is copied into, then used as a uniform buffer, then as
    a vertex buffer again: two barriers, the step from uniform to vertex
    buffer being elided. *)
Lemma native_state_follows_usage_witness :
  has (d3d12.GetAllowedUsage exampleVertexBuffer) (Z.lor 1 2) = false
  /\ Transitions (usageBit := nxt.BufferUsageBit.header) exampleVertexBuffer 32
       [8; 64; 32]
     = [d3d12.ResourceBarrier 1
          [TransitionBarrier (usageBit := nxt.BufferUsageBit.header)
             exampleVertexBuffer 32 8];
        d3d12.ResourceBarrier 1
          [TransitionBarrier (usageBit := nxt.BufferUsageBit.header)
             exampleVertexBuffer 8 64]]
  /\ Replay 4096 1 (Transitions (usageBit := nxt.BufferUsageBit.header)
                      exampleVertexBuffer 32 [8; 64; 32])
     = Some 1.
Proof.
  split; [reflexivity | split; [reflexivity |]].
  exact (proj2 (@native_state_follows_usage nxt.BufferUsageBit.header exampleAlign
                  exampleVertexBuffer 32 256 [8; 64; 32] eq_refl)).
Defined.

(** A storage buffer that can be copied into: [Storage | TransferDst]. *)
Lemma unordered_access_state_has_resource_flag_witness :
  Z.land 128 (Z.lor 128 8) = 128
  /\ option_map d3d12.Flags
       (AllocatedDescriptor
          (d3d12.Buffer_constructor (usageBit := nxt.BufferUsageBit.header)
             exampleAlign (Z.lor 128 8) 8 1000))
     = Some 4.
Proof.
  split; [reflexivity |].
  exact (@unordered_access_state_has_resource_flag nxt.BufferUsageBit.header
           exampleAlign (Z.lor 128 8) 8 1000 128 eq_refl eq_refl).
Defined.

(** ** Direct3D 12: map-read requests from [MapReadAsyncImpl] to the
       callback *)

Section MapReadCallbacks.
Import d3d12.

(** The callback a request ends in. *)
Definition CallbackOf (request : Request) : Callback :=
  CallMapReadCallback (buffer request) (mapSerial request)
    NXT_BUFFER_MAP_READ_STATUS_SUCCESS (data request).

(** The requests handed to [Track] by [calls], in call order. *)
Definition Tracked (calls : list TrackerCall) : list Request :=
  flat_map (fun call =>
              match call with
              | CallTrack buffer mapSerial data _ =>
                  [{| buffer := buffer; mapSerial := mapSerial; data := data |}]
              | CallTick _ => []
              end) calls.

(** The requests waiting in the tracker, oldest first. *)
Definition Pending (this : MapReadRequestTracker) : list Request :=
  map snd (mInflightRequests this).

Lemma IterateUpTo_ClearUpTo {T : Type} (q : SerialQueue.t T) (serial : Serial) :
  SerialQueue.IterateUpTo q serial ++ map snd (SerialQueue.ClearUpTo q serial)
  = map snd q.
Proof.
  induction q as [| [s v] q IH]; [reflexivity |].
  cbn [SerialQueue.IterateUpTo SerialQueue.ClearUpTo].
  destruct (s <=? serial); cbn [app map snd]; [f_equal; exact IH | reflexivity].
Qed.

Lemma RunTracker_conserves (calls : list TrackerCall) :
  forall (this this' : MapReadRequestTracker) (callbacks : list Callback),
    RunTracker this calls = Some (this', callbacks) ->
    map CallbackOf (Pending this ++ Tracked calls)
    = callbacks ++ map CallbackOf (Pending this').
Proof.
  induction calls as [| [b m d s | finished] rest IH];
    intros this this' callbacks Hrun; cbn [RunTracker] in Hrun.
  - injection Hrun as <- <-. cbn. rewrite app_nil_r. reflexivity.
  - unfold Track in Hrun.
    destruct (SerialQueue.Enqueue _ _ s) as [q |] eqn:Eq; [| discriminate Hrun].
    unfold SerialQueue.Enqueue in Eq.
    destruct (ASSERT _); [| discriminate Eq]. injection Eq as <-.
    apply IH in Hrun. rewrite <- Hrun. f_equal.
    unfold Pending, Tracked. cbn [mInflightRequests flat_map].
    rewrite (map_app snd). cbn [map snd app].
    rewrite <- app_assoc. reflexivity.
  - unfold Tick in Hrun.
    destruct (RunTracker _ rest) as [[this'' callbacks''] |] eqn:Er;
      [| discriminate Hrun].
    injection Hrun as <- <-. apply IH in Er. unfold Pending in *.
    cbn [mInflightRequests] in Er.
    change (Tracked (CallTick finished :: rest)) with (Tracked rest).
    rewrite <- app_assoc, <- Er.
    rewrite <- (IterateUpTo_ClearUpTo (mInflightRequests this) finished).
    rewrite !map_app, <- !app_assoc. reflexivity.
Qed.

(** X5.  Over any run of [Track] and [Tick] calls on a fresh tracker, no
    request is lost, repeated or overtaken: the callbacks made so far,
    followed by those of the requests still waiting, are the callbacks of
    the tracked requests in the order of the [Track] calls, each with the
    buffer, map serial and data pointer it was tracked with and with the
    status [NXT_BUFFER_MAP_READ_STATUS_SUCCESS]. *)
Theorem callbacks_follow_track_order (calls : list TrackerCall)
    (this : MapReadRequestTracker) (callbacks : list Callback) :
  RunTracker MapReadRequestTracker_constructor calls = Some (this, callbacks) ->
  callbacks ++ map CallbackOf (Pending this) = map CallbackOf (Tracked calls).
Proof.
  intros Hrun. symmetry. exact (RunTracker_conserves _ _ _ _ Hrun).
Qed.

Lemma RunTracker_Ordered (calls : list TrackerCall) :
  forall (this this' : MapReadRequestTracker) (callbacks : list Callback),
    Ordered (mInflightRequests this) ->
    RunTracker this calls = Some (this', callbacks) ->
    Ordered (mInflightRequests this').
Proof.
  induction calls as [| [b m d s | finished] rest IH];
    intros this this' callbacks Hs Hrun; cbn [RunTracker] in Hrun.
  - injection Hrun as <- _. exact Hs.
  - unfold Track in Hrun.
    destruct (SerialQueue.Enqueue _ _ s) as [q |] eqn:Eq; [| discriminate Hrun].
    apply Enqueue_Ordered in Eq; [| exact Hs]. destruct Eq as [_ Hq].
    exact (IH {| mInflightRequests := q |} _ _ Hq Hrun).
  - unfold Tick in Hrun.
    destruct (RunTracker _ rest) as [[this'' callbacks''] |] eqn:Er;
      [| discriminate Hrun].
    injection Hrun as <- _.
    exact (IH {| mInflightRequests := SerialQueue.ClearUpTo _ finished |} _ _
             (proj2 (ClearUpTo_Ordered _ finished Hs)) Er).
Qed.

(** On an ordered queue [IterateUpTo] yields every item whose serial has
    been reached. *)
Lemma IterateUpTo_Ordered {T : Type} (q : SerialQueue.t T) (serial : Serial) :
  Ordered q ->
  SerialQueue.IterateUpTo q serial
  = map snd (filter (fun x => fst x <=? serial) q).
Proof.
  induction q as [| [s v] q IH]; intros Hs; [reflexivity |].
  apply StronglySorted_inv in Hs. destruct Hs as [Hs Ha].
  cbn [SerialQueue.IterateUpTo filter fst].
  destruct (Z.leb_spec s serial) as [Hle | Hgt]; cbn [map snd].
  - f_equal. apply IH, Hs.
  - replace (filter (fun x => fst x <=? serial) q) with (@nil (Serial * T));
      [reflexivity |].
    symmetry. clear IH Hs.
    induction Ha as [| [s' v'] q Hhead _ IHq]; [reflexivity |].
    cbn [filter fst] in *.
    destruct (Z.leb_spec s' serial); [lia | exact IHq].
Qed.

Lemma Tick_nothing_reached (q : SerialQueue.t Request) (serial : Serial) :
  Forall (fun x => serial < fst x) q ->
  Tick {| mInflightRequests := q |} serial = ({| mInflightRequests := q |}, []).
Proof.
  intros Hq. unfold Tick. cbn [mInflightRequests].
  destruct q as [| [s v] q]; [reflexivity |].
  inversion Hq; subst. cbn [fst] in *.
  cbn [SerialQueue.IterateUpTo SerialQueue.ClearUpTo].
  destruct (Z.leb_spec s serial); [lia | reflexivity].
Qed.

(** X6.  In any state a tracker can reach, [Tick] calls back exactly the
    waiting requests whose serial is at most [finishedSerial], oldest first,
    and keeps exactly the others; a second [Tick] with the same or an earlier
    serial then calls nothing and changes nothing. *)
Theorem Tick_calls_back_exactly_finished (calls : list TrackerCall)
    (this : MapReadRequestTracker) (callbacks : list Callback)
    (finishedSerial : Serial) :
  RunTracker MapReadRequestTracker_constructor calls = Some (this, callbacks) ->
  snd (Tick this finishedSerial)
  = map CallbackOf
      (map snd (filter (fun x => fst x <=? finishedSerial) (mInflightRequests this)))
  /\ mInflightRequests (fst (Tick this finishedSerial))
     = filter (fun x => finishedSerial <? fst x) (mInflightRequests this)
  /\ forall earlier : Serial,
       earlier <= finishedSerial ->
       Tick (fst (Tick this finishedSerial)) earlier
       = (fst (Tick this finishedSerial), []).
Proof.
  intros Hrun.
  assert (Hs : Ordered (mInflightRequests this)).
  { apply (RunTracker_Ordered calls MapReadRequestTracker_constructor this
             callbacks); [constructor | exact Hrun]. }
  destruct (ClearUpTo_Ordered (mInflightRequests this) finishedSerial Hs)
    as [Hclear _].
  unfold Tick at 1 2 3. cbn [fst snd mInflightRequests].
  split; [| split].
  - rewrite IterateUpTo_Ordered by exact Hs. reflexivity.
  - exact Hclear.
  - intros earlier Hearlier. unfold Tick at 1 2. cbn [fst].
    apply Tick_nothing_reached. rewrite Hclear.
    apply Forall_forall. intros x Hx. apply filter_In in Hx.
    destruct Hx as [_ Hx]. apply Z.ltb_lt in Hx. lia.
Qed.

Variable ASSERT_SUCCESS : HRESULT -> option unit.

(** X7.  A map-read request completes with the address of the first byte
    asked for.  When [MapReadAsyncImpl] returns, it has mapped sub-resource 0
    of the buffer's resource once, for the range that starts at [start]; a
    [Tick] that has reached the device serial of the request then empties
    the tracker and ends with the callback of this buffer, with the map
    serial of the request, the status success and the pointer [data + start];
    a [Tick] that has not reached it makes the callbacks it would have made
    without the request. *)
Theorem MapReadAsyncImpl_calls_back_with_data_at_start
    (tracker tracker' : MapReadRequestTracker) (this : Z)
    (resource : ID3D12Resource) (serial start count : Z)
    (hr : HRESULT) (data : Z) (deviceSerial : Serial) :
  Ordered (mInflightRequests tracker) ->
  snd (MapReadAsyncImpl ASSERT_SUCCESS tracker this resource serial start count
         hr data deviceSerial) = Some tracker' ->
  fst (MapReadAsyncImpl ASSERT_SUCCESS tracker this resource serial start count
         hr data deviceSerial)
  = [Map resource 0 start ((start + count) mod 2 ^ 32)]
  /\ (forall finishedSerial : Serial,
        deviceSerial <= finishedSerial ->
        Tick tracker' finishedSerial
        = ({| mInflightRequests := [] |},
           snd (Tick tracker finishedSerial)
           ++ [CallMapReadCallback this serial NXT_BUFFER_MAP_READ_STATUS_SUCCESS
                 (data + start)]))
  /\ (forall finishedSerial : Serial,
        finishedSerial < deviceSerial ->
        snd (Tick tracker' finishedSerial) = snd (Tick tracker finishedSerial)).
Proof.
  intros Hs Hrun. unfold MapReadAsyncImpl in *.
  destruct (ASSERT_SUCCESS hr); cbn [fst snd] in *; [| discriminate Hrun].
  split; [reflexivity |].
  unfold Track in Hrun.
  destruct (SerialQueue.Enqueue _ _ deviceSerial) as [q |] eqn:Eq;
    [| discriminate Hrun].
  injection Hrun as <-.
  pose proof Eq as Hlast. unfold SerialQueue.Enqueue in Hlast.
  destruct (SerialQueue.LastSerial (mInflightRequests tracker)) as [last |] eqn:El.
  2:{ assert (Hempty : mInflightRequests tracker = []).
      { destruct (mInflightRequests tracker) as [| a l]; [reflexivity |].
        unfold SerialQueue.LastSerial in El. cbn [rev] in El.
        destruct (rev l ++ [a]) as [| [s v] r] eqn:E; [| discriminate El].
        destruct (rev l); discriminate E. }
      apply Enqueue_Ordered in Eq; [| exact Hs]. destruct Eq as [-> _].
      unfold Tick. cbn [mInflightRequests fst snd]. rewrite Hempty.
      cbn [app SerialQueue.IterateUpTo SerialQueue.ClearUpTo fst map].
      split; intros finishedSerial Hf.
      - destruct (Z.leb_spec deviceSerial finishedSerial); [| lia]. reflexivity.
      - destruct (Z.leb_spec deviceSerial finishedSerial); [lia |]. reflexivity. }
  destruct (Z.leb_spec last deviceSerial) as [Hle | Hgt]; cbn in Hlast;
    [| discriminate Hlast].
  clear Hlast.
  pose proof (Ordered_last_bounds _ _ Hs El) as Hbound.
  apply Enqueue_Ordered in Eq; [| exact Hs]. destruct Eq as [-> Hq].
  unfold Tick. cbn [mInflightRequests fst snd].
  split; intros finishedSerial Hf.
  - assert (Hall : forall l : SerialQueue.t Request,
              Forall (fun x => fst x <= last) l ->
              SerialQueue.IterateUpTo
                (l ++ [(deviceSerial,
                        {| buffer := this; mapSerial := serial;
                           data := data + start |})]) finishedSerial
              = SerialQueue.IterateUpTo l finishedSerial
                ++ [{| buffer := this; mapSerial := serial; data := data + start |}]
              /\ SerialQueue.ClearUpTo
                   (l ++ [(deviceSerial,
                           {| buffer := this; mapSerial := serial;
                              data := data + start |})]) finishedSerial
                 = []).
    { induction l as [| [s v] l IHl]; intros Hl;
        cbn [app SerialQueue.IterateUpTo SerialQueue.ClearUpTo].
      - destruct (Z.leb_spec deviceSerial finishedSerial); [| lia].
        split; reflexivity.
      - inversion Hl; subst. cbn [fst] in *.
        destruct (Z.leb_spec s finishedSerial); [| lia].
        destruct (IHl ltac:(assumption)) as [-> ->]. split; reflexivity. }
    destruct (Hall _ Hbound) as [-> ->]. rewrite map_app. reflexivity.
  - f_equal.
    assert (Hsame : forall l : SerialQueue.t Request,
              SerialQueue.IterateUpTo
                (l ++ [(deviceSerial,
                        {| buffer := this; mapSerial := serial;
                           data := data + start |})]) finishedSerial
              = SerialQueue.IterateUpTo l finishedSerial).
    { induction l as [| [s v] l IHl];
        cbn [app SerialQueue.IterateUpTo].
      - destruct (Z.leb_spec deviceSerial finishedSerial); [lia | reflexivity].
      - destruct (s <=? finishedSerial); [f_equal; exact IHl | reflexivity]. }
    apply Hsame.
Qed.

End MapReadCallbacks.

(** Two requests tracked at serials 3 and 5, then a [Tick] that has reached
    serial 4: the first is called back, the second waits. *)
Definition exampleTrackThenTick : list d3d12.TrackerCall :=
  [d3d12.CallTrack 4096 7 100 3; d3d12.CallTrack 8192 8 200 5; d3d12.CallTick 4].

Definition exampleWaitingTracker : d3d12.MapReadRequestTracker :=
  {| d3d12.mInflightRequests :=
       [(5, {| d3d12.buffer := 8192; d3d12.mapSerial := 8; d3d12.data := 200 |})] |}.

Lemma callbacks_follow_track_order_witness :
  d3d12.RunTracker d3d12.MapReadRequestTracker_constructor exampleTrackThenTick
  = Some (exampleWaitingTracker,
          [d3d12.CallMapReadCallback 4096 7
             d3d12.NXT_BUFFER_MAP_READ_STATUS_SUCCESS 100])
  /\ [d3d12.CallMapReadCallback 4096 7 d3d12.NXT_BUFFER_MAP_READ_STATUS_SUCCESS 100]
     ++ map CallbackOf (Pending exampleWaitingTracker)
     = map CallbackOf (Tracked exampleTrackThenTick).
Proof.
  split; [reflexivity |].
  exact (callbacks_follow_track_order exampleTrackThenTick exampleWaitingTracker
           _ eq_refl).
Defined.

Lemma Tick_calls_back_exactly_finished_witness :
  d3d12.RunTracker d3d12.MapReadRequestTracker_constructor exampleTrackThenTick
  = Some (exampleWaitingTracker,
          [d3d12.CallMapReadCallback 4096 7
             d3d12.NXT_BUFFER_MAP_READ_STATUS_SUCCESS 100])
  /\ snd (d3d12.Tick exampleWaitingTracker 6)
     = [d3d12.CallMapReadCallback 8192 8 d3d12.NXT_BUFFER_MAP_READ_STATUS_SUCCESS 200].
Proof.
  split; [reflexivity |].
  exact (proj1 (Tick_calls_back_exactly_finished exampleTrackThenTick
                  exampleWaitingTracker _ 6 eq_refl)).
Defined.

(** [ASSERT_SUCCESS] as an assertion that the [HRESULT] is not a failure
    code. *)
Definition exampleASSERT_SUCCESS (hr : d3d12.HRESULT) : option unit :=
  ASSERT (0 <=? hr).

(** Words 16 to 47 of a buffer mapped at address 65536 are asked for while
    the request of the example above is waiting. *)
Lemma MapReadAsyncImpl_calls_back_with_data_at_start_witness :
  Ordered (d3d12.mInflightRequests exampleWaitingTracker)
  /\ d3d12.MapReadAsyncImpl exampleASSERT_SUCCESS exampleWaitingTracker 4096 12288
       9 16 32 0 65536 6
     = ([d3d12.Map 12288 0 16 48],
        Some {| d3d12.mInflightRequests :=
                  [(5, {| d3d12.buffer := 8192; d3d12.mapSerial := 8;
                          d3d12.data := 200 |});
                   (6, {| d3d12.buffer := 4096; d3d12.mapSerial := 9;
                          d3d12.data := 65552 |})] |})
  /\ fst (d3d12.MapReadAsyncImpl exampleASSERT_SUCCESS exampleWaitingTracker 4096
            12288 9 16 32 0 65536 6)
     = [d3d12.Map 12288 0 16 ((16 + 32) mod 2 ^ 32)].
Proof.
  assert (Hordered : Ordered (d3d12.mInflightRequests exampleWaitingTracker)).
  { repeat constructor. }
  split; [exact Hordered | split; [reflexivity |]].
  exact (proj1 (MapReadAsyncImpl_calls_back_with_data_at_start
                  exampleASSERT_SUCCESS exampleWaitingTracker _ 4096 12288 9 16 32
                  0 65536 6 Hordered eq_refl)).
Defined.

(** ** Direct3D 12: blend states *)

Section BlendStateD3D12.
Import d3d12.

(** X8.  The translation of blend factors and blend operations loses
    nothing: two factors with the same D3D12 blend are the same factor, two
    operations with the same D3D12 blend operation are the same operation,
    and a translation reaches [UNREACHABLE()] only for a value outside the
    enumeration. *)
Theorem D3D12Blend_injective
    (factor factor' : nxt.BlendFactor.t) (operation operation' : nxt.BlendOperation.t) :
  (D3D12Blend factor <> None ->
   D3D12Blend factor = D3D12Blend factor' -> factor = factor')
  /\ (D3D12BlendOperation operation <> None ->
      D3D12BlendOperation operation = D3D12BlendOperation operation' ->
      operation = operation')
  /\ (D3D12Blend factor = None <-> exists value, factor = nxt.BlendFactor.other value)
  /\ (D3D12BlendOperation operation = None
      <-> exists value, operation = nxt.BlendOperation.other value).
Proof.
  split; [| split; [| split]].
  - destruct factor, factor'; cbn; intros Hsome Heq;
      try reflexivity; try discriminate Heq; contradiction Hsome; reflexivity.
  - destruct operation, operation'; cbn; intros Hsome Heq;
      try reflexivity; try discriminate Heq; contradiction Hsome; reflexivity.
  - destruct factor; cbn;
      (split;
       [intros H; try discriminate H; eexists; reflexivity
       | intros [v H]; try discriminate H; reflexivity]).
  - destruct operation; cbn;
      (split;
       [intros H; try discriminate H; eexists; reflexivity
       | intros [v H]; try discriminate H; reflexivity]).
Qed.

Lemma D3D12Blend_inj (factor factor' : nxt.BlendFactor.t) (blend : D3D12_BLEND) :
  D3D12Blend factor = Some blend -> D3D12Blend factor' = Some blend ->
  factor = factor'.
Proof.
  destruct factor, factor'; cbn; intros H H'; try discriminate H;
    try discriminate H'; try reflexivity;
    injection H as <-; discriminate H'.
Qed.

Lemma D3D12BlendOperation_inj (operation operation' : nxt.BlendOperation.t)
    (blendOp : D3D12_BLEND_OP) :
  D3D12BlendOperation operation = Some blendOp ->
  D3D12BlendOperation operation' = Some blendOp ->
  operation = operation'.
Proof.
  destruct operation, operation'; cbn; intros H H'; try discriminate H;
    try discriminate H'; try reflexivity;
    injection H as <-; discriminate H'.
Qed.

(** The six translations made by the constructor. *)
Lemma BlendState_constructor_Some (info : BlendInfo)
    (desc : D3D12_RENDER_TARGET_BLEND_DESC) :
  BlendState_constructor info = Some desc ->
  D3D12Blend (srcFactor (colorBlend info)) = Some (SrcBlend desc)
  /\ D3D12Blend (dstFactor (colorBlend info)) = Some (DestBlend desc)
  /\ D3D12BlendOperation (operation (colorBlend info)) = Some (BlendOp desc)
  /\ D3D12Blend (srcFactor (alphaBlend info)) = Some (SrcBlendAlpha desc)
  /\ D3D12Blend (dstFactor (alphaBlend info)) = Some (DestBlendAlpha desc)
  /\ D3D12BlendOperation (operation (alphaBlend info)) = Some (BlendOpAlpha desc)
  /\ BlendEnable desc = blendEnabled info
  /\ RenderTargetWriteMask desc = colorWriteMask info mod 2 ^ 8
  /\ LogicOpEnable desc = false
  /\ LogicOp desc = D3D12_LOGIC_OP_NOOP.
Proof.
  unfold BlendState_constructor.
  destruct (D3D12Blend (srcFactor (colorBlend info))); [| discriminate].
  destruct (D3D12Blend (dstFactor (colorBlend info))); [| discriminate].
  destruct (D3D12BlendOperation (operation (colorBlend info))); [| discriminate].
  destruct (D3D12Blend (srcFactor (alphaBlend info))); [| discriminate].
  destruct (D3D12Blend (dstFactor (alphaBlend info))); [| discriminate].
  destruct (D3D12BlendOperation (operation (alphaBlend info))); [| discriminate].
  intros H. injection H as <-. cbn. repeat split; reflexivity.
Qed.

(** X9.  The blend descriptor determines the blend state it was built from:
    two blend infos for which the constructor leaves the same descriptor
    agree on whether blending is enabled, on the operation and the two
    factors of the colour and of the alpha channel, and on the low eight
    bits of the colour write mask.  In every descriptor the constructor
    leaves, logic operations are disabled and the write mask fits in eight
    bits. *)
Theorem BlendState_descriptor_determines_info (info info' : BlendInfo)
    (desc : D3D12_RENDER_TARGET_BLEND_DESC) :
  BlendState_constructor info = Some desc ->
  BlendState_constructor info' = Some desc ->
  blendEnabled info = blendEnabled info'
  /\ colorBlend info = colorBlend info'
  /\ alphaBlend info = alphaBlend info'
  /\ colorWriteMask info mod 2 ^ 8 = colorWriteMask info' mod 2 ^ 8
  /\ LogicOpEnable desc = false
  /\ LogicOp desc = D3D12_LOGIC_OP_NOOP
  /\ 0 <= RenderTargetWriteMask desc < 2 ^ 8.
Proof.
  intros H H'.
  apply BlendState_constructor_Some in H, H'.
  destruct H as (Hcs & Hcd & Hco & Has & Had & Hao & He & Hm & Hl & Hn).
  destruct H' as (Hcs' & Hcd' & Hco' & Has' & Had' & Hao' & He' & Hm' & _ & _).
  pose proof (D3D12Blend_inj _ _ _ Hcs Hcs').
  pose proof (D3D12Blend_inj _ _ _ Hcd Hcd').
  pose proof (D3D12BlendOperation_inj _ _ _ Hco Hco').
  pose proof (D3D12Blend_inj _ _ _ Has Has').
  pose proof (D3D12Blend_inj _ _ _ Had Had').
  pose proof (D3D12BlendOperation_inj _ _ _ Hao Hao').
  repeat split; try congruence.
  - destruct (colorBlend info), (colorBlend info'); cbn in *; congruence.
  - destruct (alphaBlend info), (alphaBlend info'); cbn in *; congruence.
  - rewrite Hm. apply Z.mod_pos_bound. reflexivity.
  - rewrite Hm. apply Z.mod_pos_bound. reflexivity.
Qed.

Context {channels : nxt.ColorWriteMask.values}.
Import nxt.ColorWriteMask.

Lemma has_bit (mask position : Z) :
  0 <= position -> has mask (2 ^ position) = Z.testbit mask position.
Proof.
  intros Hp. unfold has.
  destruct (Z.testbit mask position) eqn:Hbit.
  - apply negb_true_iff, Z.eqb_neq. intros Hzero.
    assert (Hb : Z.testbit (Z.land mask (2 ^ position)) position = true).
    { rewrite Z.land_spec, Hbit, Z.pow2_bits_true by exact Hp. reflexivity. }
    rewrite Hzero, Z.bits_0 in Hb. discriminate Hb.
  - apply negb_false_iff, Z.eqb_eq. apply Z.bits_inj'. intros n Hn.
    rewrite Z.land_spec, Z.bits_0.
    destruct (Z.eq_dec n position) as [-> | Hne].
    + rewrite Hbit. reflexivity.
    + rewrite Z.pow2_bits_false by lia. apply andb_false_r.
Qed.

(** X10.  Under the four [static_assert]s of [D3D12RenderTargetWriteMask],
    the render-target write mask enables a channel in D3D12 exactly when the
    colour write mask enables it, for each of red, green, blue and alpha and
    whatever the other bits of the mask are; a mask below 256 is passed
    unchanged. *)
Theorem D3D12RenderTargetWriteMask_channels (colorWriteMask : Z) :
  Red = D3D12_COLOR_WRITE_ENABLE_RED ->
  Green = D3D12_COLOR_WRITE_ENABLE_GREEN ->
  Blue = D3D12_COLOR_WRITE_ENABLE_BLUE ->
  Alpha = D3D12_COLOR_WRITE_ENABLE_ALPHA ->
  has (D3D12RenderTargetWriteMask colorWriteMask) D3D12_COLOR_WRITE_ENABLE_RED
  = has colorWriteMask Red
  /\ has (D3D12RenderTargetWriteMask colorWriteMask) D3D12_COLOR_WRITE_ENABLE_GREEN
     = has colorWriteMask Green
  /\ has (D3D12RenderTargetWriteMask colorWriteMask) D3D12_COLOR_WRITE_ENABLE_BLUE
     = has colorWriteMask Blue
  /\ has (D3D12RenderTargetWriteMask colorWriteMask) D3D12_COLOR_WRITE_ENABLE_ALPHA
     = has colorWriteMask Alpha
  /\ (0 <= colorWriteMask < 2 ^ 8 ->
      D3D12RenderTargetWriteMask colorWriteMask = colorWriteMask).
Proof.
  intros -> -> -> ->. unfold D3D12RenderTargetWriteMask.
  change D3D12_COLOR_WRITE_ENABLE_RED with (2 ^ 0).
  change D3D12_COLOR_WRITE_ENABLE_GREEN with (2 ^ 1).
  change D3D12_COLOR_WRITE_ENABLE_BLUE with (2 ^ 2).
  change D3D12_COLOR_WRITE_ENABLE_ALPHA with (2 ^ 3).
  rewrite !has_bit by lia.
  rewrite !Z.mod_pow2_bits_low by lia.
  repeat split; try reflexivity.
  intros Hrange. apply Z.mod_small. exact Hrange.
Qed.

End BlendStateD3D12.

(** Alpha blending as it is usually set up, and the same state with the
    factors of the colour channel exchanged. *)
Definition exampleBlendInfo : d3d12.BlendInfo :=
  {| d3d12.blendEnabled := true;
     d3d12.alphaBlend :=
       {| d3d12.operation := nxt.BlendOperation.Add;
          d3d12.srcFactor := nxt.BlendFactor.One;
          d3d12.dstFactor := nxt.BlendFactor.Zero |};
     d3d12.colorBlend :=
       {| d3d12.operation := nxt.BlendOperation.Add;
          d3d12.srcFactor := nxt.BlendFactor.SrcAlpha;
          d3d12.dstFactor := nxt.BlendFactor.OneMinusSrcAlpha |};
     d3d12.colorWriteMask := 15 |}.

Definition exampleBlendDesc : d3d12.D3D12_RENDER_TARGET_BLEND_DESC :=
  {| d3d12.BlendEnable := true;
     d3d12.LogicOpEnable := false;
     d3d12.SrcBlend := 5;
     d3d12.DestBlend := 6;
     d3d12.BlendOp := 1;
     d3d12.SrcBlendAlpha := 2;
     d3d12.DestBlendAlpha := 1;
     d3d12.BlendOpAlpha := 1;
     d3d12.LogicOp := 4;
     d3d12.RenderTargetWriteMask := 15 |}.

Lemma D3D12Blend_injective_witness :
  d3d12.D3D12Blend nxt.BlendFactor.SrcAlpha <> None
  /\ nxt.BlendFactor.SrcAlpha = nxt.BlendFactor.SrcAlpha.
Proof.
  split; [discriminate |].
  exact (proj1 (D3D12Blend_injective nxt.BlendFactor.SrcAlpha
                  nxt.BlendFactor.SrcAlpha nxt.BlendOperation.Add
                  nxt.BlendOperation.Add)
           ltac:(discriminate) eq_refl).
Defined.

Lemma BlendState_descriptor_determines_info_witness :
  d3d12.BlendState_constructor exampleBlendInfo = Some exampleBlendDesc
  /\ d3d12.colorBlend exampleBlendInfo = d3d12.colorBlend exampleBlendInfo.
Proof.
  split; [reflexivity |].
  exact (proj1 (proj2 (BlendState_descriptor_determines_info exampleBlendInfo
                         exampleBlendInfo exampleBlendDesc eq_refl eq_refl))).
Defined.

(** The enumerators of [nxt::ColorWriteMask] in the generated header. *)
Definition exampleColorWriteMask : nxt.ColorWriteMask.values :=
  {| nxt.ColorWriteMask.Red := 1; nxt.ColorWriteMask.Green := 2;
     nxt.ColorWriteMask.Blue := 4; nxt.ColorWriteMask.Alpha := 8 |}.

(** Red and alpha only, with a stray high bit. *)
Lemma D3D12RenderTargetWriteMask_channels_witness :
  has (d3d12.D3D12RenderTargetWriteMask (256 + 9)) d3d12.D3D12_COLOR_WRITE_ENABLE_RED
  = has (256 + 9) (nxt.ColorWriteMask.Red (values := exampleColorWriteMask)).
Proof.
  exact (proj1 (@D3D12RenderTargetWriteMask_channels exampleColorWriteMask (256 + 9)
                  eq_refl eq_refl eq_refl eq_refl)).
Defined.

(** ** Vulkan: what the gathering functions leave in the info structures *)

Section VulkanGathered.
Import vulkan.
Variables VkPhysicalDeviceProperties VkPhysicalDeviceFeatures
  VkMemoryType VkMemoryHeap VkQueueFamilyProperties : Type.
Variable defaultQueueFamily : VkQueueFamilyProperties.

Let Driver : Type :=
  VulkanFunctions VkPhysicalDeviceProperties VkPhysicalDeviceFeatures
    VkMemoryType VkMemoryHeap VkQueueFamilyProperties.

Let DeviceInfo : Type :=
  VulkanDeviceInfo VkPhysicalDeviceProperties VkPhysicalDeviceFeatures
    VkMemoryType VkMemoryHeap VkQueueFamilyProperties.

(** A flag set in a loop over the names found. *)
Lemma found_in_loop {A : Type} (isName : A -> bool) (l : list A) (found : bool) :
  fold_left (fun found x => if isName x then true else found) l found
  = found || existsb isName l.
Proof.
  revert found. induction l as [| x l IH]; intros found; cbn [fold_left existsb].
  - symmetry. apply orb_false_r.
  - rewrite IH. destruct (isName x), found; reflexivity.
Qed.

Lemma substring_short (s : string) (n : nat) :
  (String.length s <= n)%nat -> substring 0 n s = s.
Proof.
  revert n. induction s as [| c s IH]; intros n Hn.
  - destruct n; reflexivity.
  - destruct n as [| n]; [cbn in Hn; lia |].
    cbn [substring]. f_equal. apply IH. cbn in Hn. lia.
Qed.

(** X11.  [IsLayerName] and [IsExtensionName] decide equality of names:
    for a property structure and a name that both fit in the
    [VK_MAX_EXTENSION_NAME_SIZE] characters that are compared, they return
    [true] exactly when the structure carries that name. *)
Theorem IsName_decides_equality (layer : VkLayerProperties)
    (extension : VkExtensionProperties) (name : string) :
  (String.length name <= VK_MAX_EXTENSION_NAME_SIZE)%nat ->
  (String.length (layerName layer) <= VK_MAX_EXTENSION_NAME_SIZE)%nat ->
  (String.length (extensionName extension) <= VK_MAX_EXTENSION_NAME_SIZE)%nat ->
  (IsLayerName layer name = true <-> layerName layer = name)
  /\ (IsExtensionName extension name = true <-> extensionName extension = name).
Proof.
  intros Hname Hlayer Hextension.
  unfold IsLayerName, IsExtensionName, strncmp_eq0.
  rewrite !substring_short by assumption.
  split; apply String.eqb_eq.
Qed.

Lemma vector_resize_length {A : Type} (default : A) (v : list A) (count : Z) :
  List.length (vector_resize default v count) = Z.to_nat count.
Proof.
  unfold vector_resize. rewrite length_firstn, length_app, repeat_length. lia.
Qed.

Lemma write_through_data_length {A : Type} (v written : list A) :
  List.length (write_through_data v written) = List.length v.
Proof.
  unfold write_through_data.
  rewrite length_firstn, length_app, length_skipn. lia.
Qed.

(** Names the outcome of every driver call that occurs in the goal. *)
Ltac name_outcomes fn :=
  repeat match goal with
         | |- context [fnEnumerateInstanceLayerProperties _ _ _ _ _ fn ?h ?c ?w] =>
             generalize (fnEnumerateInstanceLayerProperties _ _ _ _ _ fn h c w);
             intro
         | |- context [fnEnumerateInstanceExtensionProperties _ _ _ _ _ fn ?h ?c ?w] =>
             generalize (fnEnumerateInstanceExtensionProperties _ _ _ _ _ fn h c w);
             intro
         | |- context [fnEnumerateDeviceLayerProperties _ _ _ _ _ fn ?h ?p ?c ?w] =>
             generalize (fnEnumerateDeviceLayerProperties _ _ _ _ _ fn h p c w);
             intro
         | |- context [fnEnumerateDeviceExtensionProperties _ _ _ _ _ fn ?h ?p ?c ?w] =>
             generalize (fnEnumerateDeviceExtensionProperties _ _ _ _ _ fn h p c w);
             intro
         | |- context [fnGetPhysicalDeviceQueueFamilyProperties _ _ _ _ _ fn
                         ?h ?p ?c ?w] =>
             generalize (fnGetPhysicalDeviceQueueFamilyProperties _ _ _ _ _ fn
                           h p c w);
             intro
         | |- context [fnGetPhysicalDeviceMemoryProperties _ _ _ _ _ fn ?h ?p] =>
             generalize (fnGetPhysicalDeviceMemoryProperties _ _ _ _ _ fn h p);
             intro
         end.

Ltac split_on_result :=
  repeat match goal with
         | |- context [if negb (?a =? ?b) && _ then _ else _] =>
             destruct (a =? b) eqn:?; cbn [negb andb]
         | |- context [if negb (?a =? ?b) then _ else _] =>
             destruct (a =? b) eqn:?; cbn [negb andb]
         end.

(** X12.  [GatherGlobalInfo] never clears a flag of the info structure.
    When it returns [true] the layer and extension vectors have the lengths
    the count queries announced, and each flag is set exactly when it was
    set on entry or a gathered layer, respectively extension, carries the
    name looked for; when it returns [false] the two extension flags are as
    on entry. *)
Theorem GatherGlobalInfo_flags (fn : Driver) (history : list VkCall)
    (info : VulkanGlobalInfo) :
  let layerCount :=
    countOut _ (fnEnumerateInstanceLayerProperties _ _ _ _ _ fn history 0 false) in
  let extensionCount :=
    countOut _
      (fnEnumerateInstanceExtensionProperties _ _ _ _ _ fn
         (history ++ [EnumerateInstanceLayerProperties 0 false;
                      EnumerateInstanceLayerProperties layerCount true])
         0 false) in
  let run := GatherGlobalInfo _ _ _ _ _ fn history info in
  let ok := fst (fst run) in
  let gathered := snd (fst run) in
  implb (standardValidation info) (standardValidation gathered) = true
  /\ debugReport gathered
     = (if ok
        then debugReport info
             || existsb (fun extension =>
                           IsExtensionName extension kExtensionNameExtDebugReport)
                  (g_extensions gathered)
        else debugReport info)
  /\ surface gathered
     = (if ok
        then surface info
             || existsb (fun extension =>
                           IsExtensionName extension kExtensionNameKhrSurface)
                  (g_extensions gathered)
        else surface info)
  /\ (if ok
      then standardValidation gathered
           = standardValidation info
             || existsb (fun layer =>
                           IsLayerName layer kLayerNameLunargStandardValidation)
                  (g_layers gathered)
           /\ List.length (g_layers gathered) = Z.to_nat layerCount
           /\ List.length (g_extensions gathered) = Z.to_nat extensionCount
      else True).
Proof.
  intros layerCount extensionCount run ok gathered. subst ok gathered.
  destruct info as [layers extensions validation report surface_].
  pose proof (eq_refl run) as Hrun. unfold run at 2 in Hrun. clearbody run.
  cbv beta iota zeta
    delta [GatherGlobalInfo VkResult_neqb standardValidation debugReport surface
           g_layers g_extensions] in Hrun.
  subst layerCount extensionCount. revert Hrun. name_outcomes fn.
  split_on_result; intros ->;
    cbn [fst snd standardValidation debugReport surface g_layers g_extensions];
    rewrite ?found_in_loop, ?write_through_data_length, ?vector_resize_length;
    repeat split; try reflexivity;
    destruct validation; reflexivity.
Qed.

(** The physical device a call is about. *)
Definition PhysicalDeviceOf (call : VkCall) : option Z :=
  match call with
  | GetPhysicalDeviceProperties physicalDevice
  | GetPhysicalDeviceFeatures physicalDevice
  | GetPhysicalDeviceMemoryProperties physicalDevice
  | GetPhysicalDeviceQueueFamilyProperties physicalDevice _ _
  | EnumerateDeviceLayerProperties physicalDevice _ _
  | EnumerateDeviceExtensionProperties physicalDevice _ _ => Some physicalDevice
  | EnumerateInstanceLayerProperties _ _
  | EnumerateInstanceExtensionProperties _ _ => None
  end.

(** X13.  [GatherDeviceInfo] gathers the general information whatever
    follows: it always starts with the same five queries, and on return,
    [true] or [false], the info structure holds the properties, features,
    memory types and memory heaps the driver gave and as many queue families
    as the count query announced.  Every call it makes is about the physical
    device it was given.  The [swapchain] flag is as on entry when it returns
    [false]; when it returns [true] the flag is set exactly when it was set
    on entry or a gathered extension is [VK_KHR_swapchain]. *)
Theorem GatherDeviceInfo_general_info (fn : Driver) (history : list VkCall)
    (physicalDevice : Z) (info : DeviceInfo) :
  let callP := GetPhysicalDeviceProperties physicalDevice in
  let callF := GetPhysicalDeviceFeatures physicalDevice in
  let callM := GetPhysicalDeviceMemoryProperties physicalDevice in
  let callQ1 := GetPhysicalDeviceQueueFamilyProperties physicalDevice 0 false in
  let familyCount :=
    countOut _
      (fnGetPhysicalDeviceQueueFamilyProperties _ _ _ _ _ fn
         (history ++ [callP; callF; callM]) physicalDevice 0 false) in
  let callQ2 :=
    GetPhysicalDeviceQueueFamilyProperties physicalDevice familyCount true in
  let run :=
    GatherDeviceInfo _ _ _ _ _ defaultQueueFamily fn history physicalDevice info in
  let ok := fst (fst run) in
  let gathered := snd (fst run) in
  firstn 5 (snd run) = [callP; callF; callM; callQ1; callQ2]
  /\ Forall (fun call => PhysicalDeviceOf call = Some physicalDevice) (snd run)
  /\ properties _ _ _ _ _ gathered
     = fnGetPhysicalDeviceProperties _ _ _ _ _ fn history physicalDevice
  /\ features _ _ _ _ _ gathered
     = fnGetPhysicalDeviceFeatures _ _ _ _ _ fn (history ++ [callP]) physicalDevice
  /\ (memoryTypes _ _ _ _ _ gathered, memoryHeaps _ _ _ _ _ gathered)
     = fnGetPhysicalDeviceMemoryProperties _ _ _ _ _ fn (history ++ [callP; callF])
         physicalDevice
  /\ List.length (queueFamilies _ _ _ _ _ gathered) = Z.to_nat familyCount
  /\ swapchain _ _ _ _ _ gathered
     = (if ok
        then swapchain _ _ _ _ _ info
             || existsb (fun extension =>
                           IsExtensionName extension kExtensionNameKhrSwapchain)
                  (d_extensions _ _ _ _ _ gathered)
        else swapchain _ _ _ _ _ info).
Proof.
  intros callP callF callM callQ1 familyCount callQ2 run ok gathered.
  subst ok gathered.
  destruct info as [properties_ features_ types heaps families layers extensions
                      swapchain_].
  pose proof (eq_refl run) as Hrun. unfold run at 2 in Hrun. clearbody run.
  cbv beta iota zeta
    delta [GatherDeviceInfo VkResult_neqb properties features memoryTypes
           memoryHeaps queueFamilies d_layers d_extensions swapchain] in Hrun.
  subst callQ2 familyCount callQ1 callM callF callP. revert Hrun.
  name_outcomes fn.
  split_on_result; intros ->;
    cbn [fst snd properties features memoryTypes memoryHeaps queueFamilies
         d_layers d_extensions swapchain app firstn];
    rewrite ?found_in_loop, ?write_through_data_length, ?vector_resize_length;
    (split; [reflexivity |]);
    (split; [repeat constructor |]);
    repeat split; try reflexivity;
    symmetry; apply surjective_pairing.
Qed.

End VulkanGathered.

(** ** Vulkan: the physical devices *)

Section VulkanPhysicalDevices.
Import vulkan.


Lemma write_through_data_prefix {A : Type} (v written : list A) :
  firstn (List.length written) (write_through_data v written)
  = firstn (List.length v) written.
Proof.
  unfold write_through_data. rewrite firstn_firstn, firstn_app.
  replace (Nat.min (List.length written) (List.length v) - List.length written)%nat
    with 0%nat by lia.
  cbn [firstn]. rewrite app_nil_r.
  destruct (Nat.le_gt_cases (List.length written) (List.length v)) as [Hle | Hgt].
  - rewrite Nat.min_l by exact Hle.
    rewrite firstn_all, firstn_all2 by exact Hle. reflexivity.
  - rewrite Nat.min_r by lia. reflexivity.
Qed.

(** X14.  [GetPhysicalDevices] returns [true] exactly when the count query
    returned [VK_SUCCESS] or [VK_INCOMPLETE] and the query for the devices
    returned [VK_SUCCESS].  It asks for the devices only after a count query
    that it accepts, with the count that query announced, and asks nothing
    after that.  When the count query is refused the vector is left as it
    was; otherwise the vector has the announced length on return, whether
    [true] or [false] is returned, and starts with the devices the driver
    wrote. *)
Theorem GetPhysicalDevices_outcome
    (fn : list InstanceCall -> Z -> Z -> bool -> Outcome Z)
    (history : list InstanceCall) (instance : Z) (physicalDevices : list Z) :
  let call1 := EnumeratePhysicalDevices instance 0 false in
  let out1 := fn history instance 0 false in
  let count := countOut _ out1 in
  let call2 := EnumeratePhysicalDevices instance count true in
  let out2 := fn (history ++ [call1]) instance count true in
  let counted :=
    (result _ out1 =? VK_SUCCESS) || (result _ out1 =? VK_INCOMPLETE) in
  let run := GetPhysicalDevices fn history instance physicalDevices in
  fst (fst run) = counted && (result _ out2 =? VK_SUCCESS)
  /\ snd run = (if counted then [call1; call2] else [call1])
  /\ (if counted
      then List.length (snd (fst run)) = Z.to_nat count
           /\ firstn (List.length (written _ out2)) (snd (fst run))
              = firstn (Z.to_nat count) (written _ out2)
      else snd (fst run) = physicalDevices).
Proof.
  intros call1 out1 count call2 out2 counted run.
  subst run counted. unfold GetPhysicalDevices, VkResult_neqb. cbv zeta.
  fold call1. fold out1. fold count. fold call2. fold out2.
  destruct (result _ out1 =? VK_SUCCESS), (result _ out1 =? VK_INCOMPLETE),
    (result _ out2 =? VK_SUCCESS);
    cbn [negb andb orb fst snd];
    rewrite ?write_through_data_length, ?vector_resize_length;
    repeat split; try reflexivity;
    (etransitivity;
     [apply write_through_data_prefix
     | rewrite vector_resize_length; reflexivity]).
Qed.

End VulkanPhysicalDevices.

(** A layer record as the driver fills it in. *)
Definition exampleValidationLayer : vulkan.VkLayerProperties :=
  {| vulkan.layerName := "VK_LAYER_LUNARG_standard_validation"%string |}.

Definition exampleSwapchainExtension : vulkan.VkExtensionProperties :=
  {| vulkan.extensionName := "VK_KHR_swapchain"%string |}.

Lemma IsName_decides_equality_witness :
  vulkan.IsLayerName exampleValidationLayer
    vulkan.kLayerNameLunargStandardValidation = true
  <-> vulkan.layerName exampleValidationLayer
      = vulkan.kLayerNameLunargStandardValidation.
Proof.
  refine (proj1 (IsName_decides_equality exampleValidationLayer
                   exampleSwapchainExtension
                   vulkan.kLayerNameLunargStandardValidation _ _ _));
    apply Nat.leb_le; reflexivity.
Defined.

(** ** OpenGL: what reaches the driver between state changes and draws *)

Section PushConstantElision.
Import opengl.
Context {constants : Constants}.

(** The uniform call for push constant [constant] of [stage] with the value
    [value]. *)
Definition Uniform (pipeline glPipeline : Pipeline) (stage : ShaderStage)
    (constant value : Z) : Call :=
  let location := GetGLPushConstants glPipeline stage constant in
  match types (GetPushConstants pipeline stage) constant with
  | Int => glUniform1i location value
  | UInt => glUniform1ui location value
  | Float => glUniform1f location value
  end.

(** The slots of [stage] that [pipeline] consumes, lowest first. *)
Definition Consumed (pipeline : Pipeline) (stage : ShaderStage) : list Z :=
  filter (Z.testbit (mask (GetPushConstants pipeline stage)))
    (positions kMaxPushConstants).

Lemma UniformCall_Uniform (pipeline glPipeline : Pipeline)
    (this : PushConstantTracker) (stage : ShaderStage) (constant : Z) :
  UniformCall pipeline glPipeline this stage constant
  = Uniform pipeline glPipeline stage constant (mValues this stage constant).
Proof. reflexivity. Qed.

Lemma PushConstantTracker_Apply_calls (this : PushConstantTracker)
    (pipeline glPipeline : Pipeline) :
  fst (PushConstantTracker_Apply this (Some pipeline) (Some glPipeline))
  = flat_map
      (fun stage =>
         map (fun constant =>
                Uniform pipeline glPipeline stage constant
                  (mValues this stage constant))
           (DirtyAndConsumed this pipeline stage))
      [Vertex; Fragment; Compute]
  /\ exists this' : PushConstantTracker,
       snd (PushConstantTracker_Apply this (Some pipeline) (Some glPipeline))
       = Some this'
       /\ mValues this' = mValues this
       /\ forall stage : ShaderStage, mDirtyBits this' stage = 0.
Proof.
  unfold PushConstantTracker_Apply. rewrite IterateStages_kAllStages.
  cbn [for_each]. rewrite !ApplyStage_calls. cbn [bind ret].
  rewrite !ApplyStage_calls. cbn [bind ret mValues mDirtyBits].
  rewrite !ApplyStage_calls. cbn [bind ret mValues mDirtyBits fst snd flat_map].
  split.
  - unfold DirtyAndConsumed, UniformCall, Uniform. cbn [mValues mDirtyBits].
    rewrite !app_nil_r. reflexivity.
  - eexists. split; [reflexivity |]. split; [reflexivity |].
    intros stage. destruct stage; reflexivity.
Qed.

Lemma PushConstantTracker_Apply_run (this : PushConstantTracker)
    (pipeline glPipeline : Pipeline) :
  exists this' : PushConstantTracker,
    PushConstantTracker_Apply this (Some pipeline) (Some glPipeline)
    = (flat_map
         (fun stage =>
            map (fun constant =>
                   Uniform pipeline glPipeline stage constant
                     (mValues this stage constant))
              (DirtyAndConsumed this pipeline stage))
         [Vertex; Fragment; Compute],
       Some this')
    /\ mValues this' = mValues this
    /\ forall stage : ShaderStage, mDirtyBits this' stage = 0.
Proof.
  destruct (PushConstantTracker_Apply_calls this pipeline glPipeline)
    as (Hcalls & this' & Hrun & Hvalues & Hdirty).
  exists this'. split; [| split; assumption].
  rewrite <- Hcalls, <- Hrun. apply surjective_pairing.
Qed.

Lemma OnBeginPass_values (this : PushConstantTracker) :
  (forall (stage : ShaderStage) (constant : Z),
     mValues (PushConstantTracker_OnBeginPass this) stage constant = 0)
  /\ forall stage : ShaderStage,
       mDirtyBits (PushConstantTracker_OnBeginPass this) stage
       = mDirtyBits this stage.
Proof.
  unfold PushConstantTracker_OnBeginPass. rewrite IterateStages_kAllStages.
  cbn. split; intros stage; destruct stage; reflexivity.
Qed.

(** X15.  A pipeline switch re-sends every push constant the new pipeline
    consumes.  After [OnSetPipeline], which makes no call, [Apply] writes,
    stage by stage and lowest slot first, one uniform for each slot in the
    pipeline's mask, whatever was dirty before the switch, each with the
    value the tracker held before the switch; right after [OnBeginPass]
    these values are all zero. *)
Theorem pipeline_switch_resends_consumed_constants
    (this : PushConstantTracker) (pipeline glPipeline : Pipeline) :
  exists switched applied : PushConstantTracker,
    PushConstantTracker_OnSetPipeline this (Some pipeline) = ([], Some switched)
    /\ PushConstantTracker_Apply switched (Some pipeline) (Some glPipeline)
       = (flat_map
            (fun stage =>
               map (fun constant =>
                      Uniform pipeline glPipeline stage constant
                        (mValues this stage constant))
                 (Consumed pipeline stage))
            [Vertex; Fragment; Compute],
          Some applied)
    /\ forall (stage : ShaderStage) (constant : Z),
         mValues (PushConstantTracker_OnBeginPass this) stage constant = 0.
Proof.
  destruct (PushConstantTracker_OnSetPipeline_run this pipeline)
    as (switched & Hswitch & Hvalues & Hdirty).
  destruct (PushConstantTracker_Apply_run switched pipeline glPipeline)
    as (applied & Happly & _ & _).
  exists switched, applied. split; [exact Hswitch |].
  split; [| apply OnBeginPass_values].
  rewrite Happly, Hvalues. f_equal.
  assert (Hslots : forall stage : ShaderStage,
            DirtyAndConsumed switched pipeline stage = Consumed pipeline stage).
  { intros stage. unfold DirtyAndConsumed, Consumed. rewrite Hdirty.
    apply filter_ext. intros c. apply andb_diag. }
  cbn [flat_map]. rewrite !Hslots. reflexivity.
Qed.

(** X16.  Between two draws only the push constants that were set are
    sent again.  On a tracker without dirty bits, as [Apply] leaves it,
    [OnSetPushConstants] followed by [Apply] writes, for each stage of the
    command's stage mask and for no other stage, exactly the slots of
    [offset, offset + count) that the pipeline consumes, lowest first, each
    with the word of the command's data for that slot. *)
Theorem set_push_constants_sends_only_the_range
    (this set : PushConstantTracker) (pipeline glPipeline : Pipeline)
    (stages count offset : Z) (data : list Z) :
  0 <= count -> 0 <= offset ->
  (forall stage : ShaderStage, mDirtyBits this stage = 0) ->
  snd (PushConstantTracker_OnSetPushConstants this stages count offset data)
  = Some set ->
  fst (PushConstantTracker_Apply set (Some pipeline) (Some glPipeline))
  = flat_map
      (fun stage =>
         if Z.testbit stages (ShaderStage_index stage) then
           map (fun constant =>
                  Uniform pipeline glPipeline stage constant
                    (nth (Z.to_nat (constant - offset)) data 0))
             (filter (fun constant =>
                        (offset <=? constant) && (constant <? offset + count))
                (Consumed pipeline stage))
         else [])
      [Vertex; Fragment; Compute].
Proof.
  intros Hcount Hoffset Hclean Hset.
  destruct (PushConstantTracker_Apply_run set pipeline glPipeline)
    as (applied & -> & _ & _).
  cbn [fst].
  assert (Hstage : forall stage : ShaderStage,
            map (fun constant =>
                   Uniform pipeline glPipeline stage constant
                     (mValues set stage constant))
              (DirtyAndConsumed set pipeline stage)
            = if Z.testbit stages (ShaderStage_index stage) then
                map (fun constant =>
                       Uniform pipeline glPipeline stage constant
                         (nth (Z.to_nat (constant - offset)) data 0))
                  (filter (fun constant =>
                             (offset <=? constant) && (constant <? offset + count))
                     (Consumed pipeline stage))
              else []).
  { intros stage.
    pose proof (fun constant =>
                  OnSetPushConstants_stores_and_marks this set stages count offset
                    data Hcount Hoffset Hset stage constant) as Hslot.
    destruct (Z.testbit stages (ShaderStage_index stage)).
    - unfold Consumed. rewrite filter_filter_and.
      assert (Hslots :
                DirtyAndConsumed set pipeline stage
                = filter (fun x =>
                            Z.testbit (mask (GetPushConstants pipeline stage)) x
                            && ((offset <=? x) && (x <? offset + count)))
                    (positions kMaxPushConstants)).
      { unfold DirtyAndConsumed. apply filter_ext. intros c.
        destruct (Hslot c) as [_ ->]. rewrite Hclean, Z.bits_0.
        cbn [orb]. apply andb_comm. }
      rewrite Hslots. apply map_ext_in. intros c Hc.
      apply filter_In in Hc. destruct Hc as [_ Hc].
      apply andb_true_iff in Hc. destruct Hc as [_ Hrange].
      destruct (Hslot c) as [-> _]. rewrite Hrange. reflexivity.
    - unfold DirtyAndConsumed. rewrite filter_none; [reflexivity |].
      intros c. destruct (Hslot c) as [_ ->]. rewrite Hclean, Z.bits_0.
      reflexivity. }
  cbn [flat_map]. rewrite !Hstage. reflexivity.
Qed.

End PushConstantElision.

(** ** OpenGL: vertex buffers between draws *)

Section InputBufferElision.
Import opengl.
Context {constants : Constants} {helpers : Helpers}.

(** The slots [layout] declares live, lowest first. *)
Definition Live (layout : InputState) : list Z :=
  filter (Z.testbit (GetInputsSetMask layout)) (positions kMaxVertexInputs).

(** A tracker with nothing left to bind. *)
Definition NothingToBind (this : InputBufferTracker) : Prop :=
  mDirtyVertexBuffers this = 0
  /\ (mIndexBufferDirty this = false \/ mIndexBuffer this = None).

Lemma InputBufferTracker_Apply_calls (bound : InputBufferTracker) (layout : InputState) :
  mLastInputState bound = Some layout ->
  exists rest : list Call,
    BindIndexBuffer bound
    ++ flat_map (SlotCalls bound layout) (DirtyAndLive bound layout)
    = fst (InputBufferTracker_Apply bound) ++ rest
    /\ forall applied : InputBufferTracker,
         snd (InputBufferTracker_Apply bound) = Some applied ->
         rest = []
         /\ NothingToBind applied
         /\ mLastInputState applied = Some layout
         /\ mIndexBuffer applied = mIndexBuffer bound
         /\ mVertexBuffers applied = mVertexBuffers bound
         /\ mVertexBufferOffsets applied = mVertexBufferOffsets bound.
Proof.
  intros Hlast.
  destruct (InputBufferTracker_Apply_bindings bound layout Hlast)
    as (rest & Hcalls & Hrest).
  exists rest. split; [exact Hcalls |]. intros applied Happlied.
  destruct (Hrest applied Happlied)
    as (Hnil & _ & Hdirty & Hindex & Hkept).
  split; [exact Hnil |]. split; [split; assumption | exact Hkept].
Qed.

Lemma IterateBitSet_empty (N : nat) : IterateBitSet N 0 = [].
Proof.
  rewrite IterateBitSet_filter. induction (positions N) as [| x l IH];
    [reflexivity |].
  cbn [filter]. rewrite Z.bits_0. exact IH.
Qed.

(** With nothing to bind, [Apply] is silent. *)
Lemma InputBufferTracker_Apply_silent (this : InputBufferTracker) (layout : InputState) :
  mLastInputState this = Some layout ->
  NothingToBind this ->
  exists applied : InputBufferTracker,
    InputBufferTracker_Apply this = ([], Some applied)
    /\ NothingToBind applied
    /\ mLastInputState applied = Some layout.
Proof.
  intros Hlast [Hdirty Hindex]. unfold InputBufferTracker_Apply.
  assert (Hindexed :
            match mIndexBufferDirty this, mIndexBuffer this with
            | true, Some indexBuffer =>
                emit (glBindBuffer GL_ELEMENT_ARRAY_BUFFER
                        (Buffer_GetHandle indexBuffer)) ;;;
                ret {| mIndexBufferDirty := false;
                       mIndexBuffer := mIndexBuffer this;
                       mDirtyVertexBuffers := mDirtyVertexBuffers this;
                       mVertexBuffers := mVertexBuffers this;
                       mVertexBufferOffsets := mVertexBufferOffsets this;
                       mLastInputState := mLastInputState this |}
            | _, _ => ret this
            end = ret this).
  { destruct Hindex as [-> | ->]; [reflexivity |].
    destruct (mIndexBufferDirty this); reflexivity. }
  rewrite Hindexed, bind_ret_l, Hlast. cbn [deref]. rewrite bind_ret_l.
  rewrite Hdirty, Z.land_0_l, IterateBitSet_empty. cbn [for_each].
  rewrite bind_ret_l. eexists. split; [reflexivity |].
  unfold NothingToBind. cbn. auto.
Qed.

Lemma deref_Some {A : Type} (pointer : option A) (a : A) :
  snd (deref pointer) = Some a -> pointer = Some a.
Proof. destruct pointer; cbn; [intros H; exact H | discriminate]. Qed.

(** The slots and the two arrays after the loop of [OnSetVertexBuffers] has
    run [n] times without wrapping. *)
Lemma OnSetVertexBuffers_loop (this : InputBufferTracker) (startSlot : Z)
    (buffers : list Buffer) (offsets : list Z) (n : nat) :
  0 <= startSlot -> startSlot + Z.of_nat n <= 2 ^ 32 ->
  forall mid : InputBufferTracker,
    snd (for_each (map Z.of_nat (seq 0 n))
           (fun i this =>
              let slot := (startSlot + i) mod 2 ^ 32 in
              defined_when (slot <? Z.of_nat kMaxVertexInputs) ;;;
              buffer <- deref (nth_error buffers (Z.to_nat i)) ;;
              offset <- deref (nth_error offsets (Z.to_nat i)) ;;
              ret {| mIndexBufferDirty := mIndexBufferDirty this;
                     mIndexBuffer := mIndexBuffer this;
                     mDirtyVertexBuffers := mDirtyVertexBuffers this;
                     mVertexBuffers :=
                       array_set (mVertexBuffers this) slot (Some buffer);
                     mVertexBufferOffsets :=
                       array_set (mVertexBufferOffsets this) slot offset;
                     mLastInputState := mLastInputState this |})
           this) = Some mid ->
    forall slot : Z,
      if (startSlot <=? slot) && (slot <? startSlot + Z.of_nat n) then
        mVertexBuffers mid slot = nth_error buffers (Z.to_nat (slot - startSlot))
        /\ Some (mVertexBufferOffsets mid slot)
           = nth_error offsets (Z.to_nat (slot - startSlot))
        /\ mVertexBuffers mid slot <> None
      else
        mVertexBuffers mid slot = mVertexBuffers this slot
        /\ mVertexBufferOffsets mid slot = mVertexBufferOffsets this slot.
Proof.
  intros Hstart. induction n as [| n IH]; intros Hfits mid Hrun slot.
  - cbn in Hrun. injection Hrun as <-.
    destruct (Z.leb_spec startSlot slot), (Z.ltb_spec slot (startSlot + Z.of_nat 0));
      cbn [andb]; try lia; split; reflexivity.
  - rewrite seq_S, map_app, for_each_app in Hrun. cbn [Nat.add map] in Hrun.
    apply bind_Some in Hrun as (mid0 & Hprefix & Hlast).
    specialize (IH ltac:(lia) mid0 Hprefix slot).
    cbn [for_each] in Hlast. apply bind_Some in Hlast as (mid1 & Hbody & Hret).
    cbn [ret snd] in Hret. injection Hret as <-.
    cbv zeta in Hbody.
    apply bind_Some in Hbody as ([] & _ & Hbody).
    apply bind_Some in Hbody as (buffer & Hbuffer & Hbody).
    apply bind_Some in Hbody as (offset & Hoffset & Hbody).
    apply deref_Some in Hbuffer, Hoffset. rewrite Nat2Z.id in Hbuffer, Hoffset.
    cbn [ret snd] in Hbody. injection Hbody as <-.
    cbn [mVertexBuffers mVertexBufferOffsets]. unfold array_set.
    change (2 ^ 32) with 4294967296 in *.
    rewrite Z.mod_small by lia.
    destruct (Z.eqb_spec slot (startSlot + Z.of_nat n)) as [-> | Hne].
    + replace (startSlot + Z.of_nat n - startSlot) with (Z.of_nat n) by lia.
      rewrite Nat2Z.id.
      destruct (Z.leb_spec startSlot (startSlot + Z.of_nat n)); [| lia].
      destruct (Z.ltb_spec (startSlot + Z.of_nat n) (startSlot + Z.of_nat (S n)));
        [| lia].
      cbn [andb]. repeat split; [congruence | congruence | discriminate].
    + destruct (Z.leb_spec startSlot slot), (Z.ltb_spec slot (startSlot + Z.of_nat n)),
        (Z.ltb_spec slot (startSlot + Z.of_nat (S n)));
        cbn [andb] in *; try lia; exact IH.
Qed.

Lemma flat_map_ext_In {A B : Type} (f g : A -> list B) (l : list A) :
  (forall x : A, In x l -> f x = g x) -> flat_map f l = flat_map g l.
Proof.
  induction l as [| a l IH]; intros H; cbn [flat_map]; [reflexivity |].
  rewrite (H a) by (left; reflexivity). rewrite IH; [reflexivity |].
  intros x Hx. apply H. right. exact Hx.
Qed.

(** X17.  Between two draws only the vertex buffers that were set are bound
    again.  When [OnSetVertexBuffers] returns, the slots of
    [startSlot, startSlot + count) lie inside the arrays and hold the buffers
    and offsets of the command, in order, and the other slots hold what they
    held.  On a tracker with nothing left to bind, as [Apply] leaves it, a
    following [Apply] that completes makes these calls and no other: for
    each slot of that range that the bound layout declares live, lowest
    first, and each attribute fed from it, lowest location first,
    [glBindBuffer] of the buffer the command gave for the slot, then
    [glVertexAttribPointer] at the location with the offset the command gave
    for the slot added to that of the attribute. *)
Theorem set_vertex_buffers_binds_only_the_range
    (this set : InputBufferTracker) (layout : InputState) (startSlot count : Z)
    (buffers : list Buffer) (offsets : list Z) :
  0 <= count -> 0 <= startSlot < 2 ^ 32 ->
  NothingToBind this ->
  mLastInputState this = Some layout ->
  snd (InputBufferTracker_OnSetVertexBuffers this startSlot count buffers offsets)
  = Some set ->
  (0 < count -> startSlot + count <= Z.of_nat kMaxVertexInputs)
  /\ (forall slot : Z,
        if (startSlot <=? slot) && (slot <? startSlot + count) then
          mVertexBuffers set slot = nth_error buffers (Z.to_nat (slot - startSlot))
          /\ Some (mVertexBufferOffsets set slot)
             = nth_error offsets (Z.to_nat (slot - startSlot))
          /\ mVertexBuffers set slot <> None
        else
          mVertexBuffers set slot = mVertexBuffers this slot
          /\ mVertexBufferOffsets set slot = mVertexBufferOffsets this slot)
  /\ forall applied : InputBufferTracker,
       snd (InputBufferTracker_Apply set) = Some applied ->
       fst (InputBufferTracker_Apply set)
       = flat_map
           (fun slot =>
              match nth_error buffers (Z.to_nat (slot - startSlot)),
                    nth_error offsets (Z.to_nat (slot - startSlot)) with
              | Some buffer, Some offset =>
                  flat_map
                    (fun location =>
                       [glBindBuffer GL_ARRAY_BUFFER (Buffer_GetHandle buffer);
                        glVertexAttribPointer location
                          (VertexFormatNumComponents
                             (attribute_format (GetAttribute layout location)))
                          GL_FLOAT GL_FALSE
                          (input_stride (GetInput layout slot))
                          ((offset + attribute_offset (GetAttribute layout location))
                           mod 2 ^ 32)])
                    (AttributesUsing layout slot)
              | _, _ => []
              end)
           (filter (fun slot => (startSlot <=? slot) && (slot <? startSlot + count))
              (Live layout)).
Proof.
  intros Hcount Hstart [Hdirty Hindex] Hlast Hset.
  destruct (OnSetVertexBuffers_marks_range this set startSlot count buffers offsets
              Hcount Hstart Hset)
    as (Hinside & Hmarks & Hsetdirty & Hsetindex & Hsetlast).
  pose proof static_assert_vertex_inputs as Hmax.
  assert (Harrays :
            forall slot : Z,
              if (startSlot <=? slot) && (slot <? startSlot + count) then
                mVertexBuffers set slot
                = nth_error buffers (Z.to_nat (slot - startSlot))
                /\ Some (mVertexBufferOffsets set slot)
                   = nth_error offsets (Z.to_nat (slot - startSlot))
                /\ mVertexBuffers set slot <> None
              else
                mVertexBuffers set slot = mVertexBuffers this slot
                /\ mVertexBufferOffsets set slot = mVertexBufferOffsets this slot).
  { unfold InputBufferTracker_OnSetVertexBuffers in Hset.
    apply bind_Some in Hset as (mid & Hloop & Hret).
    cbn [ret snd] in Hret. injection Hret as <-.
    cbn [mVertexBuffers mVertexBufferOffsets].
    intros slot.
    pose proof (OnSetVertexBuffers_loop this startSlot buffers offsets
                  (Z.to_nat count) (proj1 Hstart)) as Harrays.
    change (2 ^ 32) with 4294967296 in *.
    assert (Hfits : startSlot + Z.of_nat (Z.to_nat count) <= 4294967296) by lia.
    specialize (Harrays Hfits mid Hloop slot).
    rewrite Z2Nat.id in Harrays by exact Hcount. exact Harrays. }
  split; [exact Hinside | split; [exact Harrays |]].
  intros applied Happlied.
  destruct (InputBufferTracker_Apply_bindings set layout) as (rest & Hcalls & Hrest).
  { rewrite Hsetlast. exact Hlast. }
  destruct (Hrest applied Happlied) as (-> & Hbound & _).
  rewrite app_nil_r in Hcalls. rewrite <- Hcalls.
  assert (Hnoindex : BindIndexBuffer set = []).
  { unfold BindIndexBuffer. rewrite Hsetdirty, Hsetindex.
    destruct Hindex as [-> | ->]; [reflexivity |].
    destruct (mIndexBufferDirty this); reflexivity. }
  rewrite Hnoindex. cbn [app].
  assert (Hslots :
            DirtyAndLive set layout
            = filter (fun slot => (startSlot <=? slot) && (slot <? startSlot + count))
                (Live layout)).
  { unfold DirtyAndLive, Live. rewrite filter_filter_and.
    apply filter_ext. intros slot. rewrite Hmarks, Hdirty, Z.bits_0.
    cbn [orb]. apply andb_comm. }
  rewrite <- Hslots. apply flat_map_ext_In. intros slot Hslot.
  pose proof (Harrays slot) as Hheld.
  assert (Hrange : (startSlot <=? slot) && (slot <? startSlot + count) = true).
  { rewrite Hslots in Hslot. apply filter_In in Hslot. apply Hslot. }
  rewrite Hrange in Hheld. destruct Hheld as (Hbuffer & Hoffset & _).
  rewrite <- Hbuffer, <- Hoffset. unfold SlotCalls.
  destruct (mVertexBuffers set slot) as [buffer |] eqn:Hheld.
  - apply flat_map_ext_In. intros location Hlocation.
    destruct (Hbound slot location Hslot Hlocation) as (buffer' & Hsame & ->).
    rewrite Hheld in Hsame. injection Hsame as <-. reflexivity.
  - destruct (AttributesUsing layout slot) as [| location locations] eqn:Hattributes;
      [reflexivity |].
    destruct (Hbound slot location Hslot) as (buffer' & Hsame & _).
    + rewrite Hattributes. left. reflexivity.
    + rewrite Hheld in Hsame. discriminate Hsame.
Qed.

End InputBufferElision.

(** ** OpenGL: draws and the pipeline *)

Section Draws.
Import opengl.
Context {constants : Constants} {helpers : Helpers} {environment : Environment}.

Definition IsDrawCommand (command : Command) : bool :=
  match command with
  | DrawArrays _ _ _ _ | DrawElements _ _ _ _ => true
  | _ => false
  end.

(** The commands that read the pipeline set last. *)
Definition ReadsPipeline (command : Command) : bool :=
  match command with
  | Dispatch _ _ _ | DrawArrays _ _ _ _ | DrawElements _ _ _ _
  | SetBindGroup _ _ => true
  | _ => false
  end.

Definition IsDrawCall (call : Call) : bool :=
  match call with
  | glDrawArraysInstancedBaseInstance _ _ _ _ _
  | glDrawArraysInstanced _ _ _ _
  | glDrawElementsInstancedBaseInstance _ _ _ _ _ _
  | glDrawElementsInstanced _ _ _ _ _ => true
  | _ => false
  end.

(** X18.  Work needs a pipeline.  A dispatch, a draw or a bind-group
    command executed when no pipeline has been set stops at once, before any
    call is made; a draw executed when no render pipeline has been set, for
    instance after a compute pipeline only, never completes and never
    reaches a draw call. *)
Theorem work_needs_a_pipeline (s : ExecuteState) (command : Command) :
  (ReadsPipeline command = true -> lastPipeline s = None ->
   ExecuteCommand command s = ([], None))
  /\ (IsDrawCommand command = true -> lastRenderPipeline s = None ->
      snd (ExecuteCommand command s) = None
      /\ Without IsDrawCall (fst (ExecuteCommand command s))).
Proof.
  split.
  - intros Hreads Hnone.
    destruct command; try discriminate Hreads; cbn [ExecuteCommand];
      unfold PushConstantTracker_Apply, PushConstantTracker_ApplyStage,
        ExecuteSetBindGroup;
      rewrite ?IterateStages_kAllStages, Hnone; reflexivity.
  - intros Hdraw Hnone.
    destruct command; try discriminate Hdraw; cbn [ExecuteCommand]; cbv zeta.
    + split.
      * rewrite bind_outcome.
        destruct (snd (PushConstantTracker_Apply _ _ _)); [| reflexivity].
        rewrite bind_outcome.
        destruct (snd (InputBufferTracker_Apply _)); [| reflexivity].
        cbn [lastRenderPipeline with_inputBuffers with_pushConstants].
        rewrite Hnone. reflexivity.
      * apply Without_bind;
          [apply PushConstantTracker_Apply_Without; intros; repeat split |].
        intros tracker. apply Without_bind.
        -- unfold InputBufferTracker_Apply, BindAttribute, VertexFormatType.
           without.
        -- intros tracker'.
           cbn [lastRenderPipeline with_inputBuffers with_pushConstants].
           rewrite Hnone. constructor.
    + split.
      * rewrite bind_outcome.
        destruct (snd (PushConstantTracker_Apply _ _ _)); [| reflexivity].
        rewrite bind_outcome.
        destruct (snd (InputBufferTracker_Apply _)); [| reflexivity].
        cbn [lastRenderPipeline with_inputBuffers with_pushConstants].
        rewrite Hnone. reflexivity.
      * apply Without_bind;
          [apply PushConstantTracker_Apply_Without; intros; repeat split |].
        intros tracker. apply Without_bind.
        -- unfold InputBufferTracker_Apply, BindAttribute, VertexFormatType.
           without.
        -- intros tracker'.
           cbn [lastRenderPipeline with_inputBuffers with_pushConstants].
           rewrite Hnone. constructor.
Qed.

Lemma bind_silent {A B : Type} (a : A) (k : A -> M B) :
  bind ([], Some a) k = k a.
Proof. exact (bind_ret_l a k). Qed.

Lemma PushConstantTracker_Apply_silent (this : PushConstantTracker)
    (pipeline glPipeline : Pipeline) :
  (forall stage : ShaderStage, mDirtyBits this stage = 0) ->
  exists applied : PushConstantTracker,
    PushConstantTracker_Apply this (Some pipeline) (Some glPipeline)
    = ([], Some applied)
    /\ forall stage : ShaderStage, mDirtyBits applied stage = 0.
Proof.
  intros Hclean.
  destruct (PushConstantTracker_Apply_run this pipeline glPipeline)
    as (applied & Hrun & _ & Hdirty).
  exists applied. split; [| exact Hdirty]. rewrite Hrun. f_equal.
  assert (Hnone : forall stage : ShaderStage,
            DirtyAndConsumed this pipeline stage = []).
  { intros stage. unfold DirtyAndConsumed. apply filter_none.
    intros c. rewrite Hclean, Z.bits_0. reflexivity. }
  cbn [flat_map]. rewrite !Hnone. reflexivity.
Qed.

Lemma PushConstantTracker_Apply_completed (this applied : PushConstantTracker)
    (pipeline glPipeline : option Pipeline) :
  snd (PushConstantTracker_Apply this pipeline glPipeline) = Some applied ->
  (exists P G : Pipeline, pipeline = Some P /\ glPipeline = Some G)
  /\ forall stage : ShaderStage, mDirtyBits applied stage = 0.
Proof.
  intros Hrun.
  assert (Hsome : exists P G : Pipeline, pipeline = Some P /\ glPipeline = Some G).
  { unfold PushConstantTracker_Apply in Hrun.
    rewrite IterateStages_kAllStages in Hrun. cbn [for_each] in Hrun.
    apply bind_Some in Hrun as (t & Hstage & _).
    unfold PushConstantTracker_ApplyStage in Hstage.
    destruct pipeline as [P |]; [| discriminate Hstage].
    destruct glPipeline as [G |]; [| discriminate Hstage].
    exists P, G. split; reflexivity. }
  split; [exact Hsome |].
  destruct Hsome as (P & G & -> & ->).
  destruct (PushConstantTracker_Apply_run this P G) as (applied' & Heq & _ & Hdirty).
  rewrite Heq in Hrun. cbn [snd] in Hrun. injection Hrun as <-. exact Hdirty.
Qed.

Lemma InputBufferTracker_Apply_completed (this applied : InputBufferTracker) :
  snd (InputBufferTracker_Apply this) = Some applied ->
  exists layout : InputState,
    mLastInputState applied = Some layout /\ NothingToBind applied.
Proof.
  intros Hrun.
  assert (Hlast : exists layout, mLastInputState this = Some layout).
  { unfold InputBufferTracker_Apply in Hrun.
    apply bind_Some in Hrun as (this1 & Hindex & Hrest).
    apply bind_Some in Hrest as (layout & Hlayout & _).
    apply deref_Some in Hlayout. exists layout. rewrite <- Hlayout.
    destruct (mIndexBufferDirty this), (mIndexBuffer this);
      cbn in Hindex; injection Hindex as <-; reflexivity. }
  destruct Hlast as (layout & Hlast).
  destruct (InputBufferTracker_Apply_calls this layout Hlast) as (rest & _ & Hrest).
  destruct (Hrest applied Hrun) as (_ & Hnothing & Hlayout & _).
  exists layout. split; assumption.
Qed.

(** The state a completed draw leaves: pipelines set, trackers clean. *)
Lemma draw_completed (first : Command) (s s' : ExecuteState) :
  IsDrawCommand first = true ->
  snd (ExecuteCommand first s) = Some s' ->
  (exists P G : Pipeline, lastPipeline s' = Some P /\ lastGLPipeline s' = Some G)
  /\ (exists renderPipeline, lastRenderPipeline s' = Some renderPipeline)
  /\ (forall stage : ShaderStage, mDirtyBits (pushConstants s') stage = 0)
  /\ exists layout : InputState,
       mLastInputState (inputBuffers s') = Some layout
       /\ NothingToBind (inputBuffers s').
Proof.
  intros Hdraw Hrun.
  destruct first; try discriminate Hdraw; cbn [ExecuteCommand] in Hrun;
    cbv zeta in Hrun.
  - apply bind_Some in Hrun as (t1 & Hpush & Hrun).
    apply bind_Some in Hrun as (t2 & Hinput & Hrun).
    apply bind_Some in Hrun as (renderPipeline & Hpipeline & Hrun).
    apply deref_Some in Hpipeline.
    apply bind_Some in Hrun as ([] & _ & Hrun).
    cbn [ret snd] in Hrun. injection Hrun as <-.
    cbn [lastPipeline lastGLPipeline lastRenderPipeline pushConstants inputBuffers
         with_inputBuffers with_pushConstants] in *.
    destruct (PushConstantTracker_Apply_completed _ _ _ _ Hpush) as [Hsome Hclean].
    repeat split; try assumption.
    + exists renderPipeline. exact Hpipeline.
    + apply InputBufferTracker_Apply_completed with (this := inputBuffers s).
      exact Hinput.
  - apply bind_Some in Hrun as (t1 & Hpush & Hrun).
    apply bind_Some in Hrun as (t2 & Hinput & Hrun).
    apply bind_Some in Hrun as (renderPipeline & Hpipeline & Hrun).
    apply deref_Some in Hpipeline.
    apply bind_Some in Hrun as (formatType & _ & Hrun).
    apply bind_Some in Hrun as ([] & _ & Hrun).
    cbn [ret snd] in Hrun. injection Hrun as <-.
    cbn [lastPipeline lastGLPipeline lastRenderPipeline pushConstants inputBuffers
         with_inputBuffers with_pushConstants] in *.
    destruct (PushConstantTracker_Apply_completed _ _ _ _ Hpush) as [Hsome Hclean].
    repeat split; try assumption.
    + exists renderPipeline. exact Hpipeline.
    + apply InputBufferTracker_Apply_completed with (this := inputBuffers s).
      exact Hinput.
Qed.

(** X19.  A draw that follows a draw only draws.  After a completed
    [DrawArrays] or [DrawElements], a [DrawArrays] command makes one call,
    the draw call itself, with the topology of the render pipeline and the
    base-instance variant exactly when [firstInstance] is positive: no
    uniform is written and no buffer is bound again. *)
Theorem draw_after_draw_only_draws (first : Command) (s s' : ExecuteState)
    (vertexCount instanceCount firstVertex firstInstance : Z) :
  IsDrawCommand first = true ->
  snd (ExecuteCommand first s) = Some s' ->
  exists (renderPipeline : RenderPipeline) (s'' : ExecuteState),
    lastRenderPipeline s' = Some renderPipeline
    /\ ExecuteCommand (DrawArrays vertexCount instanceCount firstVertex firstInstance)
         s'
       = ([if firstInstance >? 0
           then glDrawArraysInstancedBaseInstance
                  (GetGLPrimitiveTopology renderPipeline) firstVertex vertexCount
                  instanceCount firstInstance
           else glDrawArraysInstanced (GetGLPrimitiveTopology renderPipeline)
                  firstVertex vertexCount instanceCount],
          Some s'').
Proof.
  intros Hdraw Hrun.
  destruct (draw_completed first s s' Hdraw Hrun)
    as ((P & G & HP & HG) & (renderPipeline & Hpipeline) & Hclean
        & layout & Hlayout & Hnothing).
  destruct (PushConstantTracker_Apply_silent (pushConstants s') P G Hclean)
    as (t1 & Hpush & _).
  destruct (InputBufferTracker_Apply_silent (inputBuffers s') layout Hlayout Hnothing)
    as (t2 & Hinput & _).
  exists renderPipeline. eexists. split; [exact Hpipeline |].
  cbn [ExecuteCommand]. rewrite HP, HG, Hpush, bind_silent. cbv zeta.
  cbn [inputBuffers with_pushConstants]. rewrite Hinput, bind_silent.
  cbn [lastRenderPipeline with_inputBuffers with_pushConstants].
  rewrite Hpipeline. cbn [deref]. rewrite bind_ret_l.
  destruct (firstInstance >? 0); reflexivity.
Qed.

End Draws.

(** ** OpenGL: buffer bindings of the copies *)

Section PixelBuffers.
Import opengl.
Context {constants : Constants} {helpers : Helpers} {environment : Environment}.

Definition BindsTo (target : GLenum) (call : Call) : bool :=
  match call with
  | glBindBuffer target' _ => target' =? target
  | _ => false
  end.

(** The buffer bound to [target] by the last [glBindBuffer] for it among
    [calls], or [bound] when there is none. *)
Definition LastBound (target : GLenum) (bound : option GLuint) (calls : list Call)
  : option GLuint :=
  fold_left
    (fun bound call =>
       match call with
       | glBindBuffer target' buffer =>
           if target' =? target then Some buffer else bound
       | _ => bound
       end)
    calls bound.

Lemma LastBound_app (target : GLenum) (bound : option GLuint) (a b : list Call) :
  LastBound target bound (a ++ b) = LastBound target (LastBound target bound a) b.
Proof. apply fold_left_app. Qed.

Lemma LastBound_Without (target : GLenum) (bound : option GLuint) (calls : list Call) :
  Without (BindsTo target) calls -> LastBound target bound calls = bound.
Proof.
  induction 1 as [| call calls Hcall _ IH]; [reflexivity |].
  cbn [LastBound fold_left]. fold (LastBound target).
  destruct call; try exact IH. cbn [BindsTo] in Hcall. rewrite Hcall. exact IH.
Qed.

Definition IsPixelBufferTarget (target : GLenum) : Prop :=
  target = GL_PIXEL_PACK_BUFFER \/ target = GL_PIXEL_UNPACK_BUFFER.

(** Nothing, or nothing any more, is bound. *)
Definition Unbound (bound : option GLuint) : Prop :=
  bound = None \/ bound = Some 0.

Lemma ExecuteCommand_unbinds (command : Command) (s s' : ExecuteState)
    (target : GLenum) (bound : option GLuint) :
  IsPixelBufferTarget target -> Unbound bound ->
  snd (ExecuteCommand command s) = Some s' ->
  Unbound (LastBound target bound (fst (ExecuteCommand command s))).
Proof.
  intros Htarget Hbound Hrun.
  destruct command;
    try (rewrite LastBound_Without; [exact Hbound |];
         destruct Htarget as [-> | ->];
         unfold ExecuteCommand, ExecuteBeginRenderSubpass, ExecuteSetBindGroup,
           AttachColorBuffers, AttachDepthStencilBuffer, ClearColorAttachments,
           ClearDepthStencilAttachment, PushConstantTracker_Apply,
           PushConstantTracker_ApplyStage, PushConstantTracker_OnSetPipeline,
           PushConstantTracker_OnSetPushConstants, InputBufferTracker_Apply,
           InputBufferTracker_OnSetVertexBuffers, BindAttribute, IndexFormatType,
           VertexFormatType;
         cbv zeta; without; fail).
  - (* CopyBufferToBuffer *)
    destruct Htarget as [-> | ->]; right; reflexivity.
  - (* CopyBufferToTexture *)
    cbn [ExecuteCommand] in *. cbv zeta in *. unfold assert, defined_when in *.
    destruct (TextureDimension_eqb _ _); [| discriminate Hrun].
    destruct (negb _); [| discriminate Hrun].
    destruct Htarget as [-> | ->]; [| right; reflexivity].
    destruct Hbound as [-> | ->]; [left | right]; reflexivity.
  - (* CopyTextureToBuffer *)
    cbn [ExecuteCommand] in *. cbv zeta in *. unfold assert, defined_when in *.
    destruct (TextureDimension_eqb _ _); [| discriminate Hrun].
    destruct (negb _); [| discriminate Hrun].
    destruct (_ && _); [| discriminate Hrun].
    destruct Htarget as [-> | ->]; [right; reflexivity |].
    destruct Hbound as [-> | ->]; [left | right]; reflexivity.
Qed.

(** X20.  The copies leave no buffer bound to the pixel pack and unpack
    targets.  In the calls of any command stream executed to completion,
    from any state of the loop, the last [glBindBuffer] for
    [GL_PIXEL_PACK_BUFFER], if there is one, binds 0, and so does the last
    one for [GL_PIXEL_UNPACK_BUFFER]. *)
Theorem pixel_buffers_left_unbound (commands : list Command) (s s' : ExecuteState)
    (target : GLenum) :
  IsPixelBufferTarget target ->
  snd (ExecuteCommands commands s) = Some s' ->
  Unbound (LastBound target None (fst (ExecuteCommands commands s))).
Proof.
  intros Htarget. unfold ExecuteCommands.
  assert (Hgeneral : forall (s : ExecuteState) (bound : option GLuint),
            Unbound bound ->
            snd (for_each commands ExecuteCommand s) = Some s' ->
            Unbound (LastBound target bound
                       (fst (for_each commands ExecuteCommand s)))).
  { induction commands as [| command commands IH]; intros s0 bound Hbound Hrun.
    - exact Hbound.
    - cbn [for_each] in *. apply bind_Some in Hrun as (s1 & Hcommand & Hrest).
      rewrite bind_calls, Hcommand, LastBound_app.
      apply IH; [| exact Hrest].
      eapply ExecuteCommand_unbinds; eassumption. }
  apply Hgeneral. left. reflexivity.
Qed.

End PixelBuffers.

(** ** OpenGL: framebuffer objects of a subpass *)

Section Framebuffers.
Import opengl.
Context {constants : Constants} {helpers : Helpers} {environment : Environment}.

(** Takes a completed computation apart, pattern binds included. *)
Ltac unwind :=
  repeat match goal with
         | H : snd (bind _ _) = Some _ |- _ =>
             apply bind_Some in H; destruct H as (? & ? & H)
         | H : snd (ret _) = Some _ |- _ => injection H as <-
         | H : snd (if ?c then _ else _) = Some _ |- _ => destruct c
         | H : snd (let (_, _) := ?x in _) = Some _ |- _ => destruct x
         end.

(** The commands that neither begin nor end a subpass. *)
Definition InsideSubpass (command : Command) : bool :=
  match command with
  | BeginRenderSubpass | EndRenderSubpass => false
  | _ => true
  end.

Definition IsGenFramebuffers (call : Call) : bool :=
  match call with glGenFramebuffers _ _ => true | _ => false end.

Definition IsDeleteFramebuffers (call : Call) : bool :=
  match call with glDeleteFramebuffers _ _ => true | _ => false end.

(** As many framebuffers deleted as generated. *)
Definition Balanced (calls : list Call) : Prop :=
  List.length (filter IsGenFramebuffers calls)
  = List.length (filter IsDeleteFramebuffers calls).

Lemma Balanced_app (a b : list Call) : Balanced a -> Balanced b -> Balanced (a ++ b).
Proof.
  unfold Balanced. intros Ha Hb. rewrite !filter_app, !length_app. lia.
Qed.

Lemma Balanced_Without (calls : list Call) :
  Without IsGenFramebuffers calls -> Without IsDeleteFramebuffers calls ->
  Balanced calls.
Proof.
  intros Hgen Hdelete. unfold Balanced.
  rewrite (Without_filter _ _ Hgen), (Without_filter _ _ Hdelete). reflexivity.
Qed.

Ltac unfold_executor :=
  unfold ExecuteCommand, ExecuteBeginRenderSubpass, ExecuteSetBindGroup,
    AttachColorBuffers, AttachDepthStencilBuffer, ClearColorAttachments,
    ClearDepthStencilAttachment, PushConstantTracker_Apply,
    PushConstantTracker_ApplyStage, PushConstantTracker_OnSetPipeline,
    PushConstantTracker_OnSetPushConstants, InputBufferTracker_Apply,
    InputBufferTracker_OnSetVertexBuffers, BindAttribute, IndexFormatType,
    VertexFormatType;
  cbv zeta.

Lemma InsideSubpass_command (command : Command) (s s' : ExecuteState) :
  InsideSubpass command = true ->
  snd (ExecuteCommand command s) = Some s' ->
  currentFBO s' = currentFBO s
  /\ Balanced (fst (ExecuteCommand command s)).
Proof.
  intros Hinside Hrun. split.
  - destruct command; try discriminate Hinside; cbn [ExecuteCommand] in Hrun;
      cbv zeta in Hrun; unwind; reflexivity.
  - destruct command; try discriminate Hinside;
      try (apply Balanced_Without; unfold_executor; without; fail).
    (* CopyTextureToBuffer *)
    cbn [ExecuteCommand] in *. cbv zeta in *. unfold assert, defined_when in *.
    destruct (TextureDimension_eqb _ _); [| discriminate Hrun].
    destruct (negb _); [| discriminate Hrun].
    destruct (_ && _); [| discriminate Hrun].
    reflexivity.
Qed.

Lemma InsideSubpass_commands (body : list Command) :
  Forall (fun command => InsideSubpass command = true) body ->
  forall s s' : ExecuteState,
    snd (for_each body ExecuteCommand s) = Some s' ->
    currentFBO s' = currentFBO s
    /\ Balanced (fst (for_each body ExecuteCommand s)).
Proof.
  induction 1 as [| command body Hcommand _ IH]; intros s s' Hrun;
    cbn [for_each] in *.
  - injection Hrun as <-. split; reflexivity.
  - apply bind_Some in Hrun as (s1 & Hfirst & Hrest).
    destruct (InsideSubpass_command _ _ _ Hcommand Hfirst) as [Hfbo Hbalanced].
    destruct (IH _ _ Hrest) as [Hfbo' Hbalanced'].
    split; [congruence |].
    rewrite bind_calls, Hfirst. apply Balanced_app; assumption.
Qed.

Lemma ExecuteBeginRenderSubpass_framebuffer (s s1 : ExecuteState) :
  snd (ExecuteBeginRenderSubpass s) = Some s1 ->
  currentFBO s1 = GeneratedFramebuffer (framebuffersGenerated s)
  /\ exists rest : list Call,
       fst (ExecuteBeginRenderSubpass s)
       = glBindFramebuffer GL_READ_FRAMEBUFFER 0
         :: glGenFramebuffers 1 [GeneratedFramebuffer (framebuffersGenerated s)]
         :: glBindFramebuffer GL_DRAW_FRAMEBUFFER
              (GeneratedFramebuffer (framebuffersGenerated s))
         :: rest
       /\ Without IsGenFramebuffers rest
       /\ Without IsDeleteFramebuffers rest.
Proof.
  intros Hrun. split.
  - unfold ExecuteBeginRenderSubpass in Hrun. cbv zeta in Hrun.
    unwind. reflexivity.
  - unfold ExecuteBeginRenderSubpass. cbv zeta.
    rewrite (bind_emit (glBindFramebuffer GL_READ_FRAMEBUFFER 0)).
    rewrite (bind_emit (glGenFramebuffers _ _)).
    rewrite (bind_emit (glBindFramebuffer GL_DRAW_FRAMEBUFFER _)).
    cbn [fst]. eexists. split; [reflexivity |].
    split; unfold AttachColorBuffers, AttachDepthStencilBuffer,
      ClearColorAttachments, ClearDepthStencilAttachment; without.
Qed.

(** X21.  A subpass deletes the framebuffer object it generates.  In the
    calls of a completed subpass, [BeginRenderSubpass] to [EndRenderSubpass]
    with commands in between that neither begin nor end a subpass, the
    framebuffer generated first is bound for drawing and is the one deleted
    by the last call; as many framebuffers are deleted as are generated; and
    no framebuffer of the command buffer is current afterwards. *)
Theorem subpass_deletes_its_framebuffer (body : list Command)
    (s s' : ExecuteState) :
  Forall (fun command => InsideSubpass command = true) body ->
  snd (ExecuteCommands (BeginRenderSubpass :: body ++ [EndRenderSubpass]) s)
  = Some s' ->
  let generated := GeneratedFramebuffer (framebuffersGenerated s) in
  (exists middle : list Call,
     fst (ExecuteCommands (BeginRenderSubpass :: body ++ [EndRenderSubpass]) s)
     = glBindFramebuffer GL_READ_FRAMEBUFFER 0
       :: glGenFramebuffers 1 [generated]
       :: glBindFramebuffer GL_DRAW_FRAMEBUFFER generated
       :: middle ++ [glDeleteFramebuffers 1 [generated]])
  /\ Balanced
       (fst (ExecuteCommands (BeginRenderSubpass :: body ++ [EndRenderSubpass]) s))
  /\ currentFBO s' = 0.
Proof.
  intros Hbody Hrun generated. unfold ExecuteCommands in *.
  cbn [for_each] in *. apply bind_Some in Hrun as (s1 & Hbegin & Hrun).
  rewrite for_each_app in Hrun. apply bind_Some in Hrun as (s2 & Hmiddle & Hend).
  cbn [for_each ExecuteCommand] in Hend.
  apply bind_Some in Hend as (s3 & Hdelete & Hend).
  cbn [ret snd] in Hend. injection Hend as <-.
  apply bind_Some in Hdelete as ([] & _ & Hdelete).
  cbn [ret snd] in Hdelete. injection Hdelete as <-.
  change (ExecuteCommand BeginRenderSubpass s) with (ExecuteBeginRenderSubpass s)
    in *.
  destruct (ExecuteBeginRenderSubpass_framebuffer s s1 Hbegin)
    as (Hfbo & rest & Hcalls & Hnogen & Hnodelete).
  destruct (InsideSubpass_commands body Hbody s1 s2 Hmiddle) as [Hkept Hbalanced].
  assert (Hall :
            fst (bind (ExecuteBeginRenderSubpass s)
                   (fun s1 =>
                      for_each (body ++ [EndRenderSubpass]) ExecuteCommand s1))
            = glBindFramebuffer GL_READ_FRAMEBUFFER 0
              :: glGenFramebuffers 1 [generated]
              :: glBindFramebuffer GL_DRAW_FRAMEBUFFER generated
              :: (rest ++ fst (for_each body ExecuteCommand s1))
                 ++ [glDeleteFramebuffers 1 [generated]]).
  { rewrite bind_calls, Hbegin, Hcalls, for_each_app, bind_calls, Hmiddle.
    cbn [for_each ExecuteCommand]. rewrite bind_emit. cbn [fst ret app].
    rewrite Hkept, Hfbo, <- app_assoc. reflexivity. }
  split; [exists (rest ++ fst (for_each body ExecuteCommand s1)); exact Hall |].
  split; [| reflexivity].
  rewrite Hall. unfold Balanced in *. cbn [filter IsGenFramebuffers
    IsDeleteFramebuffers List.length].
  rewrite !filter_app, !length_app.
  rewrite (Without_filter _ _ Hnogen), (Without_filter _ _ Hnodelete).
  cbn [filter IsGenFramebuffers IsDeleteFramebuffers List.length]. lia.
Qed.

End Framebuffers.

(** ** OpenGL: colour attachments and draw buffers *)

Section DrawBuffers.
Import opengl.
Context {constants : Constants} {helpers : Helpers} {environment : Environment}.

Definition IsSetLocation (subpass : SubpassInfo) (location : Z) : bool :=
  (0 <=? location) && (location <? Z.of_nat kMaxColorAttachments)
  && Z.testbit (colorAttachmentsSet subpass) location.

(** The texture attached at a colour location. *)
Definition ColorTexture (subpass : SubpassInfo) (framebuffer : Framebuffer)
    (location : Z) : Texture :=
  TextureView_GetTexture
    (GetTextureView framebuffer (colorAttachments subpass location)).

Definition AttachColor (subpass : SubpassInfo) (framebuffer : Framebuffer)
    (location : Z) : Call :=
  glFramebufferTexture2D GL_DRAW_FRAMEBUFFER (GL_COLOR_ATTACHMENT0 + location)
    GL_TEXTURE_2D (Texture_GetHandle (ColorTexture subpass framebuffer location)) 0.

Lemma existsb_SetLocations (subpass : SubpassInfo) (location : Z) :
  existsb (Z.eqb location) (SetLocations subpass) = IsSetLocation subpass location.
Proof.
  apply eq_true_iff_eq. unfold IsSetLocation, SetLocations.
  rewrite existsb_exists, !andb_true_iff, Z.leb_le, Z.ltb_lt. split.
  - intros (x & Hx & Heq). apply Z.eqb_eq in Heq. subst x.
    apply filter_In in Hx. destruct Hx as [Hx Hbit].
    apply In_positions in Hx. repeat split; try lia; exact Hbit.
  - intros [[Hlow Hhigh] Hbit]. exists location. split; [| apply Z.eqb_refl].
    apply filter_In. split; [apply In_positions; lia | exact Hbit].
Qed.

Lemma positions_ascending (N : nat) : StronglySorted Z.lt (positions N).
Proof.
  unfold positions. generalize 0%nat as start.
  induction N as [| N IH]; intros start; cbn [seq map]; constructor.
  - apply IH.
  - apply Forall_forall. intros x Hx. apply in_map_iff in Hx.
    destruct Hx as (k & <- & Hk). apply in_seq in Hk. lia.
Qed.

Lemma filter_ascending (f : Z -> bool) (l : list Z) :
  StronglySorted Z.lt l -> StronglySorted Z.lt (filter f l).
Proof.
  induction 1 as [| x l _ IH Hx]; cbn [filter]; [constructor |].
  destruct (f x); [| exact IH]. constructor; [exact IH |].
  apply Forall_forall. intros y Hy. apply filter_In in Hy.
  rewrite Forall_forall in Hx. apply Hx, Hy.
Qed.

(** The count is one more than the last, and highest, location. *)
Lemma below_last_successor (locations : list Z) :
  StronglySorted Z.lt locations ->
  forall count : Z,
    Forall (fun location =>
              location < last (map (fun l => l + 1) locations) count)
      locations
    /\ (locations <> [] ->
        In (last (map (fun l => l + 1) locations) count - 1) locations).
Proof.
  induction 1 as [| x locations Hsorted IH Hx]; intros count.
  - split; [constructor | intros H; contradiction H; reflexivity].
  - cbn [map]. rewrite last_cons. destruct (IH (x + 1)) as [Hbelow Hin].
    split.
    + constructor; [| exact Hbelow].
      destruct locations as [| y locations]; [cbn; lia |].
      inversion Hbelow; subst. inversion Hx; subst. lia.
    + intros _. destruct locations as [| y locations].
      * left. cbn. lia.
      * right. apply Hin. discriminate.
Qed.

(** One turn of the loop over the colour attachments. *)
Definition AttachColorBuffer (subpass : SubpassInfo) (framebuffer : Framebuffer)
    (location : Z) (carried : (Z -> GLenum) * Z) : M ((Z -> GLenum) * Z) :=
  let '(drawBuffers, attachmentCount) := carried in
  let attachment := colorAttachments subpass location in
  framebuffer <- deref (Some framebuffer) ;;
  let textureView := GetTextureView framebuffer attachment in
  let texture := Texture_GetHandle (TextureView_GetTexture textureView) in
  emit (glFramebufferTexture2D GL_DRAW_FRAMEBUFFER
          (GL_COLOR_ATTACHMENT0 + location) GL_TEXTURE_2D texture 0) ;;;
  let drawBuffers :=
    array_set drawBuffers location (GL_COLOR_ATTACHMENT0 + location) in
  let attachmentCount := location + 1 in
  assert (TextureFormat_eqb
            (Texture_GetFormat (TextureView_GetTexture textureView))
            R8G8B8A8Unorm) ;;;
  ret (drawBuffers, attachmentCount).

Lemma AttachColorBuffers_turns (subpass : SubpassInfo) (framebuffer : Framebuffer) :
  AttachColorBuffers subpass (Some framebuffer)
  = for_each (SetLocations subpass) (AttachColorBuffer subpass framebuffer)
      (fun _ => GL_NONE, 0).
Proof.
  unfold AttachColorBuffers, SetLocations. rewrite IterateBitSet_filter.
  reflexivity.
Qed.

Lemma AttachColorBuffer_turn (subpass : SubpassInfo) (framebuffer : Framebuffer)
    (x : Z) (drawBuffers0 : Z -> GLenum) (count0 : Z) :
  AttachColorBuffer subpass framebuffer x (drawBuffers0, count0)
  = ([AttachColor subpass framebuffer x],
     if TextureFormat_eqb
          (Texture_GetFormat (ColorTexture subpass framebuffer x)) R8G8B8A8Unorm
     then Some (array_set drawBuffers0 x (GL_COLOR_ATTACHMENT0 + x), x + 1)
     else None).
Proof.
  unfold AttachColorBuffer, AttachColor, ColorTexture, assert.
  cbn [deref]. rewrite bind_ret_l. cbv zeta. rewrite bind_emit.
  destruct (TextureFormat_eqb _ _); reflexivity.
Qed.

Lemma AttachColorBuffers_loop (subpass : SubpassInfo) (framebuffer : Framebuffer)
    (locations : list Z) :
  forall (drawBuffers0 drawBuffers : Z -> GLenum) (count0 count : Z),
    snd (for_each locations (AttachColorBuffer subpass framebuffer)
           (drawBuffers0, count0)) = Some (drawBuffers, count) ->
    fst (for_each locations (AttachColorBuffer subpass framebuffer)
           (drawBuffers0, count0))
    = map (AttachColor subpass framebuffer) locations
    /\ (forall location : Z,
          drawBuffers location
          = if existsb (Z.eqb location) locations
            then GL_COLOR_ATTACHMENT0 + location
            else drawBuffers0 location)
    /\ count = last (map (fun l => l + 1) locations) count0
    /\ Forall (fun location =>
                 Texture_GetFormat (ColorTexture subpass framebuffer location)
                 = R8G8B8A8Unorm) locations.
Proof.
  induction locations as [| x locations IH];
    intros drawBuffers0 drawBuffers count0 count Hrun.
  - cbn in Hrun. injection Hrun as <- <-. repeat split. constructor.
  - cbn [for_each] in *. rewrite bind_calls. rewrite bind_outcome in Hrun.
    rewrite AttachColorBuffer_turn in *. cbn [fst snd] in *.
    destruct (TextureFormat_eqb _ _) eqn:Hformat; [| discriminate Hrun].
    destruct (IH _ _ _ _ Hrun) as (Hcalls & Hbuffers & Hcount & Hformats).
    rewrite Hcalls. cbn [app map]. split; [reflexivity |].
    split; [| split].
    + intros location. rewrite Hbuffers. cbn [existsb]. unfold array_set.
      destruct (Z.eqb_spec location x) as [-> | Hne]; cbn [orb].
      * destruct (existsb _ locations); reflexivity.
      * reflexivity.
    + rewrite last_cons. exact Hcount.
    + constructor; [| exact Hformats].
      destruct (Texture_GetFormat _); try discriminate Hformat. reflexivity.
Qed.

Definition IsDrawBuffers (call : Call) : bool :=
  match call with glDrawBuffers _ _ => true | _ => false end.

(** One more than the highest colour location the subpass has set, 0 when it
    has set none. *)
Definition HighestLocationBound (subpass : SubpassInfo) : Z :=
  fold_right Z.max 0 (map (fun location => location + 1) (SetLocations subpass)).

(** The draw buffer of a location: its colour attachment point when the
    subpass has set the location, [GL_NONE] otherwise. *)
Definition DrawBufferAt (subpass : SubpassInfo) (location : Z) : GLenum :=
  if IsSetLocation subpass location then GL_COLOR_ATTACHMENT0 + location
  else GL_NONE.

Lemma last_successor_highest (locations : list Z) :
  StronglySorted Z.lt locations ->
  forall count : Z,
    0 <= count -> Forall (fun location => count <= location + 1) locations ->
    last (map (fun l => l + 1) locations) count
    = Z.max count (fold_right Z.max 0 (map (fun l => l + 1) locations)).
Proof.
  induction 1 as [| x locations Hsorted IH Hx]; intros count Hcount Hbelow.
  - cbn. lia.
  - cbn [map fold_right]. rewrite last_cons.
    inversion Hbelow as [| ? ? Hfirst Hrest]; subst.
    rewrite IH; [lia | lia |].
    eapply Forall_impl; [| exact Hx]. cbv beta. intros y Hy. lia.
Qed.

Lemma HighestLocationBound_last (subpass : SubpassInfo) :
  last (map (fun l => l + 1) (SetLocations subpass)) 0
  = HighestLocationBound subpass.
Proof.
  unfold HighestLocationBound.
  rewrite last_successor_highest.
  - assert (H : 0 <= fold_right Z.max 0
                       (map (fun l => l + 1) (SetLocations subpass))).
    { induction (map _ (SetLocations subpass)); cbn; lia. }
    lia.
  - apply filter_ascending, positions_ascending.
  - lia.
  - apply Forall_forall. intros location Hlocation.
    apply filter_In in Hlocation. destruct Hlocation as [Hlocation _].
    apply In_positions in Hlocation. lia.
Qed.

(** X22.  What [glDrawBuffers] is given.  A [BeginRenderSubpass] that
    completes binds the framebuffer it generates, attaches the texture of
    each colour location the subpass has set, once and lowest location
    first, and then calls [glDrawBuffers], once.  The count it passes is one
    more than the highest set location, so it lies above every set location
    and is 0 when no location is set: it is not the number of attachments.
    The array it passes maps each set location [l] below the count to
    [GL_COLOR_ATTACHMENT0 + l] and every other index to [GL_NONE].  Every
    attached texture has the format R8G8B8A8Unorm. *)
Theorem draw_buffers_reach_highest_location
    (s s' : ExecuteState) (renderPass : RenderPass) (framebuffer : Framebuffer) :
  currentRenderPass s = Some renderPass ->
  currentFramebuffer s = Some framebuffer ->
  snd (ExecuteBeginRenderSubpass s) = Some s' ->
  let subpass := GetSubpassInfo renderPass (currentSubpass s) in
  let generated := GeneratedFramebuffer (framebuffersGenerated s) in
  let attachmentCount := HighestLocationBound subpass in
  (exists after : list Call,
     fst (ExecuteBeginRenderSubpass s)
     = [glBindFramebuffer GL_READ_FRAMEBUFFER 0;
        glGenFramebuffers 1 [generated];
        glBindFramebuffer GL_DRAW_FRAMEBUFFER generated]
       ++ map (AttachColor subpass framebuffer) (SetLocations subpass)
       ++ glDrawBuffers attachmentCount
            (map (DrawBufferAt subpass) (positions (Z.to_nat attachmentCount)))
          :: after
     /\ Without IsDrawBuffers after)
  /\ Forall (fun location => location < attachmentCount) (SetLocations subpass)
  /\ (SetLocations subpass = [] -> attachmentCount = 0)
  /\ (SetLocations subpass <> [] -> In (attachmentCount - 1) (SetLocations subpass))
  /\ Forall (fun location =>
               Texture_GetFormat (ColorTexture subpass framebuffer location)
               = R8G8B8A8Unorm) (SetLocations subpass).
Proof.
  intros Hpass Hframebuffer Hrun subpass generated attachmentCount.
  subst subpass generated attachmentCount.
  unfold ExecuteBeginRenderSubpass in *. cbv zeta in *.
  cbn [currentRenderPass currentFramebuffer currentSubpass currentFBO
       with_pushConstants with_inputBuffers framebuffersGenerated] in *.
  rewrite Hpass, Hframebuffer in *.
  set (generated := GeneratedFramebuffer (framebuffersGenerated s)) in *.
  rewrite (bind_emit (glBindFramebuffer GL_READ_FRAMEBUFFER 0)) in *.
  rewrite (bind_emit (glGenFramebuffers 1 [generated])) in *.
  rewrite (bind_emit (glBindFramebuffer GL_DRAW_FRAMEBUFFER generated)) in *.
  cbn [deref] in *. rewrite bind_ret_l in *. cbn [fst snd] in *.
  apply bind_Some in Hrun as ([drawBuffers count] & Hattach & _).
  rewrite bind_calls, Hattach.
  rewrite AttachColorBuffers_turns in *.
  destruct (AttachColorBuffers_loop _ _ _ _ _ _ _ Hattach)
    as (Hcalls & Hbuffers & Hcount & Hformats).
  assert (Hsorted : StronglySorted Z.lt
                      (SetLocations (GetSubpassInfo renderPass (currentSubpass s)))).
  { apply filter_ascending, positions_ascending. }
  destruct (below_last_successor _ Hsorted 0) as [Hbelow Hin].
  rewrite <- Hcount in Hbelow, Hin.
  rewrite HighestLocationBound_last in Hcount. subst count.
  split; [| split; [exact Hbelow | split; [| split; [exact Hin | exact Hformats]]]].
  - rewrite Hcalls.
    rewrite (bind_emit (glDrawBuffers _ _)). cbn [fst app].
    eexists. split.
    + unfold positions.
      rewrite (map_ext drawBuffers
                 (DrawBufferAt (GetSubpassInfo renderPass (currentSubpass s))));
        [reflexivity |].
      intros location. unfold DrawBufferAt.
      rewrite Hbuffers, existsb_SetLocations. reflexivity.
    + unfold AttachDepthStencilBuffer, ClearColorAttachments,
        ClearDepthStencilAttachment; without.
  - intros Hnone. unfold HighestLocationBound.
    rewrite Hnone. reflexivity.
Qed.

End DrawBuffers.

(** *** Examples for the properties above *)

(** A tracker as [Apply] leaves it in a fresh pass: no dirty bit, every
    value zero. *)
Definition cleanPushConstants : opengl.PushConstantTracker :=
  {| opengl.mValues := fun _ _ => 0; opengl.mDirtyBits := fun _ => 0 |}.

(** Constants 0 and 1 of the vertex stage are set to 5 and 6; the pipeline
    consumes constant 0 only. *)
Lemma set_push_constants_sends_only_the_range_witness :
  let set :=
    value_of
      (opengl.PushConstantTracker_OnSetPushConstants
         (constants := opengl.constants_h) cleanPushConstants 1 2 0 [5; 6])
      cleanPushConstants in
  fst (opengl.PushConstantTracker_Apply (constants := opengl.constants_h) set
         (Some examplePipeline) (Some examplePipeline))
  = flat_map
      (fun stage =>
         if Z.testbit 1 (opengl.ShaderStage_index stage) then
           map (fun constant =>
                  Uniform examplePipeline examplePipeline stage constant
                    (nth (Z.to_nat (constant - 0)) [5; 6] 0))
             (filter (fun constant => (0 <=? constant) && (constant <? 0 + 2))
                (Consumed (constants := opengl.constants_h) examplePipeline stage))
         else [])
      [opengl.Vertex; opengl.Fragment; opengl.Compute].
Proof.
  cbv zeta.
  apply (set_push_constants_sends_only_the_range
           (constants := opengl.constants_h) cleanPushConstants);
    [lia | lia | intros stage; reflexivity | vm_compute; reflexivity].
Defined.

(** The tracker after a draw with layout B. *)
Definition drawnInputBuffers : opengl.InputBufferTracker :=
  {| opengl.mIndexBufferDirty := false;
     opengl.mIndexBuffer := None;
     opengl.mDirtyVertexBuffers := 0;
     opengl.mVertexBuffers := fun slot => Some (vertexBuffer (10 + slot));
     opengl.mVertexBufferOffsets := fun _ => 0;
     opengl.mLastInputState := Some layoutB |}.

(** Buffers are set at slots 2, 3 and 4, at offsets 0, 32 and 64; layout B
    has slots 0, 2 and 4 live, which feed attributes 0, 1 and 2: the
    buffers of slots 2 and 4 are bound, each at its offset. *)
Lemma set_vertex_buffers_binds_only_the_range_witness :
  let set :=
    value_of
      (opengl.InputBufferTracker_OnSetVertexBuffers
         (constants := opengl.constants_h) drawnInputBuffers 2 3
         [vertexBuffer 22; vertexBuffer 23; vertexBuffer 24] [0; 32; 64])
      drawnInputBuffers in
  completes
    (opengl.InputBufferTracker_Apply (constants := opengl.constants_h)
       (helpers := exampleHelpers) set) = true
  /\ fst (opengl.InputBufferTracker_Apply (constants := opengl.constants_h)
            (helpers := exampleHelpers) set)
     = [opengl.glBindBuffer opengl.GL_ARRAY_BUFFER 22;
        opengl.glVertexAttribPointer 1 4 opengl.GL_FLOAT opengl.GL_FALSE 16 0;
        opengl.glBindBuffer opengl.GL_ARRAY_BUFFER 24;
        opengl.glVertexAttribPointer 2 4 opengl.GL_FLOAT opengl.GL_FALSE 16 64].
Proof.
  cbv zeta.
  assert (Hrun :
            completes
              (opengl.InputBufferTracker_Apply (constants := opengl.constants_h)
                 (helpers := exampleHelpers)
                 (value_of
                    (opengl.InputBufferTracker_OnSetVertexBuffers
                       (constants := opengl.constants_h) drawnInputBuffers 2 3
                       [vertexBuffer 22; vertexBuffer 23; vertexBuffer 24]
                       [0; 32; 64])
                    drawnInputBuffers)) = true)
    by (vm_compute; reflexivity).
  split; [exact Hrun |].
  assert (Hset :
            snd (opengl.InputBufferTracker_OnSetVertexBuffers
                   (constants := opengl.constants_h) drawnInputBuffers 2 3
                   [vertexBuffer 22; vertexBuffer 23; vertexBuffer 24] [0; 32; 64])
            = Some (value_of
                      (opengl.InputBufferTracker_OnSetVertexBuffers
                         (constants := opengl.constants_h) drawnInputBuffers 2 3
                         [vertexBuffer 22; vertexBuffer 23; vertexBuffer 24]
                         [0; 32; 64])
                      drawnInputBuffers))
    by (apply completes_value_of; vm_compute; reflexivity).
  rewrite (proj2 (proj2
             (set_vertex_buffers_binds_only_the_range
                (constants := opengl.constants_h) (helpers := exampleHelpers)
                drawnInputBuffers _ layoutB 2 3
                [vertexBuffer 22; vertexBuffer 23; vertexBuffer 24] [0; 32; 64]
                ltac:(lia) ltac:(split; [lia | reflexivity])
                ltac:(split; [reflexivity | left; reflexivity]) eq_refl Hset))
             _ (completes_value_of _ drawnInputBuffers Hrun)).
  vm_compute. reflexivity.
Defined.

(** A draw at the start of [Execute], before any pipeline is set. *)
Lemma work_needs_a_pipeline_witness :
  opengl.ExecuteCommand (constants := opengl.constants_h)
    (helpers := exampleHelpers) (environment := exampleEnvironment)
    (opengl.DrawArrays 3 1 0 0)
    (opengl.InitialState (environment := exampleEnvironment))
  = ([], None).
Proof.
  exact (proj1 (work_needs_a_pipeline (constants := opengl.constants_h)
                  (helpers := exampleHelpers) (environment := exampleEnvironment)
                  (opengl.InitialState (environment := exampleEnvironment))
                  (opengl.DrawArrays 3 1 0 0))
           eq_refl eq_refl).
Defined.

(** The state after the pipeline is set, a vertex buffer bound and a first
    triangle drawn. *)
Definition exampleDrawnState : opengl.ExecuteState :=
  value_of
    (opengl.ExecuteCommands (constants := opengl.constants_h)
       (helpers := exampleHelpers) (environment := exampleEnvironment)
       [opengl.SetRenderPipeline renderPipelineA;
        opengl.SetVertexBuffers 0 1 [vertexBuffer 10] [0]]
       (opengl.InitialState (environment := exampleEnvironment)))
    (opengl.InitialState (environment := exampleEnvironment)).

Lemma draw_after_draw_only_draws_witness :
  exists (renderPipeline : opengl.RenderPipeline) (s'' : opengl.ExecuteState),
    opengl.lastRenderPipeline
      (value_of
         (opengl.ExecuteCommand (constants := opengl.constants_h)
            (helpers := exampleHelpers) (environment := exampleEnvironment)
            (opengl.DrawArrays 3 1 0 0) exampleDrawnState)
         exampleDrawnState)
    = Some renderPipeline
    /\ opengl.ExecuteCommand (constants := opengl.constants_h)
         (helpers := exampleHelpers) (environment := exampleEnvironment)
         (opengl.DrawArrays 3 1 3 0)
         (value_of
            (opengl.ExecuteCommand (constants := opengl.constants_h)
               (helpers := exampleHelpers) (environment := exampleEnvironment)
               (opengl.DrawArrays 3 1 0 0) exampleDrawnState)
            exampleDrawnState)
       = ([if 0 >? 0
           then opengl.glDrawArraysInstancedBaseInstance
                  (opengl.GetGLPrimitiveTopology renderPipeline) 3 3 1 0
           else opengl.glDrawArraysInstanced
                  (opengl.GetGLPrimitiveTopology renderPipeline) 3 3 1],
          Some s'').
Proof.
  apply (draw_after_draw_only_draws (constants := opengl.constants_h)
           (helpers := exampleHelpers) (environment := exampleEnvironment)
           (opengl.DrawArrays 3 1 0 0) exampleDrawnState);
    [reflexivity | vm_compute; reflexivity].
Defined.

Definition exampleSubpassBody : list opengl.Command :=
  [opengl.SetRenderPipeline renderPipelineA;
   opengl.SetVertexBuffers 0 1 [vertexBuffer 10] [0];
   opengl.DrawArrays 3 1 0 0].

Lemma subpass_deletes_its_framebuffer_witness :
  Balanced
    (fst (opengl.ExecuteCommands (constants := opengl.constants_h)
            (helpers := exampleHelpers) (environment := exampleEnvironment)
            (opengl.BeginRenderSubpass
               :: exampleSubpassBody ++ [opengl.EndRenderSubpass])
            exampleInPassState)).
Proof.
  refine (proj1 (proj2
            (subpass_deletes_its_framebuffer (constants := opengl.constants_h)
               (helpers := exampleHelpers) (environment := exampleEnvironment)
               exampleSubpassBody exampleInPassState
               (value_of
                  (opengl.ExecuteCommands (constants := opengl.constants_h)
                     (helpers := exampleHelpers)
                     (environment := exampleEnvironment)
                     (opengl.BeginRenderSubpass
                        :: exampleSubpassBody ++ [opengl.EndRenderSubpass])
                     exampleInPassState)
                  exampleInPassState)
               _ _))).
  - repeat constructor.
  - vm_compute. reflexivity.
Defined.

(** Colour locations 0 and 2 set, location 1 not. *)
Definition exampleSparseSubpass : opengl.SubpassInfo :=
  {| opengl.colorAttachmentsSet := 5;
     opengl.colorAttachments := fun location => location;
     opengl.depthStencilAttachmentSet := false;
     opengl.depthStencilAttachment := 0 |}.

(** A render pass whose subpasses are all the sparse one, with attachments
    that are loaded. *)
Definition exampleSparseRenderPass : opengl.RenderPass :=
  {| opengl.GetSubpassInfo := fun _ => exampleSparseSubpass;
     opengl.GetAttachmentInfo :=
       fun _ =>
         {| opengl.format := opengl.R8G8B8A8Unorm;
            opengl.colorLoadOp := opengl.Load;
            opengl.depthLoadOp := opengl.Load;
            opengl.stencilLoadOp := opengl.Load;
            opengl.firstSubpass := 0 |} |}.

(** The state [BeginRenderPass] leaves for that render pass. *)
Definition exampleSparseState : opengl.ExecuteState :=
  value_of
    (opengl.ExecuteCommand (constants := opengl.constants_h)
       (helpers := exampleHelpers) (environment := exampleEnvironment)
       (opengl.BeginRenderPass exampleSparseRenderPass exampleFramebuffer)
       (opengl.InitialState (environment := exampleEnvironment)))
    (opengl.InitialState (environment := exampleEnvironment)).

(** Two attachments, at locations 0 and 2: [glDrawBuffers] is given the
    count 3 and an array whose entry 1 is [GL_NONE]. *)
Lemma draw_buffers_reach_highest_location_witness :
  let begin :=
    opengl.ExecuteBeginRenderSubpass (constants := opengl.constants_h)
      (helpers := exampleHelpers) (environment := exampleEnvironment)
      exampleSparseState in
  completes begin = true
  /\ exists after : list opengl.Call,
       fst begin
       = [opengl.glBindFramebuffer opengl.GL_READ_FRAMEBUFFER 0;
          opengl.glGenFramebuffers 1 [100];
          opengl.glBindFramebuffer opengl.GL_DRAW_FRAMEBUFFER 100;
          opengl.glFramebufferTexture2D opengl.GL_DRAW_FRAMEBUFFER
            opengl.GL_COLOR_ATTACHMENT0 opengl.GL_TEXTURE_2D 7 0;
          opengl.glFramebufferTexture2D opengl.GL_DRAW_FRAMEBUFFER
            (opengl.GL_COLOR_ATTACHMENT0 + 2) opengl.GL_TEXTURE_2D 7 0;
          opengl.glDrawBuffers 3
            [opengl.GL_COLOR_ATTACHMENT0; opengl.GL_NONE;
             opengl.GL_COLOR_ATTACHMENT0 + 2]]
         ++ after
       /\ Without IsDrawBuffers after.
Proof.
  cbv zeta.
  assert (Hrun :
            completes
              (opengl.ExecuteBeginRenderSubpass (constants := opengl.constants_h)
                 (helpers := exampleHelpers) (environment := exampleEnvironment)
                 exampleSparseState) = true)
    by (vm_compute; reflexivity).
  split; [exact Hrun |].
  destruct (proj1
              (draw_buffers_reach_highest_location
                 (constants := opengl.constants_h) (helpers := exampleHelpers)
                 (environment := exampleEnvironment)
                 exampleSparseState _ exampleSparseRenderPass exampleFramebuffer
                 eq_refl eq_refl
                 (completes_value_of _ exampleSparseState Hrun)))
    as (after & Hcalls & Hafter).
  exists after. split; [| exact Hafter].
  rewrite Hcalls. vm_compute. reflexivity.
Defined.

(** A copy between two buffers followed by a draw-free stream. *)
Definition exampleCopyStream : list opengl.Command :=
  [opengl.CopyBufferToBuffer
     {| opengl.copy_buffer := vertexBuffer 30; opengl.copy_buffer_offset := 0 |}
     {| opengl.copy_buffer := vertexBuffer 31; opengl.copy_buffer_offset := 64 |}
     256;
   opengl.SetBlendColor 0 0 0 0].

Lemma pixel_buffers_left_unbound_witness :
  Unbound
    (LastBound opengl.GL_PIXEL_PACK_BUFFER None
       (fst (opengl.ExecuteCommands (constants := opengl.constants_h)
               (helpers := exampleHelpers) (environment := exampleEnvironment)
               exampleCopyStream
               (opengl.InitialState (environment := exampleEnvironment))))).
Proof.
  refine (pixel_buffers_left_unbound (constants := opengl.constants_h)
            (helpers := exampleHelpers) (environment := exampleEnvironment)
            exampleCopyStream
            (opengl.InitialState (environment := exampleEnvironment))
            (value_of
               (opengl.ExecuteCommands (constants := opengl.constants_h)
                  (helpers := exampleHelpers) (environment := exampleEnvironment)
                  exampleCopyStream
                  (opengl.InitialState (environment := exampleEnvironment)))
               (opengl.InitialState (environment := exampleEnvironment)))
            opengl.GL_PIXEL_PACK_BUFFER _ _).
  - left. reflexivity.
  - vm_compute. reflexivity.
Defined.

(** ** OpenGL: the index buffer *)

Section IndexBuffer.
Import opengl.
Context {constants : Constants} {helpers : Helpers} {environment : Environment}.

Lemma bind_value {A B : Type} (calls : list Call) (a : A) (k : A -> M B) :
  bind (calls, Some a) k = (calls ++ fst (k a), snd (k a)).
Proof. unfold bind. destruct (k a). reflexivity. Qed.

(** With only the index buffer to bind, [Apply] binds it and nothing
    else. *)
Lemma InputBufferTracker_Apply_index (this : InputBufferTracker)
    (layout : InputState) (indexBuffer : Buffer) :
  mLastInputState this = Some layout ->
  mDirtyVertexBuffers this = 0 ->
  mIndexBufferDirty this = true ->
  mIndexBuffer this = Some indexBuffer ->
  exists applied : InputBufferTracker,
    InputBufferTracker_Apply this
    = ([glBindBuffer GL_ELEMENT_ARRAY_BUFFER (Buffer_GetHandle indexBuffer)],
       Some applied).
Proof.
  intros Hlast Hdirty Hindexdirty Hindex. unfold InputBufferTracker_Apply.
  rewrite Hindexdirty, Hindex, bind_emit. cbn [fst snd ret].
  rewrite bind_value.
  cbn [mLastInputState mDirtyVertexBuffers]. rewrite Hlast. cbn [deref].
  rewrite bind_ret_l, Hdirty, Z.land_0_l, IterateBitSet_empty.
  cbn [for_each]. rewrite bind_ret_l. eexists. reflexivity.
Qed.

(** The draw call of [DrawElements]. *)
Definition DrawElementsCall (renderPipeline : RenderPipeline)
    (indexBufferOffset indexCount instanceCount firstIndex firstInstance : Z)
    (formatType : GLenum) : Call :=
  let indices :=
    (firstIndex * IndexFormatSize (GetIndexFormat renderPipeline)
     + indexBufferOffset) mod 2 ^ 64 in
  if firstInstance >? 0
  then glDrawElementsInstancedBaseInstance (GetGLPrimitiveTopology renderPipeline)
         indexCount formatType indices instanceCount firstInstance
  else glDrawElementsInstanced (GetGLPrimitiveTopology renderPipeline)
         indexCount formatType indices instanceCount.

(** X23.  The index buffer is bound at the next draw and addressed from
    the offset it was set with.  After a completed draw, [SetIndexBuffer]
    followed by [DrawElements] makes two calls: it binds the buffer to
    [GL_ELEMENT_ARRAY_BUFFER] and draws with the index type of the render
    pipeline, from the address [firstIndex * IndexFormatSize + offset].
    For an index format other than [Uint16] and [Uint32] the buffer is
    bound, [UNREACHABLE()] is reached and nothing is drawn. *)
Theorem index_buffer_is_bound_at_the_next_draw (first : Command)
    (s s' : ExecuteState) (buffer : Buffer)
    (offset indexCount instanceCount firstIndex firstInstance : Z) :
  IsDrawCommand first = true ->
  snd (ExecuteCommand first s) = Some s' ->
  exists renderPipeline : RenderPipeline,
    lastRenderPipeline s' = Some renderPipeline
    /\ let run :=
         ExecuteCommands
           [SetIndexBuffer buffer offset;
            DrawElements indexCount instanceCount firstIndex firstInstance] s' in
       let bindIndexBuffer :=
         glBindBuffer GL_ELEMENT_ARRAY_BUFFER (Buffer_GetHandle buffer) in
       let draw :=
         DrawElementsCall renderPipeline offset indexCount instanceCount firstIndex
           firstInstance in
       match GetIndexFormat renderPipeline with
       | Uint16 =>
           fst run = [bindIndexBuffer; draw GL_UNSIGNED_SHORT] /\ snd run <> None
       | Uint32 =>
           fst run = [bindIndexBuffer; draw GL_UNSIGNED_INT] /\ snd run <> None
       | IndexFormat_other _ => fst run = [bindIndexBuffer] /\ snd run = None
       end.
Proof.
  intros Hdraw Hrun.
  destruct (draw_completed first s s' Hdraw Hrun)
    as ((P & G & HP & HG) & (renderPipeline & Hpipeline) & Hclean
        & layout & Hlayout & Hnothing & _).
  destruct (PushConstantTracker_Apply_silent (pushConstants s') P G Hclean)
    as (t1 & Hpush & _).
  destruct (InputBufferTracker_Apply_index
              (InputBufferTracker_OnSetIndexBuffer (inputBuffers s') buffer)
              layout buffer Hlayout Hnothing eq_refl eq_refl)
    as (t2 & Hinput).
  exists renderPipeline. split; [exact Hpipeline |]. cbv zeta.
  unfold ExecuteCommands. cbn [for_each ExecuteCommand]. rewrite bind_ret_l.
  cbv zeta.
  cbn [lastPipeline lastGLPipeline lastRenderPipeline pushConstants inputBuffers
       indexBufferOffset with_inputBuffers with_pushConstants].
  rewrite HP, HG, Hpush, bind_silent.
  cbn [inputBuffers with_pushConstants with_inputBuffers].
  rewrite Hinput, bind_value.
  cbn [lastRenderPipeline indexBufferOffset with_inputBuffers with_pushConstants].
  rewrite Hpipeline. cbn [deref]. rewrite bind_ret_l.
  unfold DrawElementsCall, IndexFormatType.
  destruct (GetIndexFormat renderPipeline); cbn [bind fault ret fst snd app];
    rewrite ?bind_ret_l;
    destruct (firstInstance >? 0); cbn; split; try reflexivity; discriminate.
Qed.

End IndexBuffer.

(** The index buffer is set after the first triangle; six indices are drawn
    from the fourth index on. *)
Lemma index_buffer_is_bound_at_the_next_draw_witness :
  exists renderPipeline : opengl.RenderPipeline,
    opengl.lastRenderPipeline
      (value_of
         (opengl.ExecuteCommand (constants := opengl.constants_h)
            (helpers := exampleHelpers) (environment := exampleEnvironment)
            (opengl.DrawArrays 3 1 0 0) exampleDrawnState)
         exampleDrawnState)
    = Some renderPipeline
    /\ let run :=
         opengl.ExecuteCommands (constants := opengl.constants_h)
           (helpers := exampleHelpers) (environment := exampleEnvironment)
           [opengl.SetIndexBuffer (vertexBuffer 40) 64;
            opengl.DrawElements 6 1 3 0]
           (value_of
              (opengl.ExecuteCommand (constants := opengl.constants_h)
                 (helpers := exampleHelpers) (environment := exampleEnvironment)
                 (opengl.DrawArrays 3 1 0 0) exampleDrawnState)
              exampleDrawnState) in
       let bindIndexBuffer :=
         opengl.glBindBuffer opengl.GL_ELEMENT_ARRAY_BUFFER
           (opengl.Buffer_GetHandle (vertexBuffer 40)) in
       let draw :=
         DrawElementsCall (helpers := exampleHelpers) renderPipeline 64 6 1 3 0 in
       match opengl.GetIndexFormat renderPipeline with
       | opengl.Uint16 =>
           fst run = [bindIndexBuffer; draw opengl.GL_UNSIGNED_SHORT]
           /\ snd run <> None
       | opengl.Uint32 =>
           fst run = [bindIndexBuffer; draw opengl.GL_UNSIGNED_INT]
           /\ snd run <> None
       | opengl.IndexFormat_other _ => fst run = [bindIndexBuffer] /\ snd run = None
       end.
Proof.
  apply (index_buffer_is_bound_at_the_next_draw (constants := opengl.constants_h)
           (helpers := exampleHelpers) (environment := exampleEnvironment)
           (opengl.DrawArrays 3 1 0 0) exampleDrawnState);
    [reflexivity | vm_compute; reflexivity].
Defined.
